(** * Elegoo print monitor: status projection, broadcast gate, media relay
      and connectivity supervision of [server.js], as a shallow embedding.

    Conventions of the embedding.
    - JavaScript numbers that carry status codes, timestamps (milliseconds of
      [Date.now()]) and telemetry are integers of [Z]; [null]/[undefined] in a
      field is [None].
    - The module-level variables of [server.js] are the fields of the record
      [Server], grouped by component; a function of [server.js] that reads or
      writes them is a function on [Server].  It takes the clock reading [now]
      where the source calls [Date.now()] or [new Date()]: one reading per
      synchronous run of a handler, except in the read loop of the camera
      stream, which takes one reading per frame.
    - What the process does to the outside is logged in the state: the
      messages sent to web sockets ([sent]), the writes to camera responses
      ([cameraWrites]), the outstanding [setTimeout] callbacks ([timers]) and
      the exit code ([exited]).  [client.send] does not throw; [res.write]
      throws for the responses listed in [brokenResponses].
    - An [async] function is split at its [await]s: the prefix that runs
      synchronously inside the call, and one resumption per awaited result,
      the result being supplied by the environment.  The collaborators
      (SDCP client, discovery, user statistics) appear only through what they
      answer. *)

From Stdlib Require Import ZArith QArith List String Ascii Bool Lia Arith.
From Stdlib Require Import DecimalString.
Import ListNotations.
Local Close Scope Q_scope.
Local Open Scope string_scope.
Local Open Scope list_scope.
Local Open Scope Z_scope.

(** ** JavaScript helpers *)

(** [a || b] on strings: the empty string is falsy. *)
Definition str_or (a : option string) (b : string) : string :=
  match a with
  | Some s => if String.eqb s EmptyString then b else s
  | None => b
  end.

(** [a || b] on numbers: [0] and [undefined] are falsy. *)
Definition num_or (a : option Z) (b : Z) : Z :=
  match a with
  | Some n => if Z.eqb n 0 then b else n
  | None => b
  end.

(** Truthiness of a string-or-null value. *)
Definition truthy_str (a : option string) : bool :=
  match a with
  | Some s => negb (String.eqb s EmptyString)
  | None => false
  end.

(** [x === k] for a nullable number [x] and a number literal [k]. *)
Definition code_is (x : option Z) (k : Z) : bool :=
  match x with
  | Some n => Z.eqb n k
  | None => false
  end.

(** [arr.includes(x)] for an array of number literals. *)
Definition includes (arr : list Z) (x : option Z) : bool :=
  existsb (code_is x) arr.

(** [table[key]] for an object literal with numeric keys. *)
Fixpoint lookup (table : list (Z * string)) (key : option Z) : option string :=
  match table with
  | [] => None
  | (k, v) :: rest => if code_is key k then Some v else lookup rest key
  end.

(** ** utils/status-codes *)

Module MACHINE_STATUS.
Definition IDLE := 0.
Definition PRINTING := 1.
Definition FILE_TRANSFERRING := 2.
Definition LEVELING := 5.
Definition STOPPING := 7.
Definition STOPPED := 8.
Definition HOMING := 9.
Definition RECOVERY := 12.
Definition PRINTING_RECOVERY := 13.
End MACHINE_STATUS.

Definition MACHINE_STATUS_LABELS : list (Z * string) :=
  [ (0, "IDLE"); (1, "PRINTING"); (2, "FILE_TRANSFERRING"); (5, "LEVELING");
    (7, "STOPPING"); (8, "STOPPED"); (9, "HOMING"); (12, "RECOVERY");
    (13, "PRINTING") ].

Module JOB_STATUS.
Definition IDLE := 0.
Definition HOMING := 1.
Definition DROPPING := 2.
Definition PRINTING := 3.
Definition LIFTING := 4.
Definition PAUSING := 5.
Definition PAUSED := 6.
Definition STOPPING := 7.
Definition STOPPED := 8.
Definition COMPLETE := 9.
Definition FILE_CHECKING := 10.
Definition RECOVERY := 12.
Definition PRINTING_RECOVERY := 13.
Definition LOADING := 15.
Definition PREHEATING := 16.
Definition LEVELING := 20.
End JOB_STATUS.

Definition JOB_STATUS_LABELS : list (Z * string) :=
  [ (0, "IDLE"); (1, "HOMING"); (2, "DROPPING"); (3, "PRINTING");
    (4, "LIFTING"); (5, "PAUSING"); (6, "PAUSED"); (7, "STOPPING");
    (8, "STOPPED"); (9, "COMPLETE"); (10, "FILE_CHECKING"); (12, "RECOVERY");
    (13, "PRINTING_RECOVERY"); (15, "LOADING"); (16, "PREHEATING");
    (20, "LEVELING") ].

(** ** Device payloads

    The decoded SDCP message handed to [updatePrinterStatus].  Status codes
    are integers, as the protocol sends them; [CurrentStatus] is absent, a
    bare number or an array of numbers.  A code of another JavaScript type (a
    string such as ["13"], which the table lookups would coerce) is outside
    the embedding. *)

Inductive CurrentStatusField :=
| CS_absent
| CS_number (n : Z)
| CS_array (codes : list Z).

Record PrintInfoT := {
  PI_Status : option Z;
  PI_Filename : option string;
  PI_Progress : option Z;
  PI_CurrentTicks : option Z;
  PI_TotalTicks : option Z;
  PI_TotalLayer : option Z;
  PI_CurrentLayer : option Z
}.

Record StatusBlock := {
  CurrentStatus : CurrentStatusField;
  PrintInfo : option PrintInfoT;
  TempOfHotbed : option Z;
  TempTargetHotbed : option Z;
  TempOfNozzle : option Z;
  TempTargetNozzle : option Z;
  TempOfBox : option Z;
  TempTargetBox : option Z
}.

Record AttributesT := { Name : option string }.

Record Payload := {
  Attributes : option AttributesT;
  Status : option StatusBlock
}.

(** The [{}] that [data?.Status || {}] falls back to. *)
Definition emptyStatusBlock : StatusBlock :=
  {| CurrentStatus := CS_absent; PrintInfo := None;
     TempOfHotbed := None; TempTargetHotbed := None;
     TempOfNozzle := None; TempTargetNozzle := None;
     TempOfBox := None; TempTargetBox := None |}.

(** ** utils/status-utils *)

Record CodeState := { state_label : string; code : option Z }.

Record StatusT := {
  consolidated : string;
  machine : CodeState;
  job : CodeState
}.

(** The object [parseStatusPayload] returns: [{ status, status_code }]. *)
Record Parsed := { parsed_status : StatusT; parsed_status_code : option Z }.

Definition mapMachineStatusIntToLabel (statusInt : option Z) : option string :=
  if code_is statusInt MACHINE_STATUS.PRINTING_RECOVERY then Some "PRINTING"
  else if truthy_str (lookup MACHINE_STATUS_LABELS statusInt)
       then lookup MACHINE_STATUS_LABELS statusInt
       else None.

Definition mapJobStatusIntToLabel (statusInt : option Z) : option string :=
  if includes [18; 19; 21] statusInt then Some "LOADING"
  else if code_is statusInt JOB_STATUS.PRINTING_RECOVERY then Some "PRINTING"
  else if truthy_str (lookup JOB_STATUS_LABELS statusInt)
       then lookup JOB_STATUS_LABELS statusInt
       else None.

Definition mapStatusIntToLabel (statusInt : option Z) : option string :=
  if includes [18; 19; 21] statusInt then Some "LOADING"
  else if code_is statusInt MACHINE_STATUS.PRINTING_RECOVERY then Some "PRINTING"
  else if truthy_str (lookup MACHINE_STATUS_LABELS statusInt)
       then lookup MACHINE_STATUS_LABELS statusInt
       else None.

(** [machineStatusCode]: a bare number is wrapped into a one-element array,
    then the first element of a non-empty array is taken. *)
Definition machineStatusCodeOf (cs : CurrentStatusField) : option Z :=
  match cs with
  | CS_absent => None
  | CS_number n => Some n
  | CS_array [] => None
  | CS_array (c :: _) => Some c
  end.

(** [statusBlock.PrintInfo?.Status ?? null]. *)
Definition jobStatusCodeOf (sb : StatusBlock) : option Z :=
  match PrintInfo sb with
  | Some pi => PI_Status pi
  | None => None
  end.

Definition statusBlockOf (data : option Payload) : StatusBlock :=
  match data with
  | Some d => match Status d with Some sb => sb | None => emptyStatusBlock end
  | None => emptyStatusBlock
  end.

Definition parseStatusPayload (data : option Payload) : Parsed :=
  let statusBlock := statusBlockOf data in
  let machineStatusCode := machineStatusCodeOf (CurrentStatus statusBlock) in
  let machineState := str_or (mapMachineStatusIntToLabel machineStatusCode) "UNKNOWN" in
  let jobStatusCode := jobStatusCodeOf statusBlock in
  let jobState := str_or (mapJobStatusIntToLabel jobStatusCode) "UNKNOWN" in
  let consolidatedStatus :=
    if code_is jobStatusCode JOB_STATUS.PRINTING_RECOVERY then "PRINTING"
    else machineState in
  {| parsed_status :=
       {| consolidated := consolidatedStatus;
          machine := {| state_label := machineState; code := machineStatusCode |};
          job := {| state_label := jobState; code := jobStatusCode |} |};
     parsed_status_code := machineStatusCode |}.

(** ** server.js: the state of the process *)

(** [printerStatus.state] holds the text ['Disconnected'] until the first
    status payload, and the numeric machine code (or [null]) afterwards. *)
Inductive StateField :=
| StateText (s : string)
| StateCode (c : option Z).

(** A property that is either missing from the object or set to [null]. *)
Inductive Nulled := IsUndefined | IsNull.

Record TempPair := { current : Z; target : Z }.

Record Temperatures := { bed : TempPair; nozzle : TempPair; enclosure : TempPair }.

(** [layers]: [{total, finished}] by default, [{total, current}] after an
    update. *)
Record Layers := { total : Z; finished : option Z; layer_current : option Z }.

(** What [userStats.getSnapshot()] returns (utils/user-stats). *)
Record UserSnapshot := {
  snap_webClients : nat;
  snap_cameraClients : nat;
  snap_totalWebConnections : nat;
  snap_totalCameraConnections : nat
}.

(** [printerStatus] without its [temperatures] property.  Every
    [printerStatus] is a shallow copy of [defaultPrinterStatus], so all of them
    share the one nested [temperatures] object, which [updatePrinterStatus]
    mutates in place: it is the field [temperatures] of [Server]. *)
Record PrinterStatus := {
  connected : bool;
  printerName : string;
  state : StateField;
  progress : Z;
  layerProgress : Z;
  currentFile : string;
  printTime : Z;
  remainingTime : Z;
  calculatedTime : option Z;
  cameraAvailable : bool;
  cameraError : option string;
  lastUpdate : option Z;
  customState : Z;
  layers : Layers;
  status : StatusT;
  status_code : option Z;
  prev_status : option string;
  users : option UserSnapshot;
  machine_status : option string;
  job_status : Nulled;
  machine_status_code : Nulled;
  job_status_code : Nulled
}.

Definition set_connected (v : bool) (r : PrinterStatus) : PrinterStatus :=
  {| connected := v; printerName := printerName r; state := state r; progress
     := progress r; layerProgress := layerProgress r; currentFile :=
     currentFile r; printTime := printTime r; remainingTime := remainingTime
     r; calculatedTime := calculatedTime r; cameraAvailable := cameraAvailable
     r; cameraError := cameraError r; lastUpdate := lastUpdate r; customState
     := customState r; layers := layers r; status := status r; status_code :=
     status_code r; prev_status := prev_status r; users := users r;
     machine_status := machine_status r; job_status := job_status r;
     machine_status_code := machine_status_code r; job_status_code :=
     job_status_code r |}.
Definition set_printerName (v : string) (r : PrinterStatus) : PrinterStatus :=
  {| connected := connected r; printerName := v; state := state r; progress :=
     progress r; layerProgress := layerProgress r; currentFile := currentFile
     r; printTime := printTime r; remainingTime := remainingTime r;
     calculatedTime := calculatedTime r; cameraAvailable := cameraAvailable r;
     cameraError := cameraError r; lastUpdate := lastUpdate r; customState :=
     customState r; layers := layers r; status := status r; status_code :=
     status_code r; prev_status := prev_status r; users := users r;
     machine_status := machine_status r; job_status := job_status r;
     machine_status_code := machine_status_code r; job_status_code :=
     job_status_code r |}.
Definition set_state (v : StateField) (r : PrinterStatus) : PrinterStatus :=
  {| connected := connected r; printerName := printerName r; state := v;
     progress := progress r; layerProgress := layerProgress r; currentFile :=
     currentFile r; printTime := printTime r; remainingTime := remainingTime
     r; calculatedTime := calculatedTime r; cameraAvailable := cameraAvailable
     r; cameraError := cameraError r; lastUpdate := lastUpdate r; customState
     := customState r; layers := layers r; status := status r; status_code :=
     status_code r; prev_status := prev_status r; users := users r;
     machine_status := machine_status r; job_status := job_status r;
     machine_status_code := machine_status_code r; job_status_code :=
     job_status_code r |}.
Definition set_progress (v : Z) (r : PrinterStatus) : PrinterStatus :=
  {| connected := connected r; printerName := printerName r; state := state r;
     progress := v; layerProgress := layerProgress r; currentFile :=
     currentFile r; printTime := printTime r; remainingTime := remainingTime
     r; calculatedTime := calculatedTime r; cameraAvailable := cameraAvailable
     r; cameraError := cameraError r; lastUpdate := lastUpdate r; customState
     := customState r; layers := layers r; status := status r; status_code :=
     status_code r; prev_status := prev_status r; users := users r;
     machine_status := machine_status r; job_status := job_status r;
     machine_status_code := machine_status_code r; job_status_code :=
     job_status_code r |}.
Definition set_currentFile (v : string) (r : PrinterStatus) : PrinterStatus :=
  {| connected := connected r; printerName := printerName r; state := state r;
     progress := progress r; layerProgress := layerProgress r; currentFile :=
     v; printTime := printTime r; remainingTime := remainingTime r;
     calculatedTime := calculatedTime r; cameraAvailable := cameraAvailable r;
     cameraError := cameraError r; lastUpdate := lastUpdate r; customState :=
     customState r; layers := layers r; status := status r; status_code :=
     status_code r; prev_status := prev_status r; users := users r;
     machine_status := machine_status r; job_status := job_status r;
     machine_status_code := machine_status_code r; job_status_code :=
     job_status_code r |}.
Definition set_printTime (v : Z) (r : PrinterStatus) : PrinterStatus :=
  {| connected := connected r; printerName := printerName r; state := state r;
     progress := progress r; layerProgress := layerProgress r; currentFile :=
     currentFile r; printTime := v; remainingTime := remainingTime r;
     calculatedTime := calculatedTime r; cameraAvailable := cameraAvailable r;
     cameraError := cameraError r; lastUpdate := lastUpdate r; customState :=
     customState r; layers := layers r; status := status r; status_code :=
     status_code r; prev_status := prev_status r; users := users r;
     machine_status := machine_status r; job_status := job_status r;
     machine_status_code := machine_status_code r; job_status_code :=
     job_status_code r |}.
Definition set_remainingTime (v : Z) (r : PrinterStatus) : PrinterStatus :=
  {| connected := connected r; printerName := printerName r; state := state r;
     progress := progress r; layerProgress := layerProgress r; currentFile :=
     currentFile r; printTime := printTime r; remainingTime := v;
     calculatedTime := calculatedTime r; cameraAvailable := cameraAvailable r;
     cameraError := cameraError r; lastUpdate := lastUpdate r; customState :=
     customState r; layers := layers r; status := status r; status_code :=
     status_code r; prev_status := prev_status r; users := users r;
     machine_status := machine_status r; job_status := job_status r;
     machine_status_code := machine_status_code r; job_status_code :=
     job_status_code r |}.
Definition set_cameraAvailable (v : bool) (r : PrinterStatus) : PrinterStatus :=
  {| connected := connected r; printerName := printerName r; state := state r;
     progress := progress r; layerProgress := layerProgress r; currentFile :=
     currentFile r; printTime := printTime r; remainingTime := remainingTime
     r; calculatedTime := calculatedTime r; cameraAvailable := v; cameraError
     := cameraError r; lastUpdate := lastUpdate r; customState := customState
     r; layers := layers r; status := status r; status_code := status_code r;
     prev_status := prev_status r; users := users r; machine_status :=
     machine_status r; job_status := job_status r; machine_status_code :=
     machine_status_code r; job_status_code := job_status_code r |}.
Definition set_cameraError (v : option string) (r : PrinterStatus) : PrinterStatus :=
  {| connected := connected r; printerName := printerName r; state := state r;
     progress := progress r; layerProgress := layerProgress r; currentFile :=
     currentFile r; printTime := printTime r; remainingTime := remainingTime
     r; calculatedTime := calculatedTime r; cameraAvailable := cameraAvailable
     r; cameraError := v; lastUpdate := lastUpdate r; customState :=
     customState r; layers := layers r; status := status r; status_code :=
     status_code r; prev_status := prev_status r; users := users r;
     machine_status := machine_status r; job_status := job_status r;
     machine_status_code := machine_status_code r; job_status_code :=
     job_status_code r |}.
Definition set_lastUpdate (v : option Z) (r : PrinterStatus) : PrinterStatus :=
  {| connected := connected r; printerName := printerName r; state := state r;
     progress := progress r; layerProgress := layerProgress r; currentFile :=
     currentFile r; printTime := printTime r; remainingTime := remainingTime
     r; calculatedTime := calculatedTime r; cameraAvailable := cameraAvailable
     r; cameraError := cameraError r; lastUpdate := v; customState :=
     customState r; layers := layers r; status := status r; status_code :=
     status_code r; prev_status := prev_status r; users := users r;
     machine_status := machine_status r; job_status := job_status r;
     machine_status_code := machine_status_code r; job_status_code :=
     job_status_code r |}.
Definition set_customState (v : Z) (r : PrinterStatus) : PrinterStatus :=
  {| connected := connected r; printerName := printerName r; state := state r;
     progress := progress r; layerProgress := layerProgress r; currentFile :=
     currentFile r; printTime := printTime r; remainingTime := remainingTime
     r; calculatedTime := calculatedTime r; cameraAvailable := cameraAvailable
     r; cameraError := cameraError r; lastUpdate := lastUpdate r; customState
     := v; layers := layers r; status := status r; status_code := status_code
     r; prev_status := prev_status r; users := users r; machine_status :=
     machine_status r; job_status := job_status r; machine_status_code :=
     machine_status_code r; job_status_code := job_status_code r |}.
Definition set_layers (v : Layers) (r : PrinterStatus) : PrinterStatus :=
  {| connected := connected r; printerName := printerName r; state := state r;
     progress := progress r; layerProgress := layerProgress r; currentFile :=
     currentFile r; printTime := printTime r; remainingTime := remainingTime
     r; calculatedTime := calculatedTime r; cameraAvailable := cameraAvailable
     r; cameraError := cameraError r; lastUpdate := lastUpdate r; customState
     := customState r; layers := v; status := status r; status_code :=
     status_code r; prev_status := prev_status r; users := users r;
     machine_status := machine_status r; job_status := job_status r;
     machine_status_code := machine_status_code r; job_status_code :=
     job_status_code r |}.
Definition set_status (v : StatusT) (r : PrinterStatus) : PrinterStatus :=
  {| connected := connected r; printerName := printerName r; state := state r;
     progress := progress r; layerProgress := layerProgress r; currentFile :=
     currentFile r; printTime := printTime r; remainingTime := remainingTime
     r; calculatedTime := calculatedTime r; cameraAvailable := cameraAvailable
     r; cameraError := cameraError r; lastUpdate := lastUpdate r; customState
     := customState r; layers := layers r; status := v; status_code :=
     status_code r; prev_status := prev_status r; users := users r;
     machine_status := machine_status r; job_status := job_status r;
     machine_status_code := machine_status_code r; job_status_code :=
     job_status_code r |}.
Definition set_status_code (v : option Z) (r : PrinterStatus) : PrinterStatus :=
  {| connected := connected r; printerName := printerName r; state := state r;
     progress := progress r; layerProgress := layerProgress r; currentFile :=
     currentFile r; printTime := printTime r; remainingTime := remainingTime
     r; calculatedTime := calculatedTime r; cameraAvailable := cameraAvailable
     r; cameraError := cameraError r; lastUpdate := lastUpdate r; customState
     := customState r; layers := layers r; status := status r; status_code :=
     v; prev_status := prev_status r; users := users r; machine_status :=
     machine_status r; job_status := job_status r; machine_status_code :=
     machine_status_code r; job_status_code := job_status_code r |}.
Definition set_prev_status (v : option string) (r : PrinterStatus) : PrinterStatus :=
  {| connected := connected r; printerName := printerName r; state := state r;
     progress := progress r; layerProgress := layerProgress r; currentFile :=
     currentFile r; printTime := printTime r; remainingTime := remainingTime
     r; calculatedTime := calculatedTime r; cameraAvailable := cameraAvailable
     r; cameraError := cameraError r; lastUpdate := lastUpdate r; customState
     := customState r; layers := layers r; status := status r; status_code :=
     status_code r; prev_status := v; users := users r; machine_status :=
     machine_status r; job_status := job_status r; machine_status_code :=
     machine_status_code r; job_status_code := job_status_code r |}.
Definition set_users (v : option UserSnapshot) (r : PrinterStatus) : PrinterStatus :=
  {| connected := connected r; printerName := printerName r; state := state r;
     progress := progress r; layerProgress := layerProgress r; currentFile :=
     currentFile r; printTime := printTime r; remainingTime := remainingTime
     r; calculatedTime := calculatedTime r; cameraAvailable := cameraAvailable
     r; cameraError := cameraError r; lastUpdate := lastUpdate r; customState
     := customState r; layers := layers r; status := status r; status_code :=
     status_code r; prev_status := prev_status r; users := v; machine_status
     := machine_status r; job_status := job_status r; machine_status_code :=
     machine_status_code r; job_status_code := job_status_code r |}.
Definition set_machine_status (v : option string) (r : PrinterStatus) : PrinterStatus :=
  {| connected := connected r; printerName := printerName r; state := state r;
     progress := progress r; layerProgress := layerProgress r; currentFile :=
     currentFile r; printTime := printTime r; remainingTime := remainingTime
     r; calculatedTime := calculatedTime r; cameraAvailable := cameraAvailable
     r; cameraError := cameraError r; lastUpdate := lastUpdate r; customState
     := customState r; layers := layers r; status := status r; status_code :=
     status_code r; prev_status := prev_status r; users := users r;
     machine_status := v; job_status := job_status r; machine_status_code :=
     machine_status_code r; job_status_code := job_status_code r |}.
Definition set_job_status (v : Nulled) (r : PrinterStatus) : PrinterStatus :=
  {| connected := connected r; printerName := printerName r; state := state r;
     progress := progress r; layerProgress := layerProgress r; currentFile :=
     currentFile r; printTime := printTime r; remainingTime := remainingTime
     r; calculatedTime := calculatedTime r; cameraAvailable := cameraAvailable
     r; cameraError := cameraError r; lastUpdate := lastUpdate r; customState
     := customState r; layers := layers r; status := status r; status_code :=
     status_code r; prev_status := prev_status r; users := users r;
     machine_status := machine_status r; job_status := v; machine_status_code
     := machine_status_code r; job_status_code := job_status_code r |}.
Definition set_machine_status_code (v : Nulled) (r : PrinterStatus) : PrinterStatus :=
  {| connected := connected r; printerName := printerName r; state := state r;
     progress := progress r; layerProgress := layerProgress r; currentFile :=
     currentFile r; printTime := printTime r; remainingTime := remainingTime
     r; calculatedTime := calculatedTime r; cameraAvailable := cameraAvailable
     r; cameraError := cameraError r; lastUpdate := lastUpdate r; customState
     := customState r; layers := layers r; status := status r; status_code :=
     status_code r; prev_status := prev_status r; users := users r;
     machine_status := machine_status r; job_status := job_status r;
     machine_status_code := v; job_status_code := job_status_code r |}.
Definition set_job_status_code (v : Nulled) (r : PrinterStatus) : PrinterStatus :=
  {| connected := connected r; printerName := printerName r; state := state r;
     progress := progress r; layerProgress := layerProgress r; currentFile :=
     currentFile r; printTime := printTime r; remainingTime := remainingTime
     r; calculatedTime := calculatedTime r; cameraAvailable := cameraAvailable
     r; cameraError := cameraError r; lastUpdate := lastUpdate r; customState
     := customState r; layers := layers r; status := status r; status_code :=
     status_code r; prev_status := prev_status r; users := users r;
     machine_status := machine_status r; job_status := job_status r;
     machine_status_code := machine_status_code r; job_status_code := v |}.

Definition defaultTemperatures : Temperatures :=
  {| bed := {| current := 0; target := 0 |};
     nozzle := {| current := 0; target := 0 |};
     enclosure := {| current := 0; target := 0 |} |}.

Definition defaultPrinterStatus : PrinterStatus :=
  {| connected := false;
     printerName := "Unknown";
     state := StateText "Disconnected";
     progress := 0;
     layerProgress := 0;
     currentFile := EmptyString;
     printTime := 0;
     remainingTime := 0;
     calculatedTime := None;
     cameraAvailable := false;
     cameraError := None;
     lastUpdate := None;
     customState := 0;
     layers := {| total := 0; finished := Some 0; layer_current := None |};
     status :=
       {| consolidated := "UNKNOWN";
          machine := {| state_label := "UNKNOWN"; code := None |};
          job := {| state_label := "UNKNOWN"; code := None |} |};
     status_code := None;
     prev_status := None;
     users := None;
     machine_status := None;
     job_status := IsUndefined;
     machine_status_code := IsUndefined;
     job_status_code := IsUndefined |}.

(** The argument of [broadcastToClients].  [JSON.stringify(message)] runs at
    the call, so what a send or a deferred send carries is the value the
    message had at the call: a message is an immutable snapshot here. *)
Inductive message :=
| StatusMessage (printer : PrinterStatus) (temps : Temperatures) (usersNow : UserSnapshot)
| ServerRestarting (reason : string).

Definition msg_type (m : message) : string :=
  match m with
  | StatusMessage _ _ _ => "status"
  | ServerRestarting _ => "server_restarting"
  end.

(** The closures handed to [setTimeout]. *)
Inductive callback :=
| CbDeferredBroadcast (data : message)
| CbProcessExit (exitCode : Z)
| CbAutoConnect
| CbRetryCameraStreaming.

Record Timer := { handle : nat; due : Z; action : callback }.

Record WebClient := { ws_id : nat; readyState : Z }.

(** [WebSocket.OPEN]. *)
Definition OPEN : Z := 1.

Definition Frame := list Byte.byte.

(** What a camera subscriber writes to its HTTP response. *)
Inductive chunk :=
| WriteOpeningBoundary
| WriteContentType
| WriteContentLength (n : nat)
| WriteFrame (f : Frame)
| WriteClosingBoundary.

Record FailureTracker := { lastError : option string; count : nat }.

(** The local variables of one [startCameraStreaming] call that reached its
    read loop. *)
Record Stream := {
  boundaryBuffer : list Byte.byte;
  buffer : list Byte.byte;
  lastFrameTime : Z
}.

Record DiscoveredPrinter := {
  address : string;
  prn_Name : option string;
  prn_Id : option string;
  prn_Proxy : bool
}.

Record AutoConnectState := {
  printers : list DiscoveredPrinter;
  currentIdx : nat;
  failCount : nat
}.

(** Where a call of [ensureReconnectSetup] that passed its guard is
    suspended. *)
Inductive SetupPhase :=
| AwaitCameraURLResponse
| AwaitSetupCameraURL
| AwaitFetch
| AwaitStartCameraStreaming
| AwaitOnPrinterConnected.

Record Gate := {
  lastBroadcastTime : Z;
  pendingBroadcast : option nat
}.

Definition set_lastBroadcastTime (v : Z) (r : Gate) : Gate :=
  {| lastBroadcastTime := v; pendingBroadcast := pendingBroadcast r |}.
Definition set_pendingBroadcast (v : option nat) (r : Gate) : Gate :=
  {| lastBroadcastTime := lastBroadcastTime r; pendingBroadcast := v |}.

Record Relay := {
  cameraStreamURL : option string;
  cameraSubscribers : list nat;
  latestFrame : option Frame;
  cameraStartFailure : FailureTracker;
  streams : list Stream
}.

Definition set_cameraStreamURL (v : option string) (r : Relay) : Relay :=
  {| cameraStreamURL := v; cameraSubscribers := cameraSubscribers r;
     latestFrame := latestFrame r; cameraStartFailure := cameraStartFailure r;
     streams := streams r |}.
Definition set_cameraSubscribers (v : list nat) (r : Relay) : Relay :=
  {| cameraStreamURL := cameraStreamURL r; cameraSubscribers := v; latestFrame
     := latestFrame r; cameraStartFailure := cameraStartFailure r; streams :=
     streams r |}.
Definition set_latestFrame (v : option Frame) (r : Relay) : Relay :=
  {| cameraStreamURL := cameraStreamURL r; cameraSubscribers :=
     cameraSubscribers r; latestFrame := v; cameraStartFailure :=
     cameraStartFailure r; streams := streams r |}.
Definition set_cameraStartFailure (v : FailureTracker) (r : Relay) : Relay :=
  {| cameraStreamURL := cameraStreamURL r; cameraSubscribers :=
     cameraSubscribers r; latestFrame := latestFrame r; cameraStartFailure :=
     v; streams := streams r |}.
Definition set_streams (v : list Stream) (r : Relay) : Relay :=
  {| cameraStreamURL := cameraStreamURL r; cameraSubscribers :=
     cameraSubscribers r; latestFrame := latestFrame r; cameraStartFailure :=
     cameraStartFailure r; streams := v |}.

Record Supervisor := {
  printerClient : option string;
  reconnectSetupInProgress : bool;
  reconnectSetupNeeded : bool;
  isFirstUpdate : bool;
  autoConnectState : AutoConnectState;
  setupTasks : list SetupPhase
}.

Definition set_printerClient (v : option string) (r : Supervisor) : Supervisor :=
  {| printerClient := v; reconnectSetupInProgress := reconnectSetupInProgress
     r; reconnectSetupNeeded := reconnectSetupNeeded r; isFirstUpdate :=
     isFirstUpdate r; autoConnectState := autoConnectState r; setupTasks :=
     setupTasks r |}.
Definition set_reconnectSetupInProgress (v : bool) (r : Supervisor) : Supervisor :=
  {| printerClient := printerClient r; reconnectSetupInProgress := v;
     reconnectSetupNeeded := reconnectSetupNeeded r; isFirstUpdate :=
     isFirstUpdate r; autoConnectState := autoConnectState r; setupTasks :=
     setupTasks r |}.
Definition set_reconnectSetupNeeded (v : bool) (r : Supervisor) : Supervisor :=
  {| printerClient := printerClient r; reconnectSetupInProgress :=
     reconnectSetupInProgress r; reconnectSetupNeeded := v; isFirstUpdate :=
     isFirstUpdate r; autoConnectState := autoConnectState r; setupTasks :=
     setupTasks r |}.
Definition set_isFirstUpdate (v : bool) (r : Supervisor) : Supervisor :=
  {| printerClient := printerClient r; reconnectSetupInProgress :=
     reconnectSetupInProgress r; reconnectSetupNeeded := reconnectSetupNeeded
     r; isFirstUpdate := v; autoConnectState := autoConnectState r; setupTasks
     := setupTasks r |}.
Definition set_autoConnectState (v : AutoConnectState) (r : Supervisor) : Supervisor :=
  {| printerClient := printerClient r; reconnectSetupInProgress :=
     reconnectSetupInProgress r; reconnectSetupNeeded := reconnectSetupNeeded
     r; isFirstUpdate := isFirstUpdate r; autoConnectState := v; setupTasks :=
     setupTasks r |}.
Definition set_setupTasks (v : list SetupPhase) (r : Supervisor) : Supervisor :=
  {| printerClient := printerClient r; reconnectSetupInProgress :=
     reconnectSetupInProgress r; reconnectSetupNeeded := reconnectSetupNeeded
     r; isFirstUpdate := isFirstUpdate r; autoConnectState := autoConnectState
     r; setupTasks := v |}.

Record Runtime := {
  timers : list Timer;
  nextTimer : nat;
  sent : list (nat * message);
  cameraWrites : list (nat * chunk);
  brokenResponses : list nat;
  exited : option Z
}.

Definition set_timers (v : list Timer) (r : Runtime) : Runtime :=
  {| timers := v; nextTimer := nextTimer r; sent := sent r; cameraWrites :=
     cameraWrites r; brokenResponses := brokenResponses r; exited := exited r
     |}.
Definition set_nextTimer (v : nat) (r : Runtime) : Runtime :=
  {| timers := timers r; nextTimer := v; sent := sent r; cameraWrites :=
     cameraWrites r; brokenResponses := brokenResponses r; exited := exited r
     |}.
Definition set_sent (v : list (nat * message)) (r : Runtime) : Runtime :=
  {| timers := timers r; nextTimer := nextTimer r; sent := v; cameraWrites :=
     cameraWrites r; brokenResponses := brokenResponses r; exited := exited r
     |}.
Definition set_cameraWrites (v : list (nat * chunk)) (r : Runtime) : Runtime :=
  {| timers := timers r; nextTimer := nextTimer r; sent := sent r;
     cameraWrites := v; brokenResponses := brokenResponses r; exited := exited
     r |}.
Definition set_brokenResponses (v : list nat) (r : Runtime) : Runtime :=
  {| timers := timers r; nextTimer := nextTimer r; sent := sent r;
     cameraWrites := cameraWrites r; brokenResponses := v; exited := exited r
     |}.
Definition set_exited (v : option Z) (r : Runtime) : Runtime :=
  {| timers := timers r; nextTimer := nextTimer r; sent := sent r;
     cameraWrites := cameraWrites r; brokenResponses := brokenResponses r;
     exited := v |}.

Record Server := {
  env_WS_UPDATE_INTERVAL : option Z;
  printerStatus : PrinterStatus;
  temperatures : Temperatures;
  userStats : UserSnapshot;
  webClients : list WebClient;
  gate : Gate;
  relay : Relay;
  supervisor : Supervisor;
  runtime : Runtime
}.

Definition set_printerStatus (v : PrinterStatus) (r : Server) : Server :=
  {| env_WS_UPDATE_INTERVAL := env_WS_UPDATE_INTERVAL r; printerStatus := v;
     temperatures := temperatures r; userStats := userStats r; webClients :=
     webClients r; gate := gate r; relay := relay r; supervisor := supervisor
     r; runtime := runtime r |}.
Definition set_temperatures (v : Temperatures) (r : Server) : Server :=
  {| env_WS_UPDATE_INTERVAL := env_WS_UPDATE_INTERVAL r; printerStatus :=
     printerStatus r; temperatures := v; userStats := userStats r; webClients
     := webClients r; gate := gate r; relay := relay r; supervisor :=
     supervisor r; runtime := runtime r |}.
Definition set_userStats (v : UserSnapshot) (r : Server) : Server :=
  {| env_WS_UPDATE_INTERVAL := env_WS_UPDATE_INTERVAL r; printerStatus :=
     printerStatus r; temperatures := temperatures r; userStats := v;
     webClients := webClients r; gate := gate r; relay := relay r; supervisor
     := supervisor r; runtime := runtime r |}.
Definition set_webClients (v : list WebClient) (r : Server) : Server :=
  {| env_WS_UPDATE_INTERVAL := env_WS_UPDATE_INTERVAL r; printerStatus :=
     printerStatus r; temperatures := temperatures r; userStats := userStats
     r; webClients := v; gate := gate r; relay := relay r; supervisor :=
     supervisor r; runtime := runtime r |}.
Definition set_gate (v : Gate) (r : Server) : Server :=
  {| env_WS_UPDATE_INTERVAL := env_WS_UPDATE_INTERVAL r; printerStatus :=
     printerStatus r; temperatures := temperatures r; userStats := userStats
     r; webClients := webClients r; gate := v; relay := relay r; supervisor :=
     supervisor r; runtime := runtime r |}.
Definition set_relay (v : Relay) (r : Server) : Server :=
  {| env_WS_UPDATE_INTERVAL := env_WS_UPDATE_INTERVAL r; printerStatus :=
     printerStatus r; temperatures := temperatures r; userStats := userStats
     r; webClients := webClients r; gate := gate r; relay := v; supervisor :=
     supervisor r; runtime := runtime r |}.
Definition set_supervisor (v : Supervisor) (r : Server) : Server :=
  {| env_WS_UPDATE_INTERVAL := env_WS_UPDATE_INTERVAL r; printerStatus :=
     printerStatus r; temperatures := temperatures r; userStats := userStats
     r; webClients := webClients r; gate := gate r; relay := relay r;
     supervisor := v; runtime := runtime r |}.
Definition set_runtime (v : Runtime) (r : Server) : Server :=
  {| env_WS_UPDATE_INTERVAL := env_WS_UPDATE_INTERVAL r; printerStatus :=
     printerStatus r; temperatures := temperatures r; userStats := userStats
     r; webClients := webClients r; gate := gate r; relay := relay r;
     supervisor := supervisor r; runtime := v |}.

Definition with_lastBroadcastTime (v : Z) (s : Server) : Server :=
  set_gate (set_lastBroadcastTime v (gate s)) s.
Definition with_pendingBroadcast (v : option nat) (s : Server) : Server :=
  set_gate (set_pendingBroadcast v (gate s)) s.
Definition with_cameraStreamURL (v : option string) (s : Server) : Server :=
  set_relay (set_cameraStreamURL v (relay s)) s.
Definition with_cameraSubscribers (v : list nat) (s : Server) : Server :=
  set_relay (set_cameraSubscribers v (relay s)) s.
Definition with_latestFrame (v : option Frame) (s : Server) : Server :=
  set_relay (set_latestFrame v (relay s)) s.
Definition with_cameraStartFailure (v : FailureTracker) (s : Server) : Server :=
  set_relay (set_cameraStartFailure v (relay s)) s.
Definition with_streams (v : list Stream) (s : Server) : Server :=
  set_relay (set_streams v (relay s)) s.
Definition with_printerClient (v : option string) (s : Server) : Server :=
  set_supervisor (set_printerClient v (supervisor s)) s.
Definition with_reconnectSetupInProgress (v : bool) (s : Server) : Server :=
  set_supervisor (set_reconnectSetupInProgress v (supervisor s)) s.
Definition with_reconnectSetupNeeded (v : bool) (s : Server) : Server :=
  set_supervisor (set_reconnectSetupNeeded v (supervisor s)) s.
Definition with_isFirstUpdate (v : bool) (s : Server) : Server :=
  set_supervisor (set_isFirstUpdate v (supervisor s)) s.
Definition with_autoConnectState (v : AutoConnectState) (s : Server) : Server :=
  set_supervisor (set_autoConnectState v (supervisor s)) s.
Definition with_setupTasks (v : list SetupPhase) (s : Server) : Server :=
  set_supervisor (set_setupTasks v (supervisor s)) s.
Definition with_timers (v : list Timer) (s : Server) : Server :=
  set_runtime (set_timers v (runtime s)) s.
Definition with_nextTimer (v : nat) (s : Server) : Server :=
  set_runtime (set_nextTimer v (runtime s)) s.
Definition with_sent (v : list (nat * message)) (s : Server) : Server :=
  set_runtime (set_sent v (runtime s)) s.
Definition with_cameraWrites (v : list (nat * chunk)) (s : Server) : Server :=
  set_runtime (set_cameraWrites v (runtime s)) s.
Definition with_brokenResponses (v : list nat) (s : Server) : Server :=
  set_runtime (set_brokenResponses v (runtime s)) s.
Definition with_exited (v : option Z) (s : Server) : Server :=
  set_runtime (set_exited v (runtime s)) s.

Definition with_ps (f : PrinterStatus -> PrinterStatus) (s : Server) : Server :=
  set_printerStatus (f (printerStatus s)) s.

(** ** server.js: constants and the initial values of the variables *)

Definition MAX_FPS : Z := 15.
Definition STATUS_POLL_INTERVAL : Z := 2000.
Definition CAMERA_MAX_START_FAILURES : nat := 3.

(** [WS_UPDATE_INTERVAL]: [env_WS_UPDATE_INTERVAL] is what
    [Number.parseInt(process.env.WS_UPDATE_INTERVAL, 10)] gave, [None] for
    [NaN]. *)
Definition WS_UPDATE_INTERVAL (s : Server) : Z :=
  match env_WS_UPDATE_INTERVAL s with
  | Some value => if 0 <? value then value else 1000
  | None => 1000
  end.

Definition CAMERA_ACK_ERRORS : list (Z * string) :=
  [ (1, "Exceeded maximum simultaneous streaming limit");
    (2, "Camera does not exist");
    (3, "Unknown error") ].

Definition initialServer (parsedInterval : option Z) : Server :=
  {| env_WS_UPDATE_INTERVAL := parsedInterval;
     printerStatus := defaultPrinterStatus;
     temperatures := defaultTemperatures;
     userStats :=
       {| snap_webClients := 0; snap_cameraClients := 0;
          snap_totalWebConnections := 0; snap_totalCameraConnections := 0 |};
     webClients := [];
     gate := {| lastBroadcastTime := 0; pendingBroadcast := None |};
     relay :=
       {| cameraStreamURL := None; cameraSubscribers := []; latestFrame := None;
          cameraStartFailure := {| lastError := None; count := 0 |};
          streams := [] |};
     supervisor :=
       {| printerClient := None; reconnectSetupInProgress := false;
          reconnectSetupNeeded := false; isFirstUpdate := true;
          autoConnectState := {| printers := []; currentIdx := 0; failCount := 0 |};
          setupTasks := [] |};
     runtime :=
       {| timers := []; nextTimer := 0; sent := []; cameraWrites := [];
          brokenResponses := []; exited := None |} |}.

(** ** Timers *)

(** [setTimeout(cb, delay)] at clock reading [now]; the second component is
    the handle it returns. *)
Definition setTimeout (cb : callback) (delay now : Z) (s : Server) : Server * nat :=
  let h := nextTimer (runtime s) in
  (with_nextTimer (S h)
     (with_timers
        (timers (runtime s) ++ [ {| handle := h; due := now + delay; action := cb |} ])
        s),
   h).

Definition findTimer (h : nat) (s : Server) : option Timer :=
  find (fun t => Nat.eqb (handle t) h) (timers (runtime s)).

Definition dropTimer (h : nat) (s : Server) : Server :=
  with_timers (filter (fun t => negb (Nat.eqb (handle t) h)) (timers (runtime s))) s.

(** ** BroadcastGate: [broadcastToClients] *)

(** The loop [webClients.forEach(client => { if (client.readyState ===
    WebSocket.OPEN) client.send(data) })]. *)
Definition openClients (s : Server) : list WebClient :=
  filter (fun c => Z.eqb (readyState c) OPEN) (webClients s).

Definition sendAll (data : message) (s : Server) : Server :=
  with_sent (sent (runtime s) ++ map (fun c => (ws_id c, data)) (openClients s)) s.

(** The body of the closure [broadcastToClients] hands to [setTimeout];
    [now] is the reading of [Date.now()] when the timer fires. *)
Definition deferredBroadcast (now : Z) (data : message) (s : Server) : Server :=
  with_pendingBroadcast None (with_lastBroadcastTime now (sendAll data s)).

Definition broadcastToClients (now : Z) (msg : message) (s : Server) : Server :=
  let data := msg in
  let minInterval := WS_UPDATE_INTERVAL s in
  if String.eqb (msg_type msg) "server_restarting" then
    with_lastBroadcastTime now (sendAll data s)
  else if minInterval <=? now - lastBroadcastTime (gate s) then
    with_pendingBroadcast None (with_lastBroadcastTime now (sendAll data s))
  else
    match pendingBroadcast (gate s) with
    | Some _ => s
    | None =>
        let delay := minInterval - (now - lastBroadcastTime (gate s)) in
        let '(s1, h) := setTimeout (CbDeferredBroadcast data) delay now s in
        with_pendingBroadcast (Some h) s1
    end.

(** ** Status bookkeeping *)

(** [buildStatusPayload()], paired with the [{ type: 'status', data: ... }]
    message every caller wraps it in. *)
Definition buildStatusPayload (s : Server) : Server * message :=
  let u := match users (printerStatus s) with
           | Some u => u
           | None => userStats s
           end in
  let s1 := with_ps (set_users (Some u)) s in
  (s1, StatusMessage (printerStatus s1) (temperatures s1) (userStats s1)).

(** [broadcastToClients({ type: 'status', data: buildStatusPayload() })]. *)
Definition broadcastStatus (now : Z) (s : Server) : Server :=
  let '(s1, msg) := buildStatusPayload s in
  broadcastToClients now msg s1.

Definition updateUserStatsAndBroadcast (now : Z) (s : Server) : Server :=
  broadcastStatus now (with_ps (set_users (Some (userStats s))) s).

Definition state_is (st : StateField) (txt : string) : bool :=
  match st with
  | StateText t => String.eqb t txt
  | StateCode _ => false
  end.

(** The object [{ ...defaultPrinterStatus, lastUpdate: new Date().toISOString() }]. *)
Definition resetStatus (now : Z) : PrinterStatus :=
  set_lastUpdate (Some now) defaultPrinterStatus.

Definition setDisconnectedStatus (now : Z) (s : Server) : Server :=
  if negb (connected (printerStatus s))
     && String.eqb (printerName (printerStatus s)) "Unknown"
     && state_is (state (printerStatus s)) "Disconnected"
  then s
  else
    let s1 := with_reconnectSetupNeeded true s in
    let s2 := set_printerStatus (resetStatus now) s1 in
    broadcastStatus now s2.

Definition setCustomState (info : option Payload) (s : Server) : Server :=
  match info with
  | None => s
  | Some d =>
      match Status d with
      | None => s
      | Some st =>
          let printingNow :=
            match CurrentStatus st with
            | CS_array (c :: _) => Z.eqb c 1
            | _ => false
            end in
          let noFile :=
            match PrintInfo st with
            | None => true
            | Some pi => negb (truthy_str (PI_Filename pi))
            end in
          let c := if printingNow && noFile then 1 else 0 in
          with_ps (set_customState c) s
      end
  end.

(** ** Camera failure tracker *)

Definition resetCameraFailureTracker (s : Server) : Server :=
  with_cameraStartFailure {| lastError := None; count := 0 |} s.

Definition same_error (last : option string) (m : string) : bool :=
  match last with
  | Some l => String.eqb l m
  | None => false
  end.

Definition handleCameraStartFailure (now : Z) (errMessage : option string)
    (s : Server) : Server :=
  let message := str_or errMessage "Unknown camera error" in
  let t := cameraStartFailure (relay s) in
  let t1 := if same_error (lastError t) message
            then {| lastError := lastError t; count := S (count t) |}
            else {| lastError := Some message; count := 1 |} in
  let s1 := with_cameraStartFailure t1 s in
  if Nat.leb CAMERA_MAX_START_FAILURES (count t1) then
    let s2 := broadcastToClients now (ServerRestarting message) s1 in
    fst (setTimeout (CbProcessExit 1) 1000 now s2)
  else s1.

(** ** MediaRelay: subscribers *)

(** A subscriber closure of [/api/camera], named by the number of the HTTP
    response it writes to.  A response listed in [brokenResponses] is one
    whose [res.write] throws; the closure catches that and unsubscribes
    itself. *)
Definition isBroken (id : nat) (s : Server) : bool :=
  existsb (Nat.eqb id) (brokenResponses (runtime s)).

Definition deleteSubscriber (id : nat) (s : Server) : Server :=
  with_cameraSubscribers
    (filter (fun x => negb (Nat.eqb x id)) (cameraSubscribers (relay s))) s.

Definition addSubscriber (id : nat) (s : Server) : Server :=
  if existsb (Nat.eqb id) (cameraSubscribers (relay s)) then s
  else with_cameraSubscribers (cameraSubscribers (relay s) ++ [id]) s.

Definition subscriber (id : nat) (frameBuffer : Frame) (s : Server) : Server :=
  if isBroken id s then deleteSubscriber id s
  else
    with_cameraWrites
      (cameraWrites (runtime s)
         ++ [ (id, WriteContentType);
              (id, WriteContentLength (List.length frameBuffer));
              (id, WriteFrame frameBuffer);
              (id, WriteClosingBoundary) ])
      s.

(** The handler of [GET /api/camera] for the response [id]; [statsAfter] is
    the snapshot of [userStats] once [addCameraClient] has run.  When the
    opening [res.write] throws the handler ends there. *)
Definition api_camera (now : Z) (id : nat) (statsAfter : UserSnapshot)
    (s : Server) : Server :=
  if isBroken id s then s
  else
    let s1 := with_cameraWrites (cameraWrites (runtime s) ++ [ (id, WriteOpeningBoundary) ]) s in
    let s2 := addSubscriber id s1 in
    let s3 := match latestFrame (relay s2) with
              | Some f => subscriber id f s2
              | None => s2
              end in
    let s4 := set_userStats statsAfter s3 in
    updateUserStatsAndBroadcast now s4.

(** The [cleanup] closure of the same handler. *)
Definition api_camera_cleanup (now : Z) (id : nat) (statsAfter : UserSnapshot)
    (s : Server) : Server :=
  updateUserStatsAndBroadcast now (set_userStats statsAfter (deleteSubscriber id s)).

(** ** MediaRelay: the read loop of [startCameraStreaming] *)

(** [minFrameInterval = 1000 / MAX_FPS].  The source compares it, as a
    double, with a difference of two integer clock readings; no integer lies
    between the rational and its nearest double, so the comparison is the one
    on rationals. *)
Definition minFrameInterval : Q := Qmake 1000 (Z.to_pos MAX_FPS).

Definition intervalElapsed (now last : Z) : bool :=
  Qle_bool minFrameInterval (inject_Z (now - last)).

(** The fan-out [cameraSubscribers.forEach(subscriber => subscriber(latestFrame))]. *)
Definition dispatch (f : Frame) (s : Server) : Server :=
  fold_left (fun acc id => subscriber id f acc) (cameraSubscribers (relay s)) s.

(** The part of the loop body that follows the extraction of [frameBuffer]:
    [now] is the reading of [Date.now()] taken for this frame. *)
Definition onFrame (now : Z) (frameBuffer : Frame) (st : Stream) (s : Server)
    : Stream * Server :=
  if (0 <? List.length frameBuffer)%nat then
    if intervalElapsed now (lastFrameTime st) then
      let s1 := with_latestFrame (Some frameBuffer) s in
      let s2 := dispatch frameBuffer s1 in
      ({| boundaryBuffer := boundaryBuffer st; buffer := buffer st;
          lastFrameTime := now |}, s2)
    else (st, s)
  else (st, s).

(** [Buffer] operations. *)
Fixpoint startsWith (needle hay : list Byte.byte) : bool :=
  match needle, hay with
  | [], _ => true
  | _ :: _, [] => false
  | n :: needle', h :: hay' => Byte.eqb n h && startsWith needle' hay'
  end.

Fixpoint indexFrom0 (needle hay : list Byte.byte) : option nat :=
  if startsWith needle hay then Some 0%nat
  else match hay with
       | [] => None
       | _ :: hay' => option_map S (indexFrom0 needle hay')
       end.

(** [buf.indexOf(needle, byteOffset)] for a non-empty needle; [None] is [-1]. *)
Definition indexOf (buf needle : list Byte.byte) (byteOffset : nat) : option nat :=
  option_map (Nat.add byteOffset) (indexFrom0 needle (skipn byteOffset buf)).

(** [buf.subarray(start, end)]. *)
Definition subarray (buf : list Byte.byte) (start stop : nat) : list Byte.byte :=
  firstn (stop - start) (skipn start buf).

Definition byteAt (buf : list Byte.byte) (i : nat) (b : Byte.byte) : bool :=
  match nth_error buf i with
  | Some x => Byte.eqb x b
  | None => false
  end.

Definition CRLFCRLF : list Byte.byte := [Byte.x0d; Byte.x0a; Byte.x0d; Byte.x0a].

(** The inner [while (boundaryIndex !== -1)] loop.  [clock k] is the [k]-th
    reading of [Date.now()] taken while this chunk is processed; every
    iteration cuts a non-empty prefix off the buffer, so [fuel] beyond the
    length of the buffer is never used up.  [nextBoundaryIndex] is at least
    4, so the two index subtractions never go below zero. *)
Fixpoint scanFrames (fuel : nat) (clock : nat -> Z) (k : nat) (st : Stream)
    (s : Server) : Stream * Server :=
  match fuel with
  | O => (st, s)
  | S fuel' =>
      match indexOf (buffer st) (boundaryBuffer st) 0 with
      | None => (st, s)
      | Some boundaryIndex =>
          let headersStart := (boundaryIndex + List.length (boundaryBuffer st))%nat in
          match indexOf (buffer st) CRLFCRLF headersStart with
          | None => (st, s)
          | Some headersEnd =>
              let frameDataStart := (headersEnd + 4)%nat in
              match indexOf (buffer st) (boundaryBuffer st) frameDataStart with
              | None => (st, s)
              | Some nextBoundaryIndex =>
                  let frameEnd :=
                    if byteAt (buffer st) (nextBoundaryIndex - 2) Byte.x0d
                       && byteAt (buffer st) (nextBoundaryIndex - 1) Byte.x0a
                    then (nextBoundaryIndex - 2)%nat
                    else if byteAt (buffer st) (nextBoundaryIndex - 1) Byte.x0a
                         then (nextBoundaryIndex - 1)%nat
                         else nextBoundaryIndex in
                  let frameBuffer := subarray (buffer st) frameDataStart frameEnd in
                  let '(st1, s1) := onFrame (clock k) frameBuffer st s in
                  let k1 := if (0 <? List.length frameBuffer)%nat then S k else k in
                  let st2 := {| boundaryBuffer := boundaryBuffer st1;
                                buffer := skipn nextBoundaryIndex (buffer st1);
                                lastFrameTime := lastFrameTime st1 |} in
                  scanFrames fuel' clock k1 st2 s1
              end
          end
      end
  end.

(** One turn of the outer loop: [reader.read()] gave the chunk [value]. *)
Definition onChunk (clock : nat -> Z) (value : list Byte.byte) (st : Stream)
    (s : Server) : Stream * Server :=
  let st1 := {| boundaryBuffer := boundaryBuffer st;
                buffer := buffer st ++ value;
                lastFrameTime := lastFrameTime st |} in
  scanFrames (S (List.length (buffer st1))) clock 0 st1 s.

(** ** MediaRelay: starting the relay *)

Definition show_number (n : Z) : string := NilZero.string_of_int (Z.to_int n).

Inductive FetchResult :=
| FetchOk (boundaryMatch : option string)
| FetchNotOk (httpStatus : Z) (statusText : string)
| FetchRejected (errMessage : string).

(** [boundaryMatch[1].replace(/^-+/, '')]. *)
Fixpoint stripDashes (str : string) : string :=
  match str with
  | String c rest => if Ascii.eqb c "-"%char then stripDashes rest else str
  | EmptyString => str
  end.

(** [startCameraStreaming()] up to its [await fetch(...)]; the flag tells
    whether the fetch was issued. *)
Definition startCameraStreaming_call (now : Z) (s : Server) : Server * bool :=
  if truthy_str (cameraStreamURL (relay s)) then (s, true)
  else
    let s1 := with_ps (fun p =>
                set_cameraError
                  (Some (str_or (cameraError p) "Camera not available"))
                  (set_cameraAvailable false p)) s in
    let s2 := broadcastStatus now s1 in
    (resetCameraFailureTracker s2, false).

(** The [catch] of [startCameraStreaming]. *)
Definition startCameraStreaming_failed (now : Z) (errMessage : string)
    (s : Server) : Server :=
  let s1 := with_ps (fun p =>
              set_cameraError (Some errMessage) (set_cameraAvailable false p)) s in
  let s2 := broadcastStatus now s1 in
  let s3 := handleCameraStartFailure now (Some errMessage) s2 in
  fst (setTimeout CbRetryCameraStreaming 5000 now s3).

(** [startCameraStreaming()] from the result of the fetch to its end. *)
Definition startCameraStreaming_fetched (now : Z) (r : FetchResult) (s : Server)
    : Server :=
  match r with
  | FetchOk boundaryMatch =>
      let s1 := resetCameraFailureTracker s in
      let s2 := with_ps (set_cameraError None) s1 in
      let boundary := match boundaryMatch with
                      | Some b => stripDashes b
                      | None => "frame"
                      end in
      let st := {| boundaryBuffer := list_byte_of_string ("--" ++ boundary);
                   buffer := [];
                   lastFrameTime := 0 |} in
      with_streams (streams (relay s2) ++ [st]) s2
  | FetchNotOk httpStatus statusText =>
      startCameraStreaming_failed now
        ("Camera error " ++ show_number httpStatus ++ ", " ++ statusText) s
  | FetchRejected errMessage =>
      startCameraStreaming_failed now errMessage s
  end.

Fixpoint replaceNth {A} (i : nat) (x : A) (l : list A) {struct l} : list A :=
  match l, i with
  | [], _ => []
  | _ :: t, O => x :: t
  | h :: t, S i' => h :: replaceNth i' x t
  end.

Fixpoint removeNth {A} (i : nat) (l : list A) {struct l} : list A :=
  match l, i with
  | [], _ => []
  | _ :: t, O => t
  | h :: t, S i' => h :: removeNth i' t
  end.

(** The read loop number [i] receives a chunk. *)
Definition streamChunk (i : nat) (clock : nat -> Z) (value : list Byte.byte)
    (s : Server) : Server :=
  match nth_error (streams (relay s)) i with
  | None => s
  | Some st =>
      let '(st1, s1) := onChunk clock value st s in
      with_streams (replaceNth i st1 (streams (relay s1))) s1
  end.

(** [reader.read()] of loop [i] reports the end of the stream. *)
Definition streamDone (i : nat) (s : Server) : Server :=
  with_streams (removeNth i (streams (relay s))) s.

(** [reader.read()] of loop [i] rejects: the [catch] of [processStream]. *)
Definition streamError (now : Z) (i : nat) (errMessage : string) (s : Server)
    : Server :=
  match nth_error (streams (relay s)) i with
  | None => s
  | Some _ =>
      let s1 := with_streams (removeNth i (streams (relay s))) s in
      let s2 := handleCameraStartFailure now (Some errMessage) s1 in
      fst (setTimeout CbRetryCameraStreaming 5000 now s2)
  end.

(** ** ConnectivitySupervisor: post-connect setup *)

(** [Data.Data] of the camera response; [None] is a field that is absent
    ([undefined] in the message built from [Ack]). *)
Record CameraData := { Ack : option Z; VideoUrl : option string }.

(** What [await printerClient.requestCameraURL()] gives: a rejection, or a
    response whose [Data.Data] may be missing. *)
Inductive CameraURLResult :=
| CameraURLRejected (errMessage : string)
| CameraURLResponse (cameraData : option CameraData).

(** [setupCameraURL()] from the result of the request to its end. *)
Definition setupCameraURL_answered (r : CameraURLResult) (s : Server) : Server :=
  match r with
  | CameraURLRejected errMessage =>
      with_cameraStreamURL None
        (with_ps (fun p =>
           set_cameraError (Some errMessage) (set_cameraAvailable false p)) s)
  | CameraURLResponse None => s
  | CameraURLResponse (Some cameraData) =>
      if code_is (Ack cameraData) 0 && truthy_str (VideoUrl cameraData) then
        with_cameraStreamURL (Some ("http://" ++ str_or (VideoUrl cameraData) EmptyString)%string)
          (with_ps (fun p => set_cameraError None (set_cameraAvailable true p)) s)
      else
        let reason :=
          str_or (lookup CAMERA_ACK_ERRORS (Ack cameraData))
            ("Unknown error code "
               ++ match Ack cameraData with
                  | Some a => show_number a
                  | None => "undefined"
                  end) in
        with_cameraStreamURL None
          (with_ps (fun p =>
             set_cameraError (Some reason) (set_cameraAvailable false p)) s)
  end.

(** [ensureReconnectSetup(printerName)] up to its first suspension: the guard,
    then [onPrinterConnected] up to [await setupCameraURL()].  The flag tells
    whether the call passed the guard and started a setup; a started setup is
    appended to [setupTasks]. *)
Definition ensureReconnectSetup_call (name : option string) (s : Server)
    : Server * bool :=
  if reconnectSetupInProgress (supervisor s) then (s, false)
  else
    let s1 := with_reconnectSetupInProgress true s in
    let s2 := with_ps (set_connected true) s1 in
    let s3 := if truthy_str name
              then with_ps (set_printerName (str_or name EmptyString)) s2
              else s2 in
    let phase := match printerClient (supervisor s3) with
                 | None => AwaitSetupCameraURL
                 | Some _ => AwaitCameraURLResponse
                 end in
    (with_setupTasks (setupTasks (supervisor s3) ++ [phase]) s3, true).

(** What the environment hands to a suspended setup when it resumes it. *)
Inductive Awaited :=
| GotCameraURL (r : CameraURLResult)
| GotFetch (r : FetchResult)
| Resumed.

(** The setup number [i] of [setupTasks] runs from its suspension to the next
    one.  The last resumption is the tail of [ensureReconnectSetup]:
    [reconnectSetupNeeded = false], then the [finally] clears the guard.
    Nothing in the body throws in this embedding, so the [catch] of
    [ensureReconnectSetup] has no resumption. *)
Definition setup_resume (now : Z) (i : nat) (a : Awaited) (s : Server) : Server :=
  match nth_error (setupTasks (supervisor s)) i, a with
  | Some AwaitCameraURLResponse, GotCameraURL r =>
      let s1 := setupCameraURL_answered r s in
      with_setupTasks (replaceNth i AwaitSetupCameraURL (setupTasks (supervisor s1))) s1
  | Some AwaitSetupCameraURL, Resumed =>
      let '(s1, fetching) := startCameraStreaming_call now s in
      with_setupTasks
        (replaceNth i (if fetching then AwaitFetch else AwaitStartCameraStreaming)
           (setupTasks (supervisor s1))) s1
  | Some AwaitFetch, GotFetch r =>
      let s1 := startCameraStreaming_fetched now r s in
      with_setupTasks
        (replaceNth i AwaitStartCameraStreaming (setupTasks (supervisor s1))) s1
  | Some AwaitStartCameraStreaming, Resumed =>
      let s1 := broadcastStatus now s in
      with_setupTasks
        (replaceNth i AwaitOnPrinterConnected (setupTasks (supervisor s1))) s1
  | Some AwaitOnPrinterConnected, Resumed =>
      let s1 := with_reconnectSetupNeeded false s in
      let s2 := with_reconnectSetupInProgress false s1 in
      with_setupTasks (removeNth i (setupTasks (supervisor s2))) s2
  | _, _ => s
  end.

(** The ['reconnected'] listener [connectToPrinter] installs. *)
Definition onReconnected (name : option string) (s : Server) : Server :=
  if negb (reconnectSetupNeeded (supervisor s)) then s
  else fst (ensureReconnectSetup_call name s).

(** ** StatusProjector call site: [updatePrinterStatus] *)

(** [if (s.TempOf... !== undefined) temperatures... = Math.round(...)] for
    one reading.  [None] is a field that is absent; a field that is present
    with the value [null] passes the test of the source and is stored as 0,
    and is outside the payloads of this embedding. *)
Definition roundTemp (reading : option Z) (old : Z) : Z :=
  match reading with
  | Some t => t
  | None => old
  end.

(** The branch [if (!data)]: the printer is unreachable or offline. *)
Definition markUnreachable (now : Z) (s : Server) : Server :=
  let s1 := with_reconnectSetupNeeded true s in
  let s2 := with_ps (fun p =>
              set_job_status_code IsNull
                (set_machine_status_code IsNull
                   (set_job_status IsNull
                      (set_machine_status (Some "UNKNOWN")
                         (set_customState 0
                            (set_lastUpdate (Some now)
                               (set_cameraError (Some "Printer unreachable")
                                  (set_cameraAvailable false
                                     (set_state (StateText "Disconnected")
                                        (set_connected false p)))))))))) s1 in
  broadcastStatus now s2.

(** [if (!printerStatus.connected) ensureReconnectSetup(reconnectName)]: data
    after a disconnect is treated as a reconnection. *)
Definition reconnectOnData (d : Payload) (s : Server) : Server :=
  if negb (connected (printerStatus s)) then
    let reconnectName :=
      str_or (match Attributes d with Some a => Name a | None => None end)
             (printerName (printerStatus s)) in
    fst (ensureReconnectSetup_call (Some reconnectName) s)
  else s.

(** [if (data.Attributes) printerStatus.printerName = ...]. *)
Definition applyAttributes (d : Payload) (s : Server) : Server :=
  match Attributes d with
  | Some a => with_ps (fun p => set_printerName (str_or (Name a) (printerName p)) p) s
  | None => s
  end.

(** The first block [if (data.Status)]: the parsed status replaces
    [printerStatus.status]; [use_new_status] decides only whether
    [prev_status] is recorded. *)
Definition applyStatus (d : Payload) (s : Server) : Server :=
  match Status d with
  | Some _ =>
      let parsed := parseStatusPayload (Some d) in
      let new_consolidated := consolidated (parsed_status parsed) in
      let use_new_status :=
        if String.eqb new_consolidated EmptyString || String.eqb new_consolidated "UNKNOWN"
        then consolidated (status (printerStatus s))
        else new_consolidated in
      let s1 :=
        if negb (String.eqb (consolidated (status (printerStatus s))) use_new_status)
        then with_ps (fun p => set_prev_status (Some (consolidated (status p))) p) s
        else s in
      with_ps (fun p =>
        set_state (StateCode (parsed_status_code parsed))
          (set_status_code (parsed_status_code parsed)
             (set_status (parsed_status parsed) p))) s1
  | None => s
  end.

(** [if (s.PrintInfo) { ... }] of the second block.  The ticks are integers
    in the range where the subtraction of doubles is exact. *)
Definition applyPrintInfo (st : StatusBlock) (s : Server) : Server :=
  match PrintInfo st with
  | Some pi =>
      with_ps (fun p =>
        let printTimeNow := num_or (PI_CurrentTicks pi) 0 in
        let totalTicks := num_or (PI_TotalTicks pi) 0 in
        set_layers
          {| total := num_or (PI_TotalLayer pi) 0;
             finished := None;
             layer_current := Some (num_or (PI_CurrentLayer pi) 0) |}
          (set_remainingTime (totalTicks - printTimeNow)
             (set_printTime printTimeNow
                (set_currentFile (str_or (PI_Filename pi) EmptyString)
                   (set_progress (num_or (PI_Progress pi) 0) p))))) s
  | None => s
  end.

(** The six [if (s.Temp... !== undefined)] assignments; they write into the
    shared [temperatures] object. *)
Definition applyTemperatures (st : StatusBlock) (s : Server) : Server :=
  let t := temperatures s in
  set_temperatures
    {| bed := {| current := roundTemp (TempOfHotbed st) (current (bed t));
                 target := roundTemp (TempTargetHotbed st) (target (bed t)) |};
       nozzle := {| current := roundTemp (TempOfNozzle st) (current (nozzle t));
                    target := roundTemp (TempTargetNozzle st) (target (nozzle t)) |};
       enclosure := {| current := roundTemp (TempOfBox st) (current (enclosure t));
                       target := roundTemp (TempTargetBox st) (target (enclosure t)) |} |}
    s.

(** The second block [if (data.Status)]. *)
Definition applyTelemetry (d : Payload) (s : Server) : Server :=
  match Status d with
  | Some st => applyTemperatures st (applyPrintInfo st s)
  | None => s
  end.

Definition updatePrinterStatus (now : Z) (data : option Payload) (s : Server)
    : Server :=
  match data with
  | None => markUnreachable now s
  | Some d =>
      let s1 := reconnectOnData d s in
      let s2 := if isFirstUpdate (supervisor s1) then with_isFirstUpdate false s1 else s1 in
      let s3 := with_ps (set_lastUpdate (Some now)) s2 in
      let s4 := applyAttributes d s3 in
      let s5 := applyStatus d s4 in
      let s6 := applyTelemetry d s5 in
      let s7 := setCustomState data s6 in
      broadcastStatus now s7
  end.

(** ** ConnectivitySupervisor: [connectToPrinter] and [autoConnect]

    These two run to completion here: every awaited result is taken from an
    environment record, one clock reading serves the whole run, and no other
    event is handled between the awaits.  Runs in which the event loop
    handles something in between are built from the turns [connect_call],
    [connect_resolved] and [setup_resume] below.  The counters of
    [autoConnectState] are read and written by [autoConnect] alone. *)

Record ConnectEnv := {
  (* [new SDCPClient(ip)] or the registration of a listener throws *)
  constructor_throws : option string;
  (* [await printerClient.connect()] rejects *)
  connect_rejects : option string;
  cameraURL_result : CameraURLResult;
  setup_fetch : FetchResult
}.

(** [await ensureReconnectSetup(printerName)]: the call, and when it started a
    setup, that setup resumed with the answers of the environment until it
    ends.  A resumption that does not fit the phase leaves the state alone,
    so the five resumptions cover both the path through the camera request
    and the path through the fetch. *)
Definition ensureReconnectSetup_await (env : ConnectEnv) (now : Z)
    (name : option string) (s : Server) : Server :=
  let '(s1, started) := ensureReconnectSetup_call name s in
  if started then
    let i := Nat.pred (List.length (setupTasks (supervisor s1))) in
    let s2 := setup_resume now i (GotCameraURL (cameraURL_result env)) s1 in
    let s3 := setup_resume now i Resumed s2 in
    let s4 := setup_resume now i (GotFetch (setup_fetch env)) s3 in
    let s5 := setup_resume now i Resumed s4 in
    setup_resume now i Resumed s5
  else s1.

(** The second component is [Some message] when the call throws. *)
Definition connectToPrinter (env : ConnectEnv) (now : Z) (printerIP : string)
    (name : option string) (s : Server) : Server * option string :=
  match constructor_throws env with
  | Some errMessage => (s, Some errMessage)
  | None =>
      let s1 := with_printerClient (Some printerIP) s in
      match connect_rejects env with
      | Some _ =>
          (* the catch inside connectToPrinter: reset, broadcast, log *)
          (broadcastStatus now (set_printerStatus (resetStatus now) s1), None)
      | None =>
          (ensureReconnectSetup_await env now name s1, None)
      end
  end.

Inductive DiscoverResult :=
| Discovered (found : list DiscoveredPrinter)
| DiscoverRejected (errMessage : string).

Record AutoConnectEnv := {
  discover_result : DiscoverResult;
  connect_env : ConnectEnv;
  second_fetch : FetchResult
}.

Definition scheduleAutoConnect (now : Z) (s : Server) : Server :=
  fst (setTimeout CbAutoConnect 5000 now s).

Definition clearedAutoConnectState : AutoConnectState :=
  {| printers := []; currentIdx := 0; failCount := 0 |}.

(** The first block of [autoConnect]: rediscovery when the list is empty or
    exhausted.  The flag tells whether the function goes on to a connection
    attempt. *)
Definition autoConnect_discover (env : AutoConnectEnv) (now : Z) (s : Server)
    : Server * bool :=
  let st := autoConnectState (supervisor s) in
  if Nat.eqb (List.length (printers st)) 0
     || Nat.leb (List.length (printers st)) (currentIdx st)
  then
    match discover_result env with
    | DiscoverRejected _ => (scheduleAutoConnect now s, false)
    | Discovered found =>
        let eligible := filter (fun p => negb (prn_Proxy p)) found in
        if Nat.eqb (List.length eligible) 0 then
          (scheduleAutoConnect now (with_autoConnectState clearedAutoConnectState s),
           false)
        else
          (with_autoConnectState
             {| printers := eligible; currentIdx := 0; failCount := 0 |} s,
           true)
    end
  else (s, true).

Definition autoConnect (env : AutoConnectEnv) (now : Z) (s : Server) : Server :=
  let '(s1, attempt) := autoConnect_discover env now s in
  if negb attempt then s1
  else
    let st := autoConnectState (supervisor s1) in
    match nth_error (printers st) (currentIdx st) with
    | None => scheduleAutoConnect now s1
    | Some printer =>
        let name := str_or (prn_Name printer) (str_or (prn_Id printer) "Elegoo Printer") in
        match connectToPrinter (connect_env env) now (address printer) (Some name) s1 with
        | (s2, None) =>
            let '(s3, fetching) := startCameraStreaming_call now s2 in
            let s4 := if fetching
                      then startCameraStreaming_fetched now (second_fetch env) s3
                      else s3 in
            let st4 := autoConnectState (supervisor s4) in
            with_autoConnectState
              {| printers := printers st4; currentIdx := currentIdx st4;
                 failCount := 0 |} s4
        | (s2, Some _) =>
            let st2 := autoConnectState (supervisor s2) in
            let failed := S (failCount st2) in
            if Nat.leb 3 failed then
              let idx := S (currentIdx st2) in
              if Nat.leb (List.length (printers st2)) idx then
                scheduleAutoConnect now
                  (with_autoConnectState clearedAutoConnectState s2)
              else
                scheduleAutoConnect now
                  (with_autoConnectState
                     {| printers := printers st2; currentIdx := idx;
                        failCount := 0 |} s2)
            else
              scheduleAutoConnect now
                (with_autoConnectState
                   {| printers := printers st2; currentIdx := currentIdx st2;
                      failCount := failed |} s2)
        end
    end.

(** ** The remaining handlers *)

(** [wss.on('connection')] for the socket [id]; [statsAfter] is the snapshot
    once [addWebClient] has run.  The handler ends with a direct
    [ws.send] of the current status to the new socket. *)
Definition wsConnection (now : Z) (id : nat) (statsAfter : UserSnapshot)
    (s : Server) : Server :=
  let s1 :=
    if existsb (fun c => Nat.eqb (ws_id c) id) (webClients s) then s
    else set_webClients (webClients s ++ [ {| ws_id := id; readyState := OPEN |} ]) s in
  let s2 := set_userStats statsAfter s1 in
  let s3 := updateUserStatsAndBroadcast now s2 in
  let '(s4, msg) := buildStatusPayload s3 in
  with_sent (sent (runtime s4) ++ [ (id, msg) ]) s4.

(** The [cleanup] closure of a web socket. *)
Definition wsCleanup (now : Z) (id : nat) (statsAfter : UserSnapshot)
    (s : Server) : Server :=
  let s1 := set_webClients
              (filter (fun c => negb (Nat.eqb (ws_id c) id)) (webClients s)) s in
  updateUserStatsAndBroadcast now (set_userStats statsAfter s1).

(** The [ws] library moves a socket to another [readyState]. *)
Definition socketState (id : nat) (rs : Z) (s : Server) : Server :=
  set_webClients
    (map (fun c => if Nat.eqb (ws_id c) id
                   then {| ws_id := id; readyState := rs |}
                   else c) (webClients s)) s.

(** [GET /api/status]. *)
Definition api_status (s : Server) : Server :=
  fst (buildStatusPayload (with_ps (set_users (Some (userStats s))) s)).

(** [POST /api/connect/:ip]. *)
Definition api_connect (env : ConnectEnv) (now : Z) (ip : string) (s : Server)
    : Server :=
  match connectToPrinter env now ip None s with
  | (s1, None) => s1
  | (s1, Some _) => with_ps (set_connected false) s1
  end.

(** [connectToPrinter] in three turns of the event loop, for runs in which
    other events arrive while [connect()] is pending: the call up to
    [await printerClient.connect()], then the continuation after it resolved
    (which calls [ensureReconnectSetup]) or the [catch] after it rejected. *)
Definition connect_call (printerIP : string) (s : Server) : Server :=
  with_printerClient (Some printerIP) s.

Definition connect_resolved (name : option string) (s : Server) : Server :=
  fst (ensureReconnectSetup_call name s).

Definition connect_rejected (now : Z) (s : Server) : Server :=
  broadcastStatus now (set_printerStatus (resetStatus now) s).

(** ** The event loop *)

(** The timer [h] fires at clock reading [now]. *)
Definition fireTimer (env : AutoConnectEnv) (now : Z) (h : nat) (s : Server)
    : Server :=
  match findTimer h s with
  | None => s
  | Some t =>
      let s1 := dropTimer h s in
      match action t with
      | CbDeferredBroadcast data => deferredBroadcast now data s1
      | CbProcessExit c => with_exited (Some c) s1
      | CbAutoConnect => autoConnect env now s1
      | CbRetryCameraStreaming =>
          if truthy_str (cameraStreamURL (relay s1))
          then fst (startCameraStreaming_call now s1)
          else s1
      end
  end.

(** What can happen to the process in one turn of the event loop.  The chat
    handlers are left out: they read and write the chat fields of their own
    socket and send chat messages, nothing of the state modelled here. *)
Inductive event :=
| EvStatus (now : Z) (data : option Payload)
| EvPrinterLost (now : Z)
| EvReconnected (name : option string)
| EvSetupResume (now : Z) (i : nat) (a : Awaited)
| EvTimer (env : AutoConnectEnv) (now : Z) (h : nat)
| EvAutoConnect (env : AutoConnectEnv) (now : Z)
| EvCameraAttach (now : Z) (id : nat) (statsAfter : UserSnapshot)
| EvCameraDetach (now : Z) (id : nat) (statsAfter : UserSnapshot)
| EvCameraFetched (now : Z) (r : FetchResult)
| EvStreamChunk (i : nat) (clock : nat -> Z) (value : list Byte.byte)
| EvStreamDone (i : nat)
| EvStreamError (now : Z) (i : nat) (errMessage : string)
| EvWsConnection (now : Z) (id : nat) (statsAfter : UserSnapshot)
| EvWsClose (now : Z) (id : nat) (statsAfter : UserSnapshot)
| EvSocketState (id : nat) (rs : Z)
| EvApiStatus
| EvApiConnect (env : ConnectEnv) (now : Z) (ip : string)
| EvConnectCall (ip : string)
| EvConnectResolved (name : option string)
| EvConnectRejected (now : Z)
| EvResponseBroken (id : nat).

(** The response [id] stops taking writes. *)
Definition responseBroken (id : nat) (s : Server) : Server :=
  with_brokenResponses (id :: brokenResponses (runtime s)) s.

Definition dispatchEvent (e : event) (s : Server) : Server :=
  match e with
  | EvStatus now data => updatePrinterStatus now data s
  | EvPrinterLost now => setDisconnectedStatus now s
  | EvReconnected name => onReconnected name s
  | EvSetupResume now i a => setup_resume now i a s
  | EvTimer env now h => fireTimer env now h s
  | EvAutoConnect env now => autoConnect env now s
  | EvCameraAttach now id statsAfter => api_camera now id statsAfter s
  | EvCameraDetach now id statsAfter => api_camera_cleanup now id statsAfter s
  | EvCameraFetched now r => startCameraStreaming_fetched now r s
  | EvStreamChunk i clock value => streamChunk i clock value s
  | EvStreamDone i => streamDone i s
  | EvStreamError now i errMessage => streamError now i errMessage s
  | EvWsConnection now id statsAfter => wsConnection now id statsAfter s
  | EvWsClose now id statsAfter => wsCleanup now id statsAfter s
  | EvSocketState id rs => socketState id rs s
  | EvApiStatus => api_status s
  | EvApiConnect env now ip => api_connect env now ip s
  | EvConnectCall ip => connect_call ip s
  | EvConnectResolved name => connect_resolved name s
  | EvConnectRejected now => connect_rejected now s
  | EvResponseBroken id => responseBroken id s
  end.

(** One turn of the event loop; nothing runs once [process.exit] has. *)
Definition step (e : event) (s : Server) : Server :=
  match exited (runtime s) with
  | Some _ => s
  | None => dispatchEvent e s
  end.

Definition run (es : list event) (s : Server) : Server :=
  fold_left (fun acc e => step e acc) es s.

(** ** Chat: [handleChatInit], [handleChatVerify], [handleChatMessage]

    The chat handlers read and write [ws.chat] of the socket that sent the
    message, answer that socket, and broadcast to [webClients]; they touch
    nothing else, so they are embedded on a state of their own. *)

(** A JavaScript string, as its UTF-16 code units: [.length] is the length
    of the list. *)
Definition jsstring : Type := list N.

(** The code units [String.prototype.trim] strips: WhiteSpace (TAB, VT, FF,
    SP, NBSP, ZWNBSP and the space separators) and LineTerminator. *)
Definition isWhiteSpace (c : N) : bool :=
  (existsb (N.eqb c)
     [ 9; 10; 11; 12; 13; 32; 160; 5760; 8232; 8233; 8239; 8287; 12288; 65279 ]
   || (8192 <=? c) && (c <=? 8202))%N.

Fixpoint trimStart (str : jsstring) : jsstring :=
  match str with
  | c :: rest => if isWhiteSpace c then trimStart rest else str
  | [] => []
  end.

Definition trimEnd (str : jsstring) : jsstring := rev (trimStart (rev str)).

Definition trim (str : jsstring) : jsstring := trimEnd (trimStart str).

(** A property of the parsed message that a handler reads as text: missing
    or falsy, a string, or a truthy value that is no string (a number, an
    object, [true]). *)
Inductive field :=
| FieldFalsy
| FieldString (str : jsstring)
| FieldOther.

(** [(value || '').trim()]: [None] when the call throws, [.trim] being no
    function of a truthy value that is no string. *)
Definition trimmedText (value : field) : option jsstring :=
  match value with
  | FieldFalsy => Some (trim [])
  | FieldString str => Some (trim str)
  | FieldOther => None
  end.

(** The chat limits.  [Number(process.env.X) || fallback]: an unset or
    non-numeric variable and the number 0 give the fallback.  The settings
    are integers here. *)
Definition chatSetting (parsed : option Z) (fallback : Z) : Z := num_or parsed fallback.

Record ChatConfig := {
  CHAT_MESSAGE_MAX_LENGTH : Z;
  CHAT_NICKNAME_MAX_LENGTH : Z;
  CHAT_MESSAGE_COOLDOWN_MS : Z;
  CHAT_MATH_MIN : Z;
  CHAT_MATH_MAX : Z
}.

Definition chatConfig (maxLength nickLength cooldown mathMin mathMax : option Z)
    : ChatConfig :=
  {| CHAT_MESSAGE_MAX_LENGTH := chatSetting maxLength 500;
     CHAT_NICKNAME_MAX_LENGTH := chatSetting nickLength 24;
     CHAT_MESSAGE_COOLDOWN_MS := chatSetting cooldown 1000;
     CHAT_MATH_MIN := chatSetting mathMin 1;
     CHAT_MATH_MAX := chatSetting mathMax 10 |}.

Record Challenge := {
  challenge_a : Z;
  challenge_b : Z;
  answer : Z;
  question : string
}.

(** [generateMathChallenge()]; [a] and [b] are the values of the two
    expressions [Math.floor(Math.random() * (max - min + 1)) + min]. *)
Definition generateMathChallenge (a b : Z) : Challenge :=
  {| challenge_a := a;
     challenge_b := b;
     answer := a + b;
     question := show_number a ++ " + " ++ show_number b ++ " = ?" |}.

(** [ws.chat]. *)
Record ChatState := {
  nickname : option jsstring;
  verifiedHuman : bool;
  challenge : option Challenge;
  lastChatAt : Z
}.

(** The value [wss.on('connection')] gives [ws.chat]. *)
Definition newChat : ChatState :=
  {| nickname := None; verifiedHuman := false; challenge := None; lastChatAt := 0 |}.

(** The chat messages the server sends. *)
Inductive chatFrame :=
| ChatError (error : string)
| ChatChallenge (challengeQuestion : string)
| ChatVerified (success : bool) (error : option string)
| ChatMessage (from : jsstring) (text : jsstring) (timestamp : Z).

(** What the environment provides while one message is handled: the two
    draws of a new challenge, the reading of [Date.now()], the reading behind
    [new Date().toISOString()], and the sockets in [webClients]. *)
Record ChatEnv := {
  draw_a : Z;
  draw_b : Z;
  date_now : Z;
  date_stamp : Z;
  clients : list WebClient
}.

(** A handler gives the new [ws.chat] and the frames handed to [send], each
    with the socket it goes to; [None] when it throws. *)
Definition ChatResult : Type := option (ChatState * list (nat * chatFrame)).

Definition handleChatInit (cfg : ChatConfig) (env : ChatEnv) (ws : nat)
    (messageNickname : field) (chat : ChatState) : ChatResult :=
  match trimmedText messageNickname with
  | None => None
  | Some nick =>
      if (List.length nick =? 0)%nat then
        Some (chat, [ (ws, ChatError "Nickname cannot be empty") ])
      else if CHAT_NICKNAME_MAX_LENGTH cfg <? Z.of_nat (List.length nick) then
        Some (chat,
              [ (ws, ChatError ("Nickname too long (max "
                                ++ show_number (CHAT_NICKNAME_MAX_LENGTH cfg)
                                ++ " characters)")) ])
      else
        let c := generateMathChallenge (draw_a env) (draw_b env) in
        Some ({| nickname := Some nick; verifiedHuman := false;
                 challenge := Some c; lastChatAt := lastChatAt chat |},
              [ (ws, ChatChallenge (question c)) ])
  end.

(** [messageAnswer] is [Number(message.answer)] when that is an integer,
    [None] when it is [NaN] or has a fraction. *)
Definition handleChatVerify (env : ChatEnv) (ws : nat) (messageAnswer : option Z)
    (chat : ChatState) : ChatResult :=
  match challenge chat with
  | None =>
      Some (chat, [ (ws, ChatError "No active challenge. Please start chat first.") ])
  | Some c =>
      if code_is messageAnswer (answer c) then
        Some ({| nickname := nickname chat; verifiedHuman := true;
                 challenge := None; lastChatAt := lastChatAt chat |},
              [ (ws, ChatVerified true None) ])
      else
        let c' := generateMathChallenge (draw_a env) (draw_b env) in
        Some ({| nickname := nickname chat; verifiedHuman := verifiedHuman chat;
                 challenge := Some c'; lastChatAt := lastChatAt chat |},
              [ (ws, ChatVerified false (Some "Incorrect answer. Try again."));
                (ws, ChatChallenge (question c')) ])
  end.

(** [ws.chat.nickname || 'Anon']; the code units of ['Anon']. *)
Definition Anon : jsstring := [65; 110; 111; 110]%N.

Definition nickname_or_Anon (n : option jsstring) : jsstring :=
  match n with
  | Some (c :: rest) => c :: rest
  | _ => Anon
  end.

Definition handleChatMessage (cfg : ChatConfig) (env : ChatEnv) (ws : nat)
    (messageText : field) (chat : ChatState) : ChatResult :=
  if negb (verifiedHuman chat) then
    Some (chat, [ (ws, ChatError "Please solve the challenge before chatting.") ])
  else
    let now := date_now env in
    let timeSinceLastMessage := now - lastChatAt chat in
    if timeSinceLastMessage <? CHAT_MESSAGE_COOLDOWN_MS cfg then
      Some (chat, [ (ws, ChatError "You are sending messages too quickly.") ])
    else
      match trimmedText messageText with
      | None => None
      | Some text =>
          if (List.length text =? 0)%nat then Some (chat, [])
          else if CHAT_MESSAGE_MAX_LENGTH cfg <? Z.of_nat (List.length text) then
            Some (chat,
                  [ (ws, ChatError ("Message too long (max "
                                    ++ show_number (CHAT_MESSAGE_MAX_LENGTH cfg)
                                    ++ " characters)")) ])
          else
            let chatPayload :=
              ChatMessage (nickname_or_Anon (nickname chat)) text (date_stamp env) in
            Some ({| nickname := nickname chat; verifiedHuman := verifiedHuman chat;
                     challenge := challenge chat; lastChatAt := now |},
                  map (fun client => (ws_id client, chatPayload))
                      (filter (fun client => Z.eqb (readyState client) OPEN)
                              (clients env)))
      end.

(** What [JSON.parse(data.toString())] gives, as far as the listener looks
    at it. *)
Inductive incoming :=
| NotJSON
| ChatInit (messageNickname : field)
| ChatVerify (messageAnswer : option Z)
| ChatText (messageText : field)
| OtherType.

(** The ['message'] listener of a socket: the dispatch on [message.type]
    inside [try { ... } catch (err) { console.error(...) }]. *)
Definition onMessage (cfg : ChatConfig) (ws : nat) (env : ChatEnv) (m : incoming)
    (chat : ChatState) : ChatState * list (nat * chatFrame) :=
  let result :=
    match m with
    | NotJSON => None
    | ChatInit n => handleChatInit cfg env ws n chat
    | ChatVerify a => handleChatVerify env ws a chat
    | ChatText t => handleChatMessage cfg env ws t chat
    | OtherType => Some (chat, [])
    end in
  match result with
  | Some r => r
  | None => (chat, [])
  end.

(** The messages of one socket, in the order they arrive, each with what
    the environment provides for it; the result lists, per message, what was
    handed to [send]. *)
Fixpoint chatSession (cfg : ChatConfig) (ws : nat) (ms : list (ChatEnv * incoming))
    (chat : ChatState) : ChatState * list (list (nat * chatFrame)) :=
  match ms with
  | [] => (chat, [])
  | (env, m) :: rest =>
      let '(chat1, out) := onMessage cfg ws env m chat in
      let '(chat2, outs) := chatSession cfg ws rest chat1 in
      (chat2, out :: outs)
  end.

(** ** Scenarios and statements used by the theorems *)

Definition noPrintInfo : PrintInfoT :=
  {| PI_Status := None; PI_Filename := None; PI_Progress := None;
     PI_CurrentTicks := None; PI_TotalTicks := None; PI_TotalLayer := None;
     PI_CurrentLayer := None |}.

(** A status payload [{ Status: { CurrentStatus, PrintInfo: { Status, Progress } } }]. *)
Definition statusPayload (cs : CurrentStatusField) (jobCode progress : option Z)
    : Payload :=
  {| Attributes := None;
     Status :=
       Some {| CurrentStatus := cs;
               PrintInfo :=
                 Some {| PI_Status := jobCode; PI_Filename := None;
                         PI_Progress := progress; PI_CurrentTicks := None;
                         PI_TotalTicks := None; PI_TotalLayer := None;
                         PI_CurrentLayer := None |};
               TempOfHotbed := None; TempTargetHotbed := None;
               TempOfNozzle := None; TempTargetNozzle := None;
               TempOfBox := None; TempTargetBox := None |} |}.

(** The end-to-end scenario of the specification: [CurrentStatus=[1]],
    [PrintInfo.Status=13]. *)
Definition recoveryScenario : Payload :=
  statusPayload (CS_array [1]) (Some 13) None.

(** A server with one open web client. *)
Definition oneClientServer : Server :=
  set_webClients [ {| ws_id := 7; readyState := OPEN |} ] (initialServer None).

(** A burst of [broadcastToClients] calls, each with its clock reading. *)
Definition burst (calls : list (Z * message)) (s : Server) : Server :=
  fold_left (fun acc c => broadcastToClients (fst c) (snd c) acc) calls s.

(** Every handle in use is below the next handle [setTimeout] gives out. *)
Definition handlesFresh (s : Server) : Prop :=
  Forall (fun t => (handle t < nextTimer (runtime s))%nat) (timers (runtime s)).

(** The burst property with the content of the last call, as the
    specification words it: after a send at [lastBroadcastTime], a non-empty
    burst of non-urgent calls inside the interval, then the deferred send
    firing, delivers the message of the last call to every open client. *)
Definition burstCarriesLast : Prop :=
  forall (env : AutoConnectEnv) (s : Server) (calls : list (Z * message))
         (lastCall : Z * message) (fireAt : Z),
    pendingBroadcast (gate s) = None ->
    handlesFresh s ->
    Forall (fun c => msg_type (snd c) <> "server_restarting"
                     /\ fst c - lastBroadcastTime (gate s) < WS_UPDATE_INTERVAL s)
           (calls ++ [lastCall]) ->
    sent (runtime (fireTimer env fireAt (nextTimer (runtime s))
                     (burst (calls ++ [lastCall]) s)))
    = sent (runtime s) ++ map (fun c => (ws_id c, snd lastCall)) (openClients s).

(** An environment in which discovery finds nothing and every request is
    answered without a camera. *)
Definition quietEnv : AutoConnectEnv :=
  {| discover_result := Discovered [];
     connect_env :=
       {| constructor_throws := None; connect_rejects := None;
          cameraURL_result := CameraURLResponse None;
          setup_fetch := FetchRejected "fetch failed" |};
     second_fetch := FetchRejected "fetch failed" |}.

(** Status messages that differ in the reported progress. *)
Definition progressMessage (p : Z) : message :=
  StatusMessage (set_progress p defaultPrinterStatus) defaultTemperatures
    (userStats (initialServer None)).

(** [oneClientServer] right after a send at clock reading 5000. *)
Definition afterSend : Server :=
  broadcastToClients 5000 (progressMessage 10) oneClientServer.

(** Two status payloads: machine code 1 (PRINTING), then machine code 99,
    which no table maps. *)
Definition printingPayload : Payload := statusPayload (CS_array [1]) (Some 3) None.
Definition unmappablePayload : Payload := statusPayload (CS_array [99]) (Some 3) None.

(** What a relay start attempt reports to the failure tracker: the fetch
    succeeded (with the boundary it advertised), or the start failed with an
    error message. *)
Inductive relayOutcome :=
| RelayStarted (boundaryMatch : option string)
| RelayFailed (errMessage : option string).


Definition relayOutcome_step (now : Z) (o : relayOutcome) (s : Server) : Server :=
  match o with
  | RelayStarted boundaryMatch => startCameraStreaming_fetched now (FetchOk boundaryMatch) s
  | RelayFailed errMessage => handleCameraStartFailure now errMessage s
  end.

(** A history of attempts, oldest first, each with its clock reading. *)
Definition relayRun (history : list (Z * relayOutcome)) (s : Server) : Server :=
  fold_left (fun acc h => relayOutcome_step (fst h) (snd h) acc) history s.




(** What one call of a subscriber writes for the frame [f]. *)
Definition frameChunks (id : nat) (f : Frame) : list (nat * chunk) :=
  [ (id, WriteContentType);
    (id, WriteContentLength (List.length f));
    (id, WriteFrame f);
    (id, WriteClosingBoundary) ].

(** The frames written to the response [id], in the order of the writes. *)
Definition framesWrittenTo (id : nat) (writes : list (nat * chunk)) : list Frame :=
  flat_map (fun w =>
              match snd w with
              | WriteFrame f => if Nat.eqb (fst w) id then [f] else []
              | _ => []
              end) writes.

(** The read loop of one stream fed with parsed frames, each with the clock
    reading taken for it. *)
Definition relayFrames (arrivals : list (Z * Frame)) (p : Stream * Server)
    : Stream * Server :=
  fold_left (fun acc a => onFrame (fst a) (snd a) (fst acc) (snd acc)) arrivals p.

(** The server is as it starts, with one frame cached. *)
Definition oneFrame : Frame := [Byte.xff; Byte.xd8; Byte.xff; Byte.xd9].

Definition cachedServer : Server := with_latestFrame (Some oneFrame) (initialServer None).

Definition freshStream : Stream :=
  {| boundaryBuffer := list_byte_of_string "--frame"; buffer := []; lastFrameTime := 0 |}.

(** The guard of the post-connect setup and the setups it lets through. *)
Definition setupInv (s : Server) : Prop :=
  match setupTasks (supervisor s) with
  | [] => reconnectSetupInProgress (supervisor s) = false
  | [_] => reconnectSetupInProgress (supervisor s) = true
  | _ :: _ :: _ => False
  end.

Definition guardOf (s : Server) : bool * list SetupPhase :=
  (reconnectSetupInProgress (supervisor s), setupTasks (supervisor s)).

(** [s'] comes from [s] by steps that only append to the response writes and
    keep [setupInv]. *)
Definition tame (s s' : Server) : Prop :=
  (exists ext, cameraWrites (runtime s') = cameraWrites (runtime s) ++ ext)
  /\ (setupInv s -> setupInv s').

(** The candidate of the fail-over scenarios and an environment in which
    discovery finds it and its [connect()] rejects. *)
Definition unreachablePrinter : DiscoveredPrinter :=
  {| address := "192.168.1.50"; prn_Name := Some "Centauri Carbon";
     prn_Id := None; prn_Proxy := false |}.

Definition unreachableEnv : AutoConnectEnv :=
  {| discover_result := Discovered [unreachablePrinter];
     connect_env :=
       {| constructor_throws := None;
          connect_rejects := Some "connect ECONNREFUSED 192.168.1.50:3030";
          cameraURL_result := CameraURLResponse None;
          setup_fetch := FetchRejected "fetch failed" |};
     second_fetch := FetchRejected "fetch failed" |}.

(** The same candidate in an environment in which [connectToPrinter] itself
    throws. *)
Definition throwingEnv : AutoConnectEnv :=
  {| discover_result := Discovered [unreachablePrinter];
     connect_env :=
       {| constructor_throws := Some "Invalid URL";
          connect_rejects := None;
          cameraURL_result := CameraURLResponse None;
          setup_fetch := FetchRejected "fetch failed" |};
     second_fetch := FetchRejected "fetch failed" |}.

Definition isAutoConnectTimer (t : Timer) : bool :=
  match action t with
  | CbAutoConnect => true
  | _ => false
  end.

(** The timers that will call [autoConnect] again. *)
Definition autoConnectTimers (s : Server) : list Timer :=
  filter isAutoConnectTimer (timers (runtime s)).

(** [s'] has the fail-over state and the pending [autoConnect] timers of [s]. *)
Definition sameFailover (s s' : Server) : Prop :=
  autoConnectState (supervisor s') = autoConnectState (supervisor s)
  /\ autoConnectTimers s' = autoConnectTimers s.

(** ** Statements about the code beyond the specification *)

(** The labels a machine code, and so the consolidated status, can be
    projected to. *)
Definition machineLabels : list string :=
  [ "IDLE"; "PRINTING"; "FILE_TRANSFERRING"; "LEVELING"; "STOPPING"; "STOPPED";
    "HOMING"; "RECOVERY"; "UNKNOWN" ].

(** The labels a job code can be projected to. *)
Definition jobLabels : list string :=
  [ "IDLE"; "HOMING"; "DROPPING"; "PRINTING"; "LIFTING"; "PAUSING"; "PAUSED";
    "STOPPING"; "STOPPED"; "COMPLETE"; "FILE_CHECKING"; "RECOVERY"; "LOADING";
    "PREHEATING"; "LEVELING"; "UNKNOWN" ].

(** The code is a key of [MACHINE_STATUS_LABELS]. *)
Definition isMachineCode (c : option Z) : bool :=
  existsb (code_is c) (map fst MACHINE_STATUS_LABELS).

(** The file name of a status block, [undefined] when there is no print
    information. *)
Definition fileNameOf (sb : StatusBlock) : option string :=
  match PrintInfo sb with
  | Some pi => PI_Filename pi
  | None => None
  end.

(** [CurrentStatus] is an array whose first element is the number 1. *)
Definition startsWithPrinting (cs : CurrentStatusField) : Prop :=
  exists rest, cs = CS_array (1 :: rest).

(** A server that is connected to a named printer, with measured
    temperatures, one open web client and the last send long ago. *)
Definition warmServer : Server :=
  set_temperatures
    {| bed := {| current := 60; target := 60 |};
       nozzle := {| current := 215; target := 220 |};
       enclosure := {| current := 35; target := 0 |} |}
    (with_ps (fun p => set_printerName "Centauri Carbon" (set_connected true p))
       oneClientServer).

(** *** Chat *)

Definition isChatMessage (f : chatFrame) : bool :=
  match f with
  | ChatMessage _ _ _ => true
  | _ => false
  end.

(** The frames of a handler run contain a chat message. *)
Definition delivers (out : list (nat * chatFrame)) : bool :=
  existsb (fun o => isChatMessage (snd o)) out.

(** A text as the handlers accept it: trimmed, not empty, within the limit. *)
Definition acceptable (limit : Z) (str : jsstring) : Prop :=
  str <> [] /\ Z.of_nat (List.length str) <= limit /\ trim str = str.

(** The sum the challenge drawn while [e] was handled asks for. *)
Definition drawnSum (e : ChatEnv * incoming) : Z := draw_a (fst e) + draw_b (fst e).

(** No [chat_verify] of the session gives the sum of a challenge drawn
    earlier in the session. *)
Definition neverSolved (ms : list (ChatEnv * incoming)) : Prop :=
  forall (j : nat) (e : ChatEnv) (ans : Z),
    nth_error ms j = Some (e, ChatVerify (Some ans)) ->
    Forall (fun earlier => ans <> drawnSum earlier) (firstn j ms).

Definition chatters : list WebClient :=
  [ {| ws_id := 7; readyState := OPEN |}; {| ws_id := 8; readyState := 3 |} ].

Definition chatEnv (a b now : Z) : ChatEnv :=
  {| draw_a := a; draw_b := b; date_now := now; date_stamp := now;
     clients := chatters |}.

(** The code units of ["  Bo "] and of ["hi"]. *)
Definition paddedBo : jsstring := [32; 32; 66; 111; 32]%N.
Definition hi : jsstring := [104; 105]%N.

(** A session: nickname, wrong answer, right answer, two messages inside
    the cooldown and one after it. *)
Definition solvedSession : list (ChatEnv * incoming) :=
  [ (chatEnv 3 4 1000, ChatInit (FieldString paddedBo));
    (chatEnv 5 6 2000, ChatVerify (Some 8));
    (chatEnv 1 1 3000, ChatVerify (Some 11));
    (chatEnv 1 1 4000, ChatText (FieldString hi));
    (chatEnv 1 1 4500, ChatText (FieldString hi));
    (chatEnv 1 1 5000, ChatText (FieldString hi)) ].

(** The same start without a right answer. *)
Definition unsolvedSession : list (ChatEnv * incoming) :=
  [ (chatEnv 3 4 1000, ChatInit (FieldString paddedBo));
    (chatEnv 5 6 2000, ChatVerify (Some 8));
    (chatEnv 1 1 3000, ChatVerify None);
    (chatEnv 1 1 4000, ChatText (FieldString hi)) ].

(** No leading white space. *)
Definition headTrimmed (l : jsstring) : Prop :=
  match l with
  | [] => True
  | c :: _ => isWhiteSpace c = false
  end.

(** The nickname of a socket that has a challenge or is verified came from
    a [chat_init] among the messages [pre] handled so far and was accepted. *)
Definition nickFrom (cfg : ChatConfig) (pre : list (ChatEnv * incoming))
    (n : jsstring) : Prop :=
  acceptable (CHAT_NICKNAME_MAX_LENGTH cfg) n
  /\ exists env raw, In (env, ChatInit (FieldString raw)) pre /\ n = trim raw.

Definition chatInv (cfg : ChatConfig) (pre : list (ChatEnv * incoming))
    (chat : ChatState) : Prop :=
  (verifiedHuman chat = true -> challenge chat = None)
  /\ (verifiedHuman chat = true \/ challenge chat <> None ->
      exists n, nickname chat = Some n /\ nickFrom cfg pre n).

(** The socket is not verified, and the challenge it has, if any, was drawn
    while one of the messages [pre] was handled. *)
Definition unsolvedInv (pre : list (ChatEnv * incoming)) (chat : ChatState) : Prop :=
  verifiedHuman chat = false
  /\ forall ch, challenge chat = Some ch -> exists e, In e pre /\ answer ch = drawnSum e.

(** A verified socket sets a new nickname and goes on sending. *)
Definition renamedSession : list (ChatEnv * incoming) :=
  [ (chatEnv 2 2 7000, ChatText (FieldString hi));
    (chatEnv 2 2 9000, ChatVerify (Some 5)) ].

(** *** The multipart parser *)

Definition CRLF : list Byte.byte := [Byte.x0d; Byte.x0a].

(** One part of a multipart stream as the camera sends it (boundary,
    headers, blank line, body, line end), the boundary that closes it, and
    what follows. *)
Definition partThenBoundary (boundary headers body rest : list Byte.byte)
    : list Byte.byte :=
  boundary ++ headers ++ CRLFCRLF ++ body ++ CRLF ++ boundary ++ rest.

Definition jpegHeaders : list Byte.byte :=
  CRLF ++ list_byte_of_string "Content-Type: image/jpeg".

(** *** What holds in every state a run reaches *)

(** The printer name shown to clients is never empty. *)
Definition nameOk (s : Server) : Prop :=
  printerName (printerStatus s) <> EmptyString.

(** A camera reported as available has a stream address and no error. *)
Definition cameraOk (s : Server) : Prop :=
  cameraAvailable (printerStatus s) = true ->
  truthy_str (cameraStreamURL (relay s)) = true
  /\ cameraError (printerStatus s) = None.

(** The cached frame, when there is one, is not empty, and no empty frame
    was written to a camera response. *)
Definition frameOk (s : Server) : Prop :=
  latestFrame (relay s) <> Some []
  /\ Forall (fun w => snd w <> WriteFrame []) (cameraWrites (runtime s)).

(** The fail-over state of [autoConnect]: no proxy among the candidates,
    fewer than three failures counted, and a cursor inside the list, or an
    empty list with both counters at zero. *)
Definition failoverStateOk (st : AutoConnectState) : Prop :=
  Forall (fun p => prn_Proxy p = false) (printers st)
  /\ (failCount st < 3)%nat
  /\ ((printers st = [] /\ currentIdx st = 0%nat /\ failCount st = 0%nat)
      \/ (currentIdx st < List.length (printers st))%nat).

Definition failoverOk (s : Server) : Prop :=
  failoverStateOk (autoConnectState (supervisor s)).

Definition sound (s : Server) : Prop :=
  nameOk s /\ cameraOk s /\ frameOk s /\ failoverOk s.

(** [s'] comes from [s] by steps that leave the fail-over state alone, cancel
    no timer, schedule no call of [autoConnect], and keep each of [nameOk],
    [cameraOk] and [frameOk]. *)
Definition keeps (s s' : Server) : Prop :=
  autoConnectState (supervisor s') = autoConnectState (supervisor s)
  /\ incl (timers (runtime s)) (timers (runtime s'))
  /\ autoConnectTimers s' = autoConnectTimers s
  /\ (nameOk s -> nameOk s')
  /\ (cameraOk s -> cameraOk s')
  /\ (frameOk s -> frameOk s').

(** The same for the steps that do write the fail-over state. *)
Definition keepsSound (s s' : Server) : Prop :=
  incl (timers (runtime s)) (timers (runtime s'))
  /\ (sound s -> sound s').

(** The fields the invariants read. *)
Definition soundView (s : Server) :=
  (printerName (printerStatus s), cameraAvailable (printerStatus s),
   cameraError (printerStatus s), cameraStreamURL (relay s),
   latestFrame (relay s), cameraWrites (runtime s),
   autoConnectState (supervisor s), timers (runtime s)).

(** The timer events of a run that fire the handle [h]. *)
Definition fires (h : nat) (e : event) : Prop :=
  exists env now, e = EvTimer env now h.

(** An environment in which the printer answers the camera request with a
    stream address and the relay fetch succeeds. *)
Definition cameraEnv : ConnectEnv :=
  {| constructor_throws := None; connect_rejects := None;
     cameraURL_result :=
       CameraURLResponse (Some {| Ack := Some 0; VideoUrl := Some "192.168.1.50:3031/video" |});
     setup_fetch := FetchOk (Some "frame") |}.

(** The server after three failed relay starts with the same error: the
    exit is scheduled. *)
Definition failingRelay : Server :=
  relayRun [ (1000, RelayFailed (Some "fetch failed"));
             (1100, RelayFailed (Some "fetch failed"));
             (1200, RelayFailed (Some "fetch failed")) ]
           (initialServer None).

(** The list of candidates is empty or exhausted: [autoConnect] rediscovers. *)
Definition needsDiscovery (s : Server) : bool :=
  let st := autoConnectState (supervisor s) in
  Nat.eqb (List.length (printers st)) 0
  || Nat.leb (List.length (printers st)) (currentIdx st).

(** Discovery rejects or finds no printer that is not a proxy. *)
Definition noneEligible (env : AutoConnectEnv) : bool :=
  match discover_result env with
  | DiscoverRejected _ => true
  | Discovered found =>
      Nat.eqb (List.length (filter (fun p => negb (prn_Proxy p)) found)) 0
  end.

(** The run of [autoConnect] ends in one of its failure paths. *)
Definition autoConnectFails (env : AutoConnectEnv) (s : Server) : bool :=
  (needsDiscovery s && noneEligible env)
  || match constructor_throws (connect_env env) with
     | Some _ => true
     | None => false
     end.

(** The frames handed to [send] for the socket [id]. *)
Definition sentTo (id : nat) (frames : list (nat * message)) : list message :=
  map snd (filter (fun x => Nat.eqb (fst x) id) frames).

(** The socket [id] is not yet in [webClients]. *)
Definition newSocket (id : nat) (s : Server) : Prop :=
  existsb (fun c => Nat.eqb (ws_id c) id) (webClients s) = false.

(** *** Connections *)

(** [data.Attributes?.Name]. *)
Definition attributeName (d : Payload) : option string :=
  match Attributes d with
  | Some a => Name a
  | None => None
  end.

(** The phase a post-connect setup starts in: with a client it waits for the
    answer to the camera request. *)
Definition firstPhase (s : Server) : SetupPhase :=
  match printerClient (supervisor s) with
  | None => AwaitSetupCameraURL
  | Some _ => AwaitCameraURLResponse
  end.

(** What the handlers between a connection and its setup leave alone: the
    connection flag, the name and the variables of the supervisor. *)
Definition linkView (s : Server) : bool * string * Supervisor :=
  (connected (printerStatus s), printerName (printerStatus s), supervisor s).

Definition sameLink (s s' : Server) : Prop := linkView s' = linkView s.

(** The supervisor without its list of running setups. *)
Definition coreView (s : Server)
    : bool * string * option string * bool * bool * bool * AutoConnectState :=
  (connected (printerStatus s), printerName (printerStatus s),
   printerClient (supervisor s), reconnectSetupInProgress (supervisor s),
   reconnectSetupNeeded (supervisor s), isFirstUpdate (supervisor s),
   autoConnectState (supervisor s)).

(** The one setup that follows the setups [before] is in phase [q]. *)
Definition setupAt (core : bool * string * option string * bool * bool * bool
                           * AutoConnectState)
    (before : list SetupPhase) (q : SetupPhase) (s : Server) : Prop :=
  coreView s = core /\ setupTasks (supervisor s) = before ++ [q].

(** The read loop a successful start of the relay opens. *)
Definition newLoop (boundaryMatch : option string) : Stream :=
  {| boundaryBuffer :=
       list_byte_of_string
         ("--" ++ match boundaryMatch with
                  | Some b => stripDashes b
                  | None => "frame"
                  end);
     buffer := [];
     lastFrameTime := 0 |}.

(** The camera as the status and the relay see it. *)
Definition cameraView (s : Server)
    : bool * option string * option string * list Stream :=
  (cameraAvailable (printerStatus s), cameraError (printerStatus s),
   cameraStreamURL (relay s), streams (relay s)).

(** The printer answers the camera request with the stream address [url]. *)
Definition cameraAnswers (env : ConnectEnv) (url : string) : Prop :=
  cameraURL_result env
  = CameraURLResponse (Some {| Ack := Some 0; VideoUrl := Some url |})
  /\ url <> EmptyString.

(** An environment in which discovery finds one printer, the connection
    succeeds and both starts of the relay succeed. *)
Definition reachableEnv : AutoConnectEnv :=
  {| discover_result := Discovered [unreachablePrinter];
     connect_env := cameraEnv;
     second_fetch := FetchOk (Some "frame") |}.

(** *** Camera responses that are not subscribed *)

(** The response [rid] is not in [cameraSubscribers]. *)
Definition detached (rid : nat) (s : Server) : Prop :=
  ~ In rid (cameraSubscribers (relay s)).

(** [s'] comes from [s] by steps that, when [rid] is not subscribed, leave it
    so and write no frame to it. *)
Definition quietFor (rid : nat) (s s' : Server) : Prop :=
  detached rid s ->
  detached rid s'
  /\ framesWrittenTo rid (cameraWrites (runtime s'))
     = framesWrittenTo rid (cameraWrites (runtime s)).

Definition subscriberView (s : Server) : list nat * list (nat * chunk) :=
  (cameraSubscribers (relay s), cameraWrites (runtime s)).

(** The event is not the request [GET /api/camera] of the response [rid]. *)
Definition notAttach (rid : nat) (e : event) : Prop :=
  forall now statsAfter, e <> EvCameraAttach now rid statsAfter.

(** The response 4 subscribed while a frame was cached, and closed. *)
Definition closedResponse : Server :=
  api_camera_cleanup 20 4 (userStats (initialServer None))
    (api_camera 10 4 (userStats (initialServer None)) cachedServer).

(** The stream state with another buffer. *)
Definition withBuffer (buf : list Byte.byte) (st : Stream) : Stream :=
  {| boundaryBuffer := boundaryBuffer st; buffer := buf;
     lastFrameTime := lastFrameTime st |}.

(** *** An urgent message while a deferred broadcast is pending *)

(** Three web sockets; the second one is closed ([WebSocket.CLOSED] is 3). *)
Definition mixedClients : list WebClient :=
  [ {| ws_id := 7; readyState := OPEN |};
    {| ws_id := 8; readyState := 3 |};
    {| ws_id := 9; readyState := OPEN |} ].

(** A send at clock reading 5000, then a call at 5100 that the throttle
    defers: the broadcast of progress 20 is pending, due at 6000. *)
Definition pendingServer : Server :=
  burst [ (5000, progressMessage 10); (5100, progressMessage 20) ]
    (set_webClients mixedClients (initialServer None)).

Definition restartNotice : message := ServerRestarting "Camera error".

(** *** Two read loops on one camera stream *)

Definition otherFrame : Frame := [Byte.xff; Byte.xd8; Byte.x00; Byte.xff; Byte.xd9].

(** What a read loop reads for one frame once the boundary that opens the
    part is in its buffer: headers, blank line, body, line end and the
    boundary that closes the part. *)
Definition jpegPart (body : Frame) : list Byte.byte :=
  jpegHeaders ++ CRLFCRLF ++ body ++ CRLF ++ list_byte_of_string "--frame".

(** The server after a successful [autoConnect] at clock reading 1000 and a
    request [GET /api/camera] (response 4) at 2000. *)
Definition twoLoopServer : Server :=
  run [ EvAutoConnect reachableEnv 1000;
        EvCameraAttach 2000 4 (userStats (initialServer None)) ]
      (initialServer None).

(** *** [connectToPrinter] turn by turn *)

(** What the awaits of one post-connect setup are answered with, in order:
    the camera request, [startCameraStreaming] up to its fetch, the fetch,
    the end of [startCameraStreaming], the end of [onPrinterConnected]. *)
Definition setupAnswers (env : ConnectEnv) : list Awaited :=
  [ GotCameraURL (cameraURL_result env); Resumed; GotFetch (setup_fetch env);
    Resumed; Resumed ].

(** The turns of the event loop in which the setup number [i] runs. *)
Definition setupTurns (env : ConnectEnv) (now : Z) (i : nat) : list event :=
  map (EvSetupResume now i) (setupAnswers env).

(** The turns of a call [connectToPrinter(printerIP, name)] whose
    [connect()] resolves, with nothing else handled in between; its setup is
    number [i] of [setupTasks]. *)
Definition connectTurns (env : ConnectEnv) (now : Z) (printerIP : string)
    (name : option string) (i : nat) : list event :=
  EvConnectCall printerIP :: EvConnectResolved name :: setupTurns env now i.

(** The same call when the ['disconnect'] or ['error'] listener runs at clock
    reading [later], after [k] turns of the setup. *)
Definition connectTurnsLost (env : ConnectEnv) (now : Z) (printerIP : string)
    (name : option string) (i k : nat) (later : Z) : list event :=
  EvConnectCall printerIP :: EvConnectResolved name
    :: firstn k (setupTurns env now i)
       ++ EvPrinterLost later :: skipn k (setupTurns env now i).

(** The setup number [i] resumed with each of [answers] in turn. *)
Definition resumeAll (now : Z) (i : nat) (answers : list Awaited) (s : Server)
    : Server :=
  fold_left (fun acc a => setup_resume now i a acc) answers s.

(** The phases a setup can be in after [k] of its turns. *)
Definition phaseAfter (k : nat) (q : SetupPhase) : Prop :=
  match k with
  | 0 => q = AwaitCameraURLResponse
  | 1 => q = AwaitSetupCameraURL
  | 2 => q = AwaitFetch \/ q = AwaitStartCameraStreaming
  | 3 => q = AwaitStartCameraStreaming
  | 4 => q = AwaitOnPrinterConnected
  | _ => False
  end%nat.

(** [s'] comes from [s] by steps that do not end the process. *)
Definition sameExit (s s' : Server) : Prop :=
  exited (runtime s') = exited (runtime s).

(** The server once discovery has found the one printer of [reachableEnv]. *)
Definition discoveredServer : Server :=
  with_autoConnectState
    {| printers := [unreachablePrinter]; currentIdx := 0; failCount := 0 |}
    (initialServer None).

(** * Theorems *)

(** ** StatusProjector *)

Lemma code_is_true (x : option Z) (k : Z) : code_is x k = true <-> x = Some k.
Proof.
  destruct x as [n|]; simpl; split; intro H; try discriminate.
  - apply Z.eqb_eq in H. now subst.
  - injection H as ->. apply Z.eqb_refl.
Qed.

(** C4.  A payload whose job code is the printing-recovery code 13 is parsed
    to the consolidated label PRINTING and the job label PRINTING, whatever
    [CurrentStatus] holds; the scenario [CurrentStatus=[1]],
    [PrintInfo.Status=13] gives consolidated, machine and job label
    PRINTING. *)
Theorem C4_printing_recovery_forces_printing :
  (forall (d : Payload) (sb : StatusBlock),
      Status d = Some sb ->
      jobStatusCodeOf sb = Some JOB_STATUS.PRINTING_RECOVERY ->
      consolidated (parsed_status (parseStatusPayload (Some d))) = "PRINTING"
      /\ state_label (job (parsed_status (parseStatusPayload (Some d)))) = "PRINTING"
      /\ code (job (parsed_status (parseStatusPayload (Some d)))) = Some 13)
  /\ consolidated (parsed_status (parseStatusPayload (Some recoveryScenario))) = "PRINTING"
  /\ state_label (machine (parsed_status (parseStatusPayload (Some recoveryScenario)))) = "PRINTING"
  /\ state_label (job (parsed_status (parseStatusPayload (Some recoveryScenario)))) = "PRINTING".
Proof.
  split; [| repeat split; reflexivity].
  intros d sb Hsb Hjob.
  unfold parseStatusPayload, statusBlockOf. rewrite Hsb. simpl.
  rewrite Hjob. simpl. repeat split; reflexivity.
Qed.

Lemma C4_witness :
  consolidated (parsed_status
    (parseStatusPayload (Some (statusPayload (CS_number 0) (Some 13) None))))
  = "PRINTING".
Proof.
  apply (proj1 C4_printing_recovery_forces_printing
           (statusPayload (CS_number 0) (Some 13) None)
           {| CurrentStatus := CS_number 0;
              PrintInfo :=
                Some {| PI_Status := Some 13; PI_Filename := None;
                        PI_Progress := None; PI_CurrentTicks := None;
                        PI_TotalTicks := None; PI_TotalLayer := None;
                        PI_CurrentLayer := None |};
              TempOfHotbed := None; TempTargetHotbed := None;
              TempOfNozzle := None; TempTargetNozzle := None;
              TempOfBox := None; TempTargetBox := None |});
    reflexivity.
Defined.

(** ** BroadcastGate *)

(** Case analysis on the tests a handler makes. *)
Ltac split_tests :=
  repeat match goal with
         | |- context [if ?c then _ else _] => destruct c eqn:?
         | |- context [match ?x with Some _ => _ | None => _ end] => destruct x eqn:?
         end.

Lemma WS_UPDATE_INTERVAL_pos (s : Server) : 0 < WS_UPDATE_INTERVAL s.
Proof.
  unfold WS_UPDATE_INTERVAL. destruct (env_WS_UPDATE_INTERVAL s) as [v|]; [|lia].
  destruct (0 <? v) eqn:E; [apply Z.ltb_lt in E|]; lia.
Qed.

(** [broadcastToClients] writes the gate and the runtime only. *)
Lemma broadcastToClients_frame (now : Z) (msg : message) (s : Server) :
  let s' := broadcastToClients now msg s in
  env_WS_UPDATE_INTERVAL s' = env_WS_UPDATE_INTERVAL s
  /\ printerStatus s' = printerStatus s
  /\ temperatures s' = temperatures s
  /\ userStats s' = userStats s
  /\ webClients s' = webClients s
  /\ relay s' = relay s
  /\ supervisor s' = supervisor s.
Proof.
  unfold broadcastToClients, setTimeout. simpl.
  split_tests; simpl; repeat split; reflexivity.
Qed.

Lemma broadcastStatus_frame (now : Z) (s : Server) :
  let s' := broadcastStatus now s in
  env_WS_UPDATE_INTERVAL s' = env_WS_UPDATE_INTERVAL s
  /\ temperatures s' = temperatures s
  /\ userStats s' = userStats s
  /\ webClients s' = webClients s
  /\ relay s' = relay s
  /\ supervisor s' = supervisor s
  /\ printerStatus s'
     = set_users (Some (match users (printerStatus s) with
                        | Some u => u
                        | None => userStats s
                        end)) (printerStatus s).
Proof.
  unfold broadcastStatus, buildStatusPayload. cbv zeta.
  match goal with
  | |- context [broadcastToClients now ?m ?t] =>
      destruct (broadcastToClients_frame now m t) as (H1 & H2 & H3 & H4 & H5 & H6 & H7)
  end.
  rewrite H1, H2, H3, H4, H5, H6, H7. simpl. repeat split; reflexivity.
Qed.

(** An urgent message goes out at once, whatever the gate holds. *)
Lemma broadcast_urgent (now : Z) (msg : message) (s : Server) :
  msg_type msg = "server_restarting" ->
  broadcastToClients now msg s = with_lastBroadcastTime now (sendAll msg s).
Proof.
  intros H. unfold broadcastToClients. now rewrite H.
Qed.

(** A non-urgent message inside the interval, with nothing pending, arms one
    timer that carries this message. *)
Lemma broadcast_deferred (now : Z) (msg : message) (s : Server) :
  msg_type msg <> "server_restarting" ->
  now - lastBroadcastTime (gate s) < WS_UPDATE_INTERVAL s ->
  pendingBroadcast (gate s) = None ->
  broadcastToClients now msg s
  = with_pendingBroadcast (Some (nextTimer (runtime s)))
      (fst (setTimeout (CbDeferredBroadcast msg)
              (WS_UPDATE_INTERVAL s - (now - lastBroadcastTime (gate s))) now s)).
Proof.
  intros Hm Ht Hp. unfold broadcastToClients.
  destruct (String.eqb_spec (msg_type msg) "server_restarting") as [E|_]; [contradiction|].
  destruct (Z.leb_spec (WS_UPDATE_INTERVAL s) (now - lastBroadcastTime (gate s))); [lia|].
  rewrite Hp. reflexivity.
Qed.

(** A non-urgent message inside the interval, with a send pending, is
    dropped. *)
Lemma broadcast_dropped (now : Z) (msg : message) (s : Server) (h : nat) :
  msg_type msg <> "server_restarting" ->
  now - lastBroadcastTime (gate s) < WS_UPDATE_INTERVAL s ->
  pendingBroadcast (gate s) = Some h ->
  broadcastToClients now msg s = s.
Proof.
  intros Hm Ht Hp. unfold broadcastToClients.
  destruct (String.eqb_spec (msg_type msg) "server_restarting") as [E|_]; [contradiction|].
  destruct (Z.leb_spec (WS_UPDATE_INTERVAL s) (now - lastBroadcastTime (gate s))); [lia|].
  rewrite Hp. reflexivity.
Qed.

Lemma burst_dropped (calls : list (Z * message)) (s : Server) (h : nat) :
  pendingBroadcast (gate s) = Some h ->
  Forall (fun c => msg_type (snd c) <> "server_restarting"
                   /\ fst c - lastBroadcastTime (gate s) < WS_UPDATE_INTERVAL s) calls ->
  burst calls s = s.
Proof.
  intros Hp H. induction H as [|c calls [Hm Ht] _ IH]; [reflexivity|].
  unfold burst in *. simpl. rewrite (broadcast_dropped _ _ _ h Hm Ht Hp). exact IH.
Qed.

(** The state a burst leaves: nothing sent, one timer armed by the first
    call, carrying the message of the first call. *)
Lemma burst_arms_first (first : Z * message) (rest : list (Z * message)) (s : Server) :
  pendingBroadcast (gate s) = None ->
  Forall (fun c => msg_type (snd c) <> "server_restarting"
                   /\ fst c - lastBroadcastTime (gate s) < WS_UPDATE_INTERVAL s)
         (first :: rest) ->
  burst (first :: rest) s
  = with_pendingBroadcast (Some (nextTimer (runtime s)))
      (fst (setTimeout (CbDeferredBroadcast (snd first))
              (WS_UPDATE_INTERVAL s - (fst first - lastBroadcastTime (gate s)))
              (fst first) s)).
Proof.
  intros Hp H. inversion H as [|c l [Hm Ht] Hrest]; subst.
  unfold burst. simpl. fold (burst rest (broadcastToClients (fst first) (snd first) s)).
  rewrite (broadcast_deferred _ _ _ Hm Ht Hp).
  apply (burst_dropped rest _ (nextTimer (runtime s))); [reflexivity|].
  exact Hrest.
Qed.

Lemma find_app_fresh (h : nat) (ts : list Timer) (t : Timer) :
  Forall (fun x => (handle x < h)%nat) ts ->
  handle t = h ->
  find (fun x => Nat.eqb (handle x) h) (ts ++ [t]) = Some t.
Proof.
  intros Hf Ht. induction Hf as [|x ts Hx _ IH]; simpl.
  - rewrite Ht, Nat.eqb_refl. reflexivity.
  - destruct (Nat.eqb_spec (handle x) h); [lia|]. exact IH.
Qed.

Lemma filter_fresh (h : nat) (ts : list Timer) :
  Forall (fun x => (handle x < h)%nat) ts ->
  filter (fun t => negb (Nat.eqb (handle t) h)) ts = ts.
Proof.
  intros Hf. induction Hf as [|x ts Hx _ IH]; simpl; [reflexivity|].
  destruct (Nat.eqb_spec (handle x) h); [lia|]. simpl. now rewrite IH.
Qed.

(** C3, as amended.  After a send, a non-empty burst of non-urgent calls
    inside the throttle interval sends nothing and arms exactly one timer, due
    when the interval ends; that timer carries the message of the FIRST call
    of the burst, and when it fires every open client receives that one
    message and the gate is idle again. *)
Theorem C3_burst_coalesces_to_first_call :
  forall (env : AutoConnectEnv) (s : Server) (first : Z * message)
         (rest : list (Z * message)) (fireAt : Z),
    pendingBroadcast (gate s) = None ->
    handlesFresh s ->
    Forall (fun c => msg_type (snd c) <> "server_restarting"
                     /\ fst c - lastBroadcastTime (gate s) < WS_UPDATE_INTERVAL s)
           (first :: rest) ->
    let armed := burst (first :: rest) s in
    let fired := fireTimer env fireAt (nextTimer (runtime s)) armed in
    sent (runtime armed) = sent (runtime s)
    /\ timers (runtime armed)
       = timers (runtime s)
           ++ [ {| handle := nextTimer (runtime s);
                   due := lastBroadcastTime (gate s) + WS_UPDATE_INTERVAL s;
                   action := CbDeferredBroadcast (snd first) |} ]
    /\ sent (runtime fired)
       = sent (runtime s) ++ map (fun c => (ws_id c, snd first)) (openClients s)
    /\ timers (runtime fired) = timers (runtime s)
    /\ pendingBroadcast (gate fired) = None
    /\ lastBroadcastTime (gate fired) = fireAt.
Proof.
  intros env s first rest fireAt Hp Hf Hall armed fired.
  assert (Ea : armed
    = with_pendingBroadcast (Some (nextTimer (runtime s)))
        (fst (setTimeout (CbDeferredBroadcast (snd first))
                (WS_UPDATE_INTERVAL s - (fst first - lastBroadcastTime (gate s)))
                (fst first) s)))
    by (apply burst_arms_first; assumption).
  assert (Et : timers (runtime armed)
    = timers (runtime s)
        ++ [ {| handle := nextTimer (runtime s);
                due := lastBroadcastTime (gate s) + WS_UPDATE_INTERVAL s;
                action := CbDeferredBroadcast (snd first) |} ]).
  { rewrite Ea. simpl. do 3 f_equal. lia. }
  assert (Ef : findTimer (nextTimer (runtime s)) armed
    = Some {| handle := nextTimer (runtime s);
              due := lastBroadcastTime (gate s) + WS_UPDATE_INTERVAL s;
              action := CbDeferredBroadcast (snd first) |}).
  { unfold findTimer. rewrite Et. apply find_app_fresh; [exact Hf | reflexivity]. }
  assert (Ed : timers (runtime (dropTimer (nextTimer (runtime s)) armed))
               = timers (runtime s)).
  { unfold dropTimer. simpl. rewrite Et, filter_app. simpl.
    rewrite Nat.eqb_refl. simpl. rewrite app_nil_r. apply filter_fresh. exact Hf. }
  split; [rewrite Ea; reflexivity|].
  split; [exact Et|].
  unfold fired, fireTimer. rewrite Ef. cbv iota beta zeta. simpl action. cbv iota.
  unfold deferredBroadcast, sendAll.
  repeat split; simpl; try exact Ed.
  rewrite Ea. reflexivity.
Qed.

Lemma C3_witness :
  sent (runtime
    (fireTimer quietEnv 6000 (nextTimer (runtime afterSend))
       (burst [ (5100, progressMessage 20); (5200, progressMessage 30) ] afterSend)))
  = sent (runtime afterSend)
      ++ map (fun c => (ws_id c, progressMessage 20)) (openClients afterSend).
Proof.
  refine (proj1 (proj2 (proj2
    (C3_burst_coalesces_to_first_call quietEnv afterSend
       (5100, progressMessage 20) [ (5200, progressMessage 30) ] 6000 _ _ _)))).
  - reflexivity.
  - constructor.
  - repeat constructor; simpl; try discriminate; vm_compute; reflexivity.
Defined.

(** C3, counterexample.  After a send at 5000, the calls at 5100 (progress
    20) and 5200 (progress 30) are both throttled; the timer that fires at
    6000 delivers the message of the call at 5100, not that of the last
    call. *)
Lemma C3_counterexample_deferred_send_is_stale : ~ burstCarriesLast.
Proof.
  intros H.
  specialize (H quietEnv afterSend [ (5100, progressMessage 20) ]
                (5200, progressMessage 30) 6000).
  assert (Hp : pendingBroadcast (gate afterSend) = None) by reflexivity.
  assert (Hf : handlesFresh afterSend) by constructor.
  specialize (H Hp Hf).
  assert (Hall : Forall
    (fun c => msg_type (snd c) <> "server_restarting"
              /\ fst c - lastBroadcastTime (gate afterSend) < WS_UPDATE_INTERVAL afterSend)
    ([ (5100, progressMessage 20) ] ++ [ (5200, progressMessage 30) ])).
  { repeat constructor; simpl; try discriminate; vm_compute; reflexivity. }
  specialize (H Hall). vm_compute in H. discriminate H.
Qed.

(** C6.  A [server_restarting] message is sent inside the call, whatever
    the time since the last send: the sockets of [webClients] whose
    [readyState] is [WebSocket.OPEN] get it, in the order of the set, and
    nothing else is sent (so every open socket gets it and no other socket
    does); [lastBroadcastTime] becomes the clock reading of the call; a
    pending deferred broadcast is neither cancelled nor replaced, and when
    its timer fires later its message comes after the urgent one. *)
Theorem C6_urgent_message_bypasses_throttle :
  forall (now : Z) (msg : message) (s : Server),
    msg_type msg = "server_restarting" ->
    let s' := broadcastToClients now msg s in
    let recipients := filter (fun c => Z.eqb (readyState c) 1) (webClients s) in
    sent (runtime s') = sent (runtime s) ++ map (fun c => (ws_id c, msg)) recipients
    /\ (forall c : WebClient,
          In c (webClients s) -> readyState c = 1 ->
          In (ws_id c, msg) (sent (runtime s')))
    /\ (forall (id : nat) (m : message),
          In (id, m) (sent (runtime s')) ->
          In (id, m) (sent (runtime s))
          \/ m = msg /\ exists c, In c (webClients s) /\ ws_id c = id /\ readyState c = 1)
    /\ lastBroadcastTime (gate s') = now
    /\ pendingBroadcast (gate s') = pendingBroadcast (gate s)
    /\ timers (runtime s') = timers (runtime s)
    /\ forall (env : AutoConnectEnv) (fireAt : Z) (h : nat) (t : Timer) (data : message),
         findTimer h s = Some t ->
         action t = CbDeferredBroadcast data ->
         sent (runtime (fireTimer env fireAt h s'))
         = (sent (runtime s) ++ map (fun c => (ws_id c, msg)) recipients)
             ++ map (fun c => (ws_id c, data)) recipients.
Proof.
  intros now msg s Hm s' recipients. unfold s'.
  rewrite (broadcast_urgent now msg s Hm).
  assert (Hsent : sent (runtime (with_lastBroadcastTime now (sendAll msg s)))
                  = sent (runtime s) ++ map (fun c => (ws_id c, msg)) recipients)
    by reflexivity.
  split; [exact Hsent|].
  split.
  { intros c Hin Hopen. rewrite Hsent. apply in_or_app. right.
    apply (in_map (fun c => (ws_id c, msg))). apply filter_In.
    split; [exact Hin|]. rewrite Hopen. reflexivity. }
  split.
  { intros id m Hin. rewrite Hsent in Hin. apply in_app_or in Hin.
    destruct Hin as [Hin|Hin]; [left; exact Hin|right].
    apply in_map_iff in Hin. destruct Hin as (c & Hc & Hf).
    apply filter_In in Hf. destruct Hf as [Hf Ho]. apply Z.eqb_eq in Ho.
    injection Hc as <- <-. split; [reflexivity|]. exists c. repeat split; assumption. }
  repeat split; try reflexivity.
  intros env fireAt h t data Hfind Hact.
  unfold fireTimer.
  replace (findTimer h (with_lastBroadcastTime now (sendAll msg s))) with (Some t)
    by (symmetry; exact Hfind).
  rewrite Hact. reflexivity.
Qed.

(** The sockets 7 and 9 are open and 8 is closed; progress 10 went out at
    5000 and progress 20 waits for the timer 0.  The notice of the call at
    5200 goes to 7 and 9 at once; the deferred progress 20 follows when the
    timer fires at 6000. *)
Lemma C6_witness :
  sent (runtime (broadcastToClients 5200 restartNotice pendingServer))
  = [ (7%nat, progressMessage 10); (9%nat, progressMessage 10);
      (7%nat, restartNotice); (9%nat, restartNotice) ]
  /\ lastBroadcastTime (gate (broadcastToClients 5200 restartNotice pendingServer)) = 5200
  /\ sent (runtime (fireTimer quietEnv 6000 0
                      (broadcastToClients 5200 restartNotice pendingServer)))
     = [ (7%nat, progressMessage 10); (9%nat, progressMessage 10);
         (7%nat, restartNotice); (9%nat, restartNotice);
         (7%nat, progressMessage 20); (9%nat, progressMessage 20) ].
Proof.
  destruct (C6_urgent_message_bypasses_throttle 5200 restartNotice pendingServer eq_refl)
    as (H1 & _ & _ & H4 & _ & _ & H7).
  split; [exact H1|]. split; [exact H4|].
  exact (H7 quietEnv 6000 0%nat
           {| handle := 0; due := 6000; action := CbDeferredBroadcast (progressMessage 20) |}
           (progressMessage 20) eq_refl eq_refl).
Defined.

(** ** Status bookkeeping *)

Lemma printerStatus_broadcastStatus (now : Z) (s : Server) :
  printerStatus (broadcastStatus now s)
  = set_users (Some (match users (printerStatus s) with
                     | Some u => u
                     | None => userStats s
                     end)) (printerStatus s).
Proof. apply (broadcastStatus_frame now s). Qed.

(** Whatever the previous value, a status payload installs the parsed status
    object whole: [use_new_status] only feeds the transition log. *)
Lemma updatePrinterStatus_overwrites_status (now : Z) (d : Payload)
    (sb : StatusBlock) (s : Server) :
  Status d = Some sb ->
  status (printerStatus (updatePrinterStatus now (Some d) s))
  = parsed_status (parseStatusPayload (Some d)).
Proof.
  intros Hsb. unfold updatePrinterStatus.
  rewrite printerStatus_broadcastStatus.
  unfold setCustomState, applyTelemetry, applyTemperatures, applyPrintInfo, applyStatus.
  rewrite Hsb. simpl. split_tests; reflexivity.
Qed.

(** C1, the code at the failing input.  From the initial state the payload
    with machine code 1 sets [consolidated] to PRINTING; the next payload,
    with the unmappable machine code 99, is parsed to UNKNOWN and
    [updatePrinterStatus] stores that: [consolidated] regresses to UNKNOWN. *)
Theorem C1_unmappable_code_overwrites_consolidated :
  let s1 := updatePrinterStatus 5000 (Some printingPayload) (initialServer None) in
  let s2 := updatePrinterStatus 7000 (Some unmappablePayload) s1 in
  consolidated (status (printerStatus s1)) = "PRINTING"
  /\ consolidated (parsed_status (parseStatusPayload (Some unmappablePayload))) = "UNKNOWN"
  /\ consolidated (status (printerStatus s2)) = "UNKNOWN".
Proof. vm_compute. repeat split; reflexivity. Qed.

(** C10.  In the default disconnected shape [setDisconnectedStatus] returns
    the state it was given: [printerStatus], [reconnectSetupNeeded], the
    messages sent and the timers are all untouched.  Its result always has
    that shape, so any number of further disconnect or error events after the
    first one change nothing: one reset and one call of the broadcast, those
    of the first event on a connected printer. *)
Theorem C10_setDisconnectedStatus_idempotent :
  forall (now : Z) (s : Server),
    (connected (printerStatus s) = false ->
     printerName (printerStatus s) = "Unknown" ->
     state (printerStatus s) = StateText "Disconnected" ->
     setDisconnectedStatus now s = s)
    /\ (forall more : list Z,
          fold_left (fun acc n => setDisconnectedStatus n acc) more
            (setDisconnectedStatus now s)
          = setDisconnectedStatus now s)
    /\ (connected (printerStatus s) = true ->
        setDisconnectedStatus now s
        = broadcastStatus now
            (set_printerStatus (resetStatus now) (with_reconnectSetupNeeded true s))).
Proof.
  intros now s.
  assert (Hearly : forall n t,
    connected (printerStatus t) = false ->
    printerName (printerStatus t) = "Unknown" ->
    state (printerStatus t) = StateText "Disconnected" ->
    setDisconnectedStatus n t = t).
  { intros n t Hc Hn Hs. unfold setDisconnectedStatus. now rewrite Hc, Hn, Hs. }
  assert (Hshape :
    connected (printerStatus (setDisconnectedStatus now s)) = false
    /\ printerName (printerStatus (setDisconnectedStatus now s)) = "Unknown"
    /\ state (printerStatus (setDisconnectedStatus now s)) = StateText "Disconnected").
  { unfold setDisconnectedStatus.
    destruct (connected (printerStatus s)) eqn:Hc; simpl.
    - rewrite printerStatus_broadcastStatus. repeat split; reflexivity.
    - destruct (String.eqb_spec (printerName (printerStatus s)) "Unknown") as [Hn|Hn]; simpl.
      + destruct (state (printerStatus s)) as [t|c] eqn:Hs; simpl.
        * destruct (String.eqb_spec t "Disconnected") as [Ht|Ht].
          -- subst t. repeat split; assumption.
          -- rewrite printerStatus_broadcastStatus. repeat split; reflexivity.
        * rewrite printerStatus_broadcastStatus. repeat split; reflexivity.
      + rewrite printerStatus_broadcastStatus. repeat split; reflexivity. }
  split; [apply Hearly|]. split.
  - intros more. induction more as [|n more IH]; [reflexivity|].
    simpl. destruct Hshape as (Hc & Hn & Hs). rewrite (Hearly n _ Hc Hn Hs). exact IH.
  - intros Hc. unfold setDisconnectedStatus. rewrite Hc. reflexivity.
Qed.

Lemma C10_witness :
  setDisconnectedStatus 9000 (initialServer None) = initialServer None.
Proof.
  apply (proj1 (C10_setDisconnectedStatus_idempotent 9000 (initialServer None)));
    reflexivity.
Defined.

(** ** Camera failure tracker *)








(** ** MediaRelay *)

Lemma intervalElapsed_spec (now last : Z) :
  intervalElapsed now last = true <-> 1000 <= MAX_FPS * (now - last).
Proof.
  unfold intervalElapsed, minFrameInterval, Qle_bool. cbn [Qnum Qden inject_Z].
  change (Z.to_pos MAX_FPS) with 15%positive. unfold MAX_FPS.
  rewrite Z.leb_le. lia.
Qed.

(** A subscriber call leaves everything but the subscriber set and the
    response writes alone. *)
Lemma subscriber_frame (id : nat) (f : Frame) (s : Server) :
  let s' := subscriber id f s in
  latestFrame (relay s') = latestFrame (relay s)
  /\ brokenResponses (runtime s') = brokenResponses (runtime s)
  /\ cameraWrites (runtime s')
     = cameraWrites (runtime s) ++ (if isBroken id s then [] else frameChunks id f).
Proof.
  unfold subscriber. destruct (isBroken id s); simpl.
  - rewrite app_nil_r. repeat split; reflexivity.
  - repeat split; reflexivity.
Qed.

Lemma fold_subscriber (f : Frame) (ids : list nat) (s : Server) :
  let s' := fold_left (fun acc id => subscriber id f acc) ids s in
  latestFrame (relay s') = latestFrame (relay s)
  /\ brokenResponses (runtime s') = brokenResponses (runtime s)
  /\ cameraWrites (runtime s')
     = cameraWrites (runtime s)
         ++ flat_map (fun id => if isBroken id s then [] else frameChunks id f) ids.
Proof.
  revert s. induction ids as [|id ids IH]; intros s; simpl.
  - rewrite app_nil_r. repeat split; reflexivity.
  - destruct (IH (subscriber id f s)) as (Hl & Hb & Hw).
    destruct (subscriber_frame id f s) as (Hl1 & Hb1 & Hw1).
    rewrite Hl, Hb, Hw, Hl1, Hb1, Hw1. repeat split; try reflexivity.
    rewrite <- app_assoc. do 2 f_equal.
    apply flat_map_ext. intros i. unfold isBroken. rewrite Hb1. reflexivity.
Qed.

(** The fan-out writes the frame to every subscriber whose response still
    takes writes, in subscription order. *)
Lemma dispatch_writes (f : Frame) (s : Server) :
  latestFrame (relay (dispatch f s)) = latestFrame (relay s)
  /\ cameraWrites (runtime (dispatch f s))
     = cameraWrites (runtime s)
         ++ flat_map (fun id => if isBroken id s then [] else frameChunks id f)
              (cameraSubscribers (relay s)).
Proof.
  unfold dispatch.
  destruct (fold_subscriber f (cameraSubscribers (relay s)) s) as (Hl & _ & Hw).
  split; assumption.
Qed.

Lemma onFrame_dropped (now : Z) (f : Frame) (st : Stream) (s : Server) :
  intervalElapsed now (lastFrameTime st) = false ->
  onFrame now f st s = (st, s).
Proof.
  intros H. unfold onFrame. rewrite H. now destruct (0 <? List.length f)%nat.
Qed.

(** The throttle of one read loop.  For a parsed non-empty frame the test is
    [now - lastFrameTime >= 1000 / MAX_FPS], with the [lastFrameTime] of the
    loop that read the frame; when it fails the frame is dropped without a
    trace (stream and server are exactly as before, so nothing is stored or
    queued, and every later step of that loop runs as if the frame had never
    arrived); when it holds the frame becomes [latestFrame], is written to
    every subscriber whose response takes writes, and the [lastFrameTime] of
    the loop becomes the clock reading of this frame. *)
Lemma frame_throttle_per_loop :
  forall (now : Z) (f : Frame) (st : Stream) (s : Server),
    f <> [] ->
    (intervalElapsed now (lastFrameTime st) = true
       <-> 1000 <= MAX_FPS * (now - lastFrameTime st))
    /\ (MAX_FPS * (now - lastFrameTime st) < 1000 ->
        onFrame now f st s = (st, s))
    /\ (1000 <= MAX_FPS * (now - lastFrameTime st) ->
        latestFrame (relay (snd (onFrame now f st s))) = Some f
        /\ lastFrameTime (fst (onFrame now f st s)) = now
        /\ cameraWrites (runtime (snd (onFrame now f st s)))
           = cameraWrites (runtime s)
               ++ flat_map (fun id => if isBroken id s then [] else frameChunks id f)
                    (cameraSubscribers (relay s)))
    /\ (forall (before after : list (Z * Frame)) (st0 : Stream) (s0 : Server),
          relayFrames before (st0, s0) = (st, s) ->
          MAX_FPS * (now - lastFrameTime st) < 1000 ->
          relayFrames (before ++ (now, f) :: after) (st0, s0)
          = relayFrames (before ++ after) (st0, s0)).
Proof.
  intros now f st s Hf.
  assert (Hdrop : MAX_FPS * (now - lastFrameTime st) < 1000 ->
                  intervalElapsed now (lastFrameTime st) = false).
  { intros H. destruct (intervalElapsed now (lastFrameTime st)) eqn:E; [|reflexivity].
    apply intervalElapsed_spec in E. lia. }
  assert (Hpass : 1000 <= MAX_FPS * (now - lastFrameTime st) ->
                  intervalElapsed now (lastFrameTime st) = true).
  { intros H. apply intervalElapsed_spec. exact H. }
  split; [apply intervalElapsed_spec|].
  split; [intros H; apply onFrame_dropped; auto|].
  split.
  - intros H. unfold onFrame. rewrite (Hpass H).
    destruct f as [|b f]; [contradiction|].
    replace (0 <? List.length (b :: f))%nat with true by reflexivity.
    cbv zeta. cbn [fst snd lastFrameTime].
    destruct (dispatch_writes (b :: f) (with_latestFrame (Some (b :: f)) s)) as [Hl Hw].
    split; [exact Hl|]. split; [reflexivity|]. exact Hw.
  - intros before after st0 s0 Hbefore H. unfold relayFrames in *.
    rewrite !fold_left_app, Hbefore. cbn [fold_left fst snd].
    rewrite (onFrame_dropped now f st s (Hdrop H)). reflexivity.
Qed.

Example frame_throttle_per_loop_drops :
  onFrame 1050 oneFrame
    {| boundaryBuffer := boundaryBuffer freshStream; buffer := []; lastFrameTime := 1000 |}
    cachedServer
  = ({| boundaryBuffer := boundaryBuffer freshStream; buffer := []; lastFrameTime := 1000 |},
     cachedServer).
Proof.
  refine (proj1 (proj2 (frame_throttle_per_loop 1050 oneFrame
    {| boundaryBuffer := boundaryBuffer freshStream; buffer := []; lastFrameTime := 1000 |}
    cachedServer _)) _).
  - discriminate.
  - vm_compute. reflexivity.
Qed.

(** The loop on a chunk that holds two parts, read with clock readings 10 ms
    apart: the first frame goes to the subscriber, the second is dropped. *)
Example onChunk_drops_second_frame :
  let crlf := [Byte.x0d; Byte.x0a] in
  let part body :=
    list_byte_of_string "--frame" ++ crlf
      ++ list_byte_of_string "Content-Type: image/jpeg" ++ crlf ++ crlf
      ++ body ++ crlf in
  let chunkBytes :=
    part oneFrame ++ part [Byte.x01; Byte.x02] ++ list_byte_of_string "--frame" in
  let s := api_camera 10 4 (userStats (initialServer None)) (initialServer None) in
  let r := onChunk (fun k => 5000 + 10 * Z.of_nat k) chunkBytes freshStream s in
  framesWrittenTo 4 (cameraWrites (runtime (snd r))) = [oneFrame]
  /\ latestFrame (relay (snd r)) = Some oneFrame
  /\ lastFrameTime (fst r) = 5000
  /\ buffer (fst r) = list_byte_of_string "--frame".
Proof. vm_compute. repeat split; reflexivity. Qed.

(** C7, the code at the failing input.  [lastFrameTime] is a variable of one
    call of [startCameraStreaming], and a successful [autoConnect] makes two
    such calls (one in [onPrinterConnected], one of its own), so two read
    loops store into the same [latestFrame] and write to the same
    subscribers.  With the response 4 subscribed, the first loop reads a
    frame at clock reading 5000 and the second loop reads one at 5001: both
    are stored and both are written to the response, 1 ms apart, inside the
    interval [1000 / MAX_FPS] that the throttle is there to keep.  Had the
    first loop read the second frame, it would have been dropped. *)
Theorem C7_two_read_loops_deliver_inside_the_interval :
  let boundary := list_byte_of_string "--frame" in
  let s1 := run [ EvStreamChunk 0 (fun _ => 5000) (boundary ++ jpegPart oneFrame) ]
              twoLoopServer in
  let s2 := run [ EvStreamChunk 1 (fun _ => 5001) (boundary ++ jpegPart otherFrame) ] s1 in
  let sameLoop := run [ EvStreamChunk 0 (fun _ => 5001) (jpegPart otherFrame) ] s1 in
  MAX_FPS * (5001 - 5000) < 1000
  /\ streams (relay twoLoopServer) = [ newLoop (Some "frame"); newLoop (Some "frame") ]
  /\ cameraSubscribers (relay twoLoopServer) = [ 4%nat ]
  /\ latestFrame (relay s1) = Some oneFrame
  /\ framesWrittenTo 4 (cameraWrites (runtime s1)) = [ oneFrame ]
  /\ latestFrame (relay s2) = Some otherFrame
  /\ framesWrittenTo 4 (cameraWrites (runtime s2)) = [ oneFrame; otherFrame ]
  /\ map lastFrameTime (streams (relay s2)) = [ 5000; 5001 ]
  /\ latestFrame (relay sameLoop) = Some oneFrame
  /\ framesWrittenTo 4 (cameraWrites (runtime sameLoop)) = [ oneFrame ].
Proof. vm_compute. repeat split; reflexivity. Qed.

(** ** What every handler preserves *)

Lemma tame_refl (s : Server) : tame s s.
Proof. split; [exists []; now rewrite app_nil_r | auto]. Qed.

Lemma tame_trans (s1 s2 s3 : Server) : tame s1 s2 -> tame s2 s3 -> tame s1 s3.
Proof.
  intros [[e1 H1] I1] [[e2 H2] I2]. split; [|auto].
  exists (e1 ++ e2). now rewrite H2, H1, app_assoc.
Qed.

(** A step that shows neither in the guard nor in the response writes. *)
Lemma tame_quiet (s s' : Server) :
  guardOf s' = guardOf s ->
  cameraWrites (runtime s') = cameraWrites (runtime s) ->
  tame s s'.
Proof.
  intros Hg Hw. split.
  - exists []. now rewrite app_nil_r.
  - unfold setupInv. unfold guardOf in Hg. injection Hg as -> ->. auto.
Qed.

Lemma tame_appends (s s' : Server) (ext : list (nat * chunk)) :
  guardOf s' = guardOf s ->
  cameraWrites (runtime s') = cameraWrites (runtime s) ++ ext ->
  tame s s'.
Proof.
  intros Hg Hw. split.
  - now exists ext.
  - unfold setupInv. unfold guardOf in Hg. injection Hg as -> ->. auto.
Qed.

Create HintDb tame.

(** The setters that touch neither the guard nor the response writes. *)
Ltac is_plain_setter f :=
  match f with
  | with_ps _ => idtac
  | set_printerStatus _ => idtac
  | set_userStats _ => idtac
  | set_temperatures _ => idtac
  | set_webClients _ => idtac
  | with_lastBroadcastTime _ => idtac
  | with_pendingBroadcast _ => idtac
  | with_cameraStreamURL _ => idtac
  | with_cameraSubscribers _ => idtac
  | with_latestFrame _ => idtac
  | with_cameraStartFailure _ => idtac
  | with_streams _ => idtac
  | with_printerClient _ => idtac
  | with_reconnectSetupNeeded _ => idtac
  | with_isFirstUpdate _ => idtac
  | with_autoConnectState _ => idtac
  | with_timers _ => idtac
  | with_nextTimer _ => idtac
  | with_sent _ => idtac
  | with_brokenResponses _ => idtac
  | with_exited _ => idtac
  end.

Ltac peel_setter :=
  match goal with
  | |- tame ?s0 (?f ?s) =>
      is_plain_setter f;
      apply (tame_trans s0 s (f s)); [| apply tame_quiet; reflexivity]
  end.

#[local] Hint Resolve tame_refl : tame.
#[local] Hint Extern 4 (tame _ (_ _)) => peel_setter : tame.

Ltac tame_auto := auto 30 with tame nocore.

Lemma setTimeout_tame cb delay now s0 s :
  tame s0 s -> tame s0 (fst (setTimeout cb delay now s)).
Proof.
  intros H. apply (tame_trans _ _ _ H). apply tame_quiet; reflexivity.
Qed.
#[local] Hint Resolve setTimeout_tame : tame.

Lemma broadcastToClients_runtime (now : Z) (msg : message) (s : Server) :
  cameraWrites (runtime (broadcastToClients now msg s)) = cameraWrites (runtime s)
  /\ brokenResponses (runtime (broadcastToClients now msg s)) = brokenResponses (runtime s)
  /\ exited (runtime (broadcastToClients now msg s)) = exited (runtime s).
Proof.
  unfold broadcastToClients, setTimeout. split_tests; simpl; repeat split; reflexivity.
Qed.

Lemma broadcastToClients_tame now msg s0 s :
  tame s0 s -> tame s0 (broadcastToClients now msg s).
Proof.
  intros H. apply (tame_trans _ _ _ H). apply tame_quiet.
  - unfold guardOf.
    destruct (broadcastToClients_frame now msg s) as (_ & _ & _ & _ & _ & _ & Hs).
    now rewrite Hs.
  - apply broadcastToClients_runtime.
Qed.
#[local] Hint Resolve broadcastToClients_tame : tame.

Lemma broadcastStatus_tame now s0 s : tame s0 s -> tame s0 (broadcastStatus now s).
Proof.
  intros H. unfold broadcastStatus, buildStatusPayload. cbv zeta. tame_auto.
Qed.
#[local] Hint Resolve broadcastStatus_tame : tame.

Lemma updateUserStatsAndBroadcast_tame now s0 s :
  tame s0 s -> tame s0 (updateUserStatsAndBroadcast now s).
Proof. intros H. unfold updateUserStatsAndBroadcast. tame_auto. Qed.
#[local] Hint Resolve updateUserStatsAndBroadcast_tame : tame.

Lemma setDisconnectedStatus_tame now s0 s :
  tame s0 s -> tame s0 (setDisconnectedStatus now s).
Proof.
  intros H. unfold setDisconnectedStatus. split_tests; cbv zeta; tame_auto.
Qed.
#[local] Hint Resolve setDisconnectedStatus_tame : tame.

Lemma setCustomState_tame info s0 s : tame s0 s -> tame s0 (setCustomState info s).
Proof.
  intros H. unfold setCustomState.
  destruct info as [d|]; [|assumption].
  destruct (Status d); [|assumption]. cbv zeta. tame_auto.
Qed.
#[local] Hint Resolve setCustomState_tame : tame.

Lemma resetCameraFailureTracker_tame s0 s :
  tame s0 s -> tame s0 (resetCameraFailureTracker s).
Proof. intros H. unfold resetCameraFailureTracker. tame_auto. Qed.
#[local] Hint Resolve resetCameraFailureTracker_tame : tame.

Lemma handleCameraStartFailure_tame now e s0 s :
  tame s0 s -> tame s0 (handleCameraStartFailure now e s).
Proof.
  intros H. unfold handleCameraStartFailure. cbv zeta.
  match goal with |- context [if ?c then _ else _] => destruct c end; tame_auto.
Qed.
#[local] Hint Resolve handleCameraStartFailure_tame : tame.

Lemma subscriber_tame id f s0 s : tame s0 s -> tame s0 (subscriber id f s).
Proof.
  intros H. apply (tame_trans _ _ _ H). unfold subscriber, deleteSubscriber.
  destruct (isBroken id s).
  - apply tame_quiet; reflexivity.
  - eapply tame_appends; reflexivity.
Qed.
#[local] Hint Resolve subscriber_tame : tame.

Lemma dispatch_tame f s0 s : tame s0 s -> tame s0 (dispatch f s).
Proof.
  unfold dispatch. generalize (cameraSubscribers (relay s)) as ids.
  intros ids. revert s. induction ids as [|id ids IH]; intros s H; simpl.
  - exact H.
  - apply IH. apply subscriber_tame. exact H.
Qed.
#[local] Hint Resolve dispatch_tame : tame.

Lemma onFrame_tame now f st s0 s : tame s0 s -> tame s0 (snd (onFrame now f st s)).
Proof.
  intros H. unfold onFrame. split_tests; cbv zeta; cbn [snd]; tame_auto.
Qed.
#[local] Hint Resolve onFrame_tame : tame.

Lemma scanFrames_tame fuel clock k st s0 s :
  tame s0 s -> tame s0 (snd (scanFrames fuel clock k st s)).
Proof.
  revert k st s. induction fuel as [|fuel IH]; intros k st s H; simpl; [exact H|].
  destruct (indexOf (buffer st) (boundaryBuffer st) 0); [|exact H].
  destruct (indexOf (buffer st) CRLFCRLF _); [|exact H].
  destruct (indexOf (buffer st) (boundaryBuffer st) _); [|exact H].
  match goal with
  | |- context [onFrame ?n ?f st s] =>
      pose proof (onFrame_tame n f st s0 s H) as Hf; destruct (onFrame n f st s) as [st1 s1]
  end.
  apply IH. exact Hf.
Qed.

Lemma streamChunk_tame i clock value s0 s :
  tame s0 s -> tame s0 (streamChunk i clock value s).
Proof.
  intros H. unfold streamChunk, onChunk.
  destruct (nth_error (streams (relay s)) i) as [st|]; [|exact H]. cbv zeta.
  match goal with
  | |- context [scanFrames ?fu ?c ?k ?t s] =>
      pose proof (scanFrames_tame fu c k t s0 s H) as Hf;
      destruct (scanFrames fu c k t s) as [st1 s1]
  end.
  cbn [snd] in Hf. tame_auto.
Qed.
#[local] Hint Resolve streamChunk_tame : tame.

Lemma streamDone_tame i s0 s : tame s0 s -> tame s0 (streamDone i s).
Proof. intros H. unfold streamDone. tame_auto. Qed.
#[local] Hint Resolve streamDone_tame : tame.

Lemma streamError_tame now i e s0 s : tame s0 s -> tame s0 (streamError now i e s).
Proof.
  intros H. unfold streamError.
  destruct (nth_error (streams (relay s)) i); [|exact H]. cbv zeta. tame_auto.
Qed.
#[local] Hint Resolve streamError_tame : tame.

Lemma api_camera_tame now id stats s0 s :
  tame s0 s -> tame s0 (api_camera now id stats s).
Proof.
  intros H. unfold api_camera. destruct (isBroken id s); [exact H|]. cbv zeta.
  apply updateUserStatsAndBroadcast_tame. peel_setter.
  assert (H1 : tame s0 (addSubscriber id
             (with_cameraWrites (cameraWrites (runtime s) ++ [(id, WriteOpeningBoundary)]) s))).
  { unfold addSubscriber. split_tests.
    - apply (tame_trans _ _ _ H). eapply tame_appends; reflexivity.
    - peel_setter. apply (tame_trans _ _ _ H). eapply tame_appends; reflexivity. }
  destruct (latestFrame _); tame_auto.
Qed.
#[local] Hint Resolve api_camera_tame : tame.

Lemma api_camera_cleanup_tame now id stats s0 s :
  tame s0 s -> tame s0 (api_camera_cleanup now id stats s).
Proof. intros H. unfold api_camera_cleanup, deleteSubscriber. tame_auto. Qed.
#[local] Hint Resolve api_camera_cleanup_tame : tame.

Lemma startCameraStreaming_call_tame now s0 s :
  tame s0 s -> tame s0 (fst (startCameraStreaming_call now s)).
Proof.
  intros H. unfold startCameraStreaming_call.
  destruct (truthy_str _); cbv zeta; cbn [fst]; tame_auto.
Qed.
#[local] Hint Resolve startCameraStreaming_call_tame : tame.

Lemma startCameraStreaming_failed_tame now e s0 s :
  tame s0 s -> tame s0 (startCameraStreaming_failed now e s).
Proof. intros H. unfold startCameraStreaming_failed. cbv zeta. tame_auto. Qed.
#[local] Hint Resolve startCameraStreaming_failed_tame : tame.

Lemma startCameraStreaming_fetched_tame now r s0 s :
  tame s0 s -> tame s0 (startCameraStreaming_fetched now r s).
Proof.
  intros H. unfold startCameraStreaming_fetched. destruct r; cbv zeta; tame_auto.
Qed.
#[local] Hint Resolve startCameraStreaming_fetched_tame : tame.

Lemma setupCameraURL_answered_tame r s0 s :
  tame s0 s -> tame s0 (setupCameraURL_answered r s).
Proof.
  intros H. unfold setupCameraURL_answered.
  destruct r as [e|[cd|]]; [| |exact H]; split_tests; cbv zeta; tame_auto.
Qed.
#[local] Hint Resolve setupCameraURL_answered_tame : tame.

(** ** The guard of the post-connect setup *)

Lemma replace_task_tame (i : nat) (p : SetupPhase) (s0 s : Server) :
  tame s0 s ->
  tame s0 (with_setupTasks (replaceNth i p (setupTasks (supervisor s))) s).
Proof.
  intros H. apply (tame_trans _ _ _ H). split.
  - exists []. now rewrite app_nil_r.
  - unfold setupInv. simpl.
    destruct (setupTasks (supervisor s)) as [|q [|q' rest]]; simpl.
    + auto.
    + destruct i; simpl; auto.
    + intros [].
Qed.
#[local] Hint Resolve replace_task_tame : tame.

Lemma ensureReconnectSetup_call_tame name s0 s :
  tame s0 s -> tame s0 (fst (ensureReconnectSetup_call name s)).
Proof.
  intros H. apply (tame_trans _ _ _ H). unfold ensureReconnectSetup_call.
  destruct (reconnectSetupInProgress (supervisor s)) eqn:Hflag; [apply tame_refl|].
  cbv zeta. cbn [fst]. split.
  - exists []. rewrite app_nil_r. destruct (truthy_str name); reflexivity.
  - unfold setupInv. intros Hinv.
    destruct (setupTasks (supervisor s)) as [|q [|q' rest]] eqn:Htasks;
      [| congruence | contradiction].
    destruct (truthy_str name); simpl; rewrite Htasks; reflexivity.
Qed.
#[local] Hint Resolve ensureReconnectSetup_call_tame : tame.

(** The tail of [ensureReconnectSetup]: it clears the guard and its own
    entry, which was the only one. *)
Lemma finish_task_tame (i : nat) (q : SetupPhase) (s : Server) :
  nth_error (setupTasks (supervisor s)) i = Some q ->
  tame s
    (with_setupTasks
       (removeNth i (setupTasks (supervisor s)))
       (with_reconnectSetupInProgress false (with_reconnectSetupNeeded false s))).
Proof.
  intros Hnth. split.
  - exists []. now rewrite app_nil_r.
  - unfold setupInv. simpl.
    destruct (setupTasks (supervisor s)) as [|q0 [|q1 rest]]; simpl.
    + destruct i; discriminate.
    + destruct i as [|i]; simpl; [reflexivity|]. destruct i; discriminate.
    + intros [].
Qed.

Lemma setup_resume_tame now i a s0 s :
  tame s0 s -> tame s0 (setup_resume now i a s).
Proof.
  intros H. unfold setup_resume.
  destruct (nth_error (setupTasks (supervisor s)) i) as [q|] eqn:Hnth; [|exact H].
  destruct q, a; try exact H; cbv zeta.
  - tame_auto.
  - pose proof (startCameraStreaming_call_tame now s0 s H) as Hc.
    destruct (startCameraStreaming_call now s) as [s1 fetching]. cbn [fst] in Hc.
    tame_auto.
  - tame_auto.
  - tame_auto.
  - apply (tame_trans _ _ _ H). exact (finish_task_tame i _ s Hnth).
Qed.
#[local] Hint Resolve setup_resume_tame : tame.

Lemma onReconnected_tame name s0 s : tame s0 s -> tame s0 (onReconnected name s).
Proof.
  intros H. unfold onReconnected. destruct (negb _); tame_auto.
Qed.
#[local] Hint Resolve onReconnected_tame : tame.

Lemma markUnreachable_tame now s0 s : tame s0 s -> tame s0 (markUnreachable now s).
Proof. intros H. unfold markUnreachable. tame_auto. Qed.
#[local] Hint Resolve markUnreachable_tame : tame.

Lemma reconnectOnData_tame d s0 s : tame s0 s -> tame s0 (reconnectOnData d s).
Proof. intros H. unfold reconnectOnData. destruct (negb _); tame_auto. Qed.
#[local] Hint Resolve reconnectOnData_tame : tame.

Lemma applyAttributes_tame d s0 s : tame s0 s -> tame s0 (applyAttributes d s).
Proof. intros H. unfold applyAttributes. destruct (Attributes d); tame_auto. Qed.
#[local] Hint Resolve applyAttributes_tame : tame.

Lemma applyStatus_tame d s0 s : tame s0 s -> tame s0 (applyStatus d s).
Proof.
  intros H. unfold applyStatus. destruct (Status d); [|exact H].
  destruct (negb _); tame_auto.
Qed.
#[local] Hint Resolve applyStatus_tame : tame.

Lemma applyTelemetry_tame d s0 s : tame s0 s -> tame s0 (applyTelemetry d s).
Proof.
  intros H. unfold applyTelemetry, applyTemperatures, applyPrintInfo.
  destruct (Status d) as [st|]; [|exact H].
  destruct (PrintInfo st); tame_auto.
Qed.
#[local] Hint Resolve applyTelemetry_tame : tame.

Lemma updatePrinterStatus_tame now data s0 s :
  tame s0 s -> tame s0 (updatePrinterStatus now data s).
Proof.
  intros H. unfold updatePrinterStatus. destruct data as [d|]; [|tame_auto].
  destruct (isFirstUpdate _); tame_auto.
Qed.
#[local] Hint Resolve updatePrinterStatus_tame : tame.

Lemma ensureReconnectSetup_await_tame env now name s0 s :
  tame s0 s -> tame s0 (ensureReconnectSetup_await env now name s).
Proof.
  intros H. unfold ensureReconnectSetup_await.
  pose proof (ensureReconnectSetup_call_tame name s0 s H) as Hc.
  destruct (ensureReconnectSetup_call name s) as [s1 started]. cbn [fst] in Hc.
  destruct started; cbv zeta; tame_auto.
Qed.
#[local] Hint Resolve ensureReconnectSetup_await_tame : tame.

Lemma connectToPrinter_tame env now ip name s0 s :
  tame s0 s -> tame s0 (fst (connectToPrinter env now ip name s)).
Proof.
  intros H. unfold connectToPrinter.
  destruct (constructor_throws env); [exact H|]. cbv zeta.
  destruct (connect_rejects env); cbn [fst]; tame_auto.
Qed.
#[local] Hint Resolve connectToPrinter_tame : tame.

Lemma autoConnect_discover_tame env now s0 s :
  tame s0 s -> tame s0 (fst (autoConnect_discover env now s)).
Proof.
  intros H. unfold autoConnect_discover, scheduleAutoConnect. cbv zeta.
  destruct (_ || _); [|exact H].
  destruct (discover_result env); [|cbn [fst]; tame_auto].
  destruct (Nat.eqb _ 0); cbn [fst]; tame_auto.
Qed.

Lemma autoConnect_tame env now s0 s : tame s0 s -> tame s0 (autoConnect env now s).
Proof.
  intros H. unfold autoConnect.
  pose proof (autoConnect_discover_tame env now s0 s H) as Hd.
  destruct (autoConnect_discover env now s) as [s1 attempt]. cbn [fst] in Hd.
  destruct (negb attempt); [exact Hd|]. cbv zeta.
  destruct (nth_error _ _) as [printer|]; [|unfold scheduleAutoConnect; tame_auto].
  match goal with
  | |- context [connectToPrinter ?e ?n ?ip ?nm s1] =>
      pose proof (connectToPrinter_tame e n ip nm s0 s1 Hd) as Hc;
      destruct (connectToPrinter e n ip nm s1) as [s2 [thrown|]]
  end; cbn [fst] in Hc.
  - unfold scheduleAutoConnect. split_tests; tame_auto.
  - pose proof (startCameraStreaming_call_tame now s0 s2 Hc) as Hs.
    destruct (startCameraStreaming_call now s2) as [s3 fetching]. cbn [fst] in Hs.
    destruct fetching; tame_auto.
Qed.
#[local] Hint Resolve autoConnect_tame : tame.

Lemma fireTimer_tame env now h s0 s : tame s0 s -> tame s0 (fireTimer env now h s).
Proof.
  intros H. unfold fireTimer, dropTimer, deferredBroadcast, sendAll.
  destruct (findTimer h s) as [t|]; [|exact H]. cbv zeta.
  destruct (action t); split_tests; tame_auto.
Qed.
#[local] Hint Resolve fireTimer_tame : tame.

Lemma wsConnection_tame now id stats s0 s :
  tame s0 s -> tame s0 (wsConnection now id stats s).
Proof.
  intros H. unfold wsConnection, buildStatusPayload. cbv zeta.
  destruct (existsb _ _); tame_auto.
Qed.
#[local] Hint Resolve wsConnection_tame : tame.

Lemma wsCleanup_tame now id stats s0 s :
  tame s0 s -> tame s0 (wsCleanup now id stats s).
Proof. intros H. unfold wsCleanup. cbv zeta. tame_auto. Qed.
#[local] Hint Resolve wsCleanup_tame : tame.

Lemma api_connect_tame env now ip s0 s :
  tame s0 s -> tame s0 (api_connect env now ip s).
Proof.
  intros H. unfold api_connect.
  pose proof (connectToPrinter_tame env now ip None s0 s H) as Hc.
  destruct (connectToPrinter env now ip None s) as [s1 [thrown|]]; cbn [fst] in Hc;
    tame_auto.
Qed.
#[local] Hint Resolve api_connect_tame : tame.

Lemma step_tame (e : event) (s : Server) : tame s (step e s).
Proof.
  unfold step. destruct (exited (runtime s)); [apply tame_refl|].
  destruct e; simpl;
    unfold socketState, api_status, buildStatusPayload, connect_call,
      connect_resolved, connect_rejected, responseBroken;
    cbv zeta; cbn [fst]; tame_auto.
Qed.

Lemma run_tame (es : list event) (s : Server) : tame s (run es s).
Proof.
  revert s. induction es as [|e es IH]; intros s; [apply tame_refl|].
  unfold run in *. simpl. eapply tame_trans; [apply step_tame | apply IH].
Qed.

Lemma setupInv_initial (interval : option Z) : setupInv (initialServer interval).
Proof. reflexivity. Qed.

(** C9.  While a post-connect setup is in progress, a call of
    [ensureReconnectSetup] returns at once and changes nothing, whichever
    trigger makes it (the ['reconnected'] listener, a status payload after a
    disconnect, the awaited call of [connectToPrinter]); and in every run of
    the server from its start at most one setup is in flight, the guard being
    set exactly while there is one. *)
Theorem C9_setup_guard_is_reentrancy_safe :
  (forall (name : option string) (s : Server),
      reconnectSetupInProgress (supervisor s) = true ->
      ensureReconnectSetup_call name s = (s, false)
      /\ onReconnected name s = s
      /\ (forall d, reconnectOnData d s = s)
      /\ (forall env now, ensureReconnectSetup_await env now name s = s))
  /\ (forall (interval : option Z) (es : list event),
        let s := run es (initialServer interval) in
        (List.length (setupTasks (supervisor s)) <= 1)%nat
        /\ (reconnectSetupInProgress (supervisor s) = true
            <-> List.length (setupTasks (supervisor s)) = 1%nat)).
Proof.
  split.
  - intros name s Hflag.
    assert (Hcall : ensureReconnectSetup_call name s = (s, false)).
    { unfold ensureReconnectSetup_call. now rewrite Hflag. }
    split; [exact Hcall|]. split; [|split].
    + unfold onReconnected. rewrite Hcall. now destruct (negb _).
    + intros d. unfold reconnectOnData, ensureReconnectSetup_call.
      rewrite Hflag. now destruct (negb _).
    + intros env now. unfold ensureReconnectSetup_await. now rewrite Hcall.
  - intros interval es s.
    assert (Hinv : setupInv s).
    { apply (run_tame es (initialServer interval)). apply setupInv_initial. }
    unfold setupInv in Hinv.
    destruct (setupTasks (supervisor s)) as [|q [|q' rest]]; simpl.
    + rewrite Hinv. split; [lia|]. split; discriminate.
    + rewrite Hinv. split; [lia|]. split; reflexivity.
    + contradiction.
Qed.

Lemma C9_witness :
  ensureReconnectSetup_call (Some "Centauri Carbon")
    (fst (ensureReconnectSetup_call (Some "Centauri Carbon") (initialServer None)))
  = (fst (ensureReconnectSetup_call (Some "Centauri Carbon") (initialServer None)), false).
Proof.
  apply (proj1 C9_setup_guard_is_reentrancy_safe). reflexivity.
Defined.

(** ** Late joiners of the camera stream *)

Lemma broadcastStatus_relay_writes (now : Z) (s : Server) :
  relay (broadcastStatus now s) = relay s
  /\ cameraWrites (runtime (broadcastStatus now s)) = cameraWrites (runtime s).
Proof.
  split; [apply (broadcastStatus_frame now s)|].
  unfold broadcastStatus, buildStatusPayload. cbv zeta.
  match goal with
  | |- context [broadcastToClients now ?m ?t] =>
      destruct (broadcastToClients_runtime now m t) as (Hw & _)
  end.
  rewrite Hw. reflexivity.
Qed.

Lemma updateUserStatsAndBroadcast_relay_writes (now : Z) (s : Server) :
  relay (updateUserStatsAndBroadcast now s) = relay s
  /\ cameraWrites (runtime (updateUserStatsAndBroadcast now s)) = cameraWrites (runtime s).
Proof.
  unfold updateUserStatsAndBroadcast.
  destruct (broadcastStatus_relay_writes now (with_ps (set_users (Some (userStats s))) s))
    as [Hr Hw].
  rewrite Hr, Hw. split; reflexivity.
Qed.

Lemma framesWrittenTo_app (id : nat) (a b : list (nat * chunk)) :
  framesWrittenTo id (a ++ b) = framesWrittenTo id a ++ framesWrittenTo id b.
Proof. apply flat_map_app. Qed.

Lemma framesWrittenTo_chunks (id : nat) (f : Frame) :
  framesWrittenTo id ((id, WriteOpeningBoundary) :: frameChunks id f) = [f].
Proof. unfold framesWrittenTo. simpl. now rewrite Nat.eqb_refl. Qed.

Lemma addSubscriber_spec (id : nat) (s : Server) :
  In id (cameraSubscribers (relay (addSubscriber id s)))
  /\ latestFrame (relay (addSubscriber id s)) = latestFrame (relay s)
  /\ runtime (addSubscriber id s) = runtime s.
Proof.
  unfold addSubscriber.
  destruct (existsb (Nat.eqb id) (cameraSubscribers (relay s))) eqn:E.
  - repeat split; try reflexivity.
    apply existsb_exists in E. destruct E as (x & Hin & Hx).
    apply Nat.eqb_eq in Hx. now subst.
  - simpl. repeat split; try reflexivity. apply in_or_app. right. now left.
Qed.

(** C8.  For a response that takes writes: when a frame is cached, the
    handler subscribes the response and calls the new subscriber with the
    cached frame in the same synchronous run, so that in every later run of
    the server the first frame this response gets is the cached one; when no
    frame is cached the subscriber is not called at attach time: the only
    write is the opening boundary of the multipart response, which the
    handler itself writes in both cases. *)
Theorem C8_late_joiner_receives_cached_frame :
  forall (now : Z) (id : nat) (statsAfter : UserSnapshot) (s : Server),
    isBroken id s = false ->
    let s' := api_camera now id statsAfter s in
    In id (cameraSubscribers (relay s'))
    /\ (forall f : Frame,
          latestFrame (relay s) = Some f ->
          cameraWrites (runtime s')
            = cameraWrites (runtime s) ++ (id, WriteOpeningBoundary) :: frameChunks id f
          /\ (framesWrittenTo id (cameraWrites (runtime s)) = [] ->
              forall es : list event,
              exists more,
                framesWrittenTo id (cameraWrites (runtime (run es s'))) = f :: more))
    /\ (latestFrame (relay s) = None ->
        cameraWrites (runtime s')
          = cameraWrites (runtime s) ++ [ (id, WriteOpeningBoundary) ]).
Proof.
  intros now id statsAfter s Hok s'.
  set (s1 := with_cameraWrites (cameraWrites (runtime s) ++ [ (id, WriteOpeningBoundary) ]) s).
  destruct (addSubscriber_spec id s1) as (Hin & Hlf & Hrt).
  assert (Hbroken : isBroken id (addSubscriber id s1) = false).
  { unfold isBroken. rewrite Hrt. exact Hok. }
  assert (Hs' : s' = updateUserStatsAndBroadcast now
                       (set_userStats statsAfter
                          match latestFrame (relay s) with
                          | Some f => subscriber id f (addSubscriber id s1)
                          | None => addSubscriber id s1
                          end)).
  { unfold s', api_camera. rewrite Hok. cbv zeta. fold s1. rewrite Hlf. reflexivity. }
  assert (Hsub : forall f, subscriber id f (addSubscriber id s1)
                 = with_cameraWrites
                     (cameraWrites (runtime (addSubscriber id s1)) ++ frameChunks id f)
                     (addSubscriber id s1)).
  { intros f. unfold subscriber. rewrite Hbroken. reflexivity. }
  split.
  - rewrite Hs'.
    destruct (updateUserStatsAndBroadcast_relay_writes now
      (set_userStats statsAfter
         match latestFrame (relay s) with
         | Some f => subscriber id f (addSubscriber id s1)
         | None => addSubscriber id s1
         end)) as [Hr _].
    rewrite Hr. destruct (latestFrame (relay s)); [rewrite Hsub|]; exact Hin.
  - split.
    + intros f Hf.
      assert (Hw : cameraWrites (runtime s')
                   = cameraWrites (runtime s) ++ (id, WriteOpeningBoundary) :: frameChunks id f).
      { rewrite Hs', Hf.
        destruct (updateUserStatsAndBroadcast_relay_writes now
          (set_userStats statsAfter (subscriber id f (addSubscriber id s1)))) as [_ Hw].
        rewrite Hw, Hsub. simpl. rewrite Hrt. unfold s1. simpl.
        now rewrite <- app_assoc. }
      split; [exact Hw|].
      intros Hfresh es.
      destruct (run_tame es s') as [[ext Hext] _].
      exists (framesWrittenTo id ext).
      rewrite Hext, Hw, !framesWrittenTo_app, Hfresh, framesWrittenTo_chunks.
      reflexivity.
    + intros Hnone. rewrite Hs', Hnone.
      destruct (updateUserStatsAndBroadcast_relay_writes now
        (set_userStats statsAfter (addSubscriber id s1))) as [_ Hw].
      rewrite Hw. simpl. rewrite Hrt. reflexivity.
Qed.

Lemma C8_witness :
  cameraWrites (runtime (api_camera 5000 4 (userStats cachedServer) cachedServer))
  = cameraWrites (runtime cachedServer)
      ++ (4%nat, WriteOpeningBoundary) :: frameChunks 4 oneFrame.
Proof.
  refine (proj1 (proj1 (proj2
    (C8_late_joiner_receives_cached_frame 5000 4 (userStats cachedServer) cachedServer _))
    oneFrame _)); reflexivity.
Defined.

(** ** Auto-connect fail-over *)

Lemma sameFailover_refl (s : Server) : sameFailover s s.
Proof. split; reflexivity. Qed.

Lemma sameFailover_trans (s1 s2 s3 : Server) :
  sameFailover s1 s2 -> sameFailover s2 s3 -> sameFailover s1 s3.
Proof. intros [A1 T1] [A2 T2]. split; congruence. Qed.

Create HintDb failover.
#[local] Hint Resolve sameFailover_refl : failover.

Lemma sameFailover_timer cb delay now s0 s :
  isAutoConnectTimer {| handle := 0; due := 0; action := cb |} = false ->
  sameFailover s0 s -> sameFailover s0 (fst (setTimeout cb delay now s)).
Proof.
  intros Hcb H. apply (sameFailover_trans _ _ _ H). split; [reflexivity|].
  unfold autoConnectTimers, setTimeout. simpl. rewrite filter_app. simpl.
  unfold isAutoConnectTimer in *. simpl in *. rewrite Hcb. apply app_nil_r.
Qed.

Lemma sameFailover_broadcastToClients now msg s0 s :
  sameFailover s0 s -> sameFailover s0 (broadcastToClients now msg s).
Proof.
  intros H. apply (sameFailover_trans _ _ _ H).
  unfold broadcastToClients, sameFailover, autoConnectTimers, setTimeout.
  split_tests; simpl; try (split; reflexivity).
  rewrite filter_app. simpl. rewrite app_nil_r. split; reflexivity.
Qed.
#[local] Hint Resolve sameFailover_broadcastToClients : failover.

Ltac peel_failover :=
  match goal with
  | |- sameFailover ?s0 (?f ?s) =>
      lazymatch f with
      | with_autoConnectState _ => fail
      | with_timers _ => fail
      | _ => is_plain_setter f
      end;
      apply (sameFailover_trans s0 s (f s)); [| split; reflexivity]
  end.
#[local] Hint Extern 4 (sameFailover _ (_ _)) => peel_failover : failover.

Ltac failover_auto := auto 30 with failover nocore.

Lemma sameFailover_broadcastStatus now s0 s :
  sameFailover s0 s -> sameFailover s0 (broadcastStatus now s).
Proof.
  intros H. unfold broadcastStatus, buildStatusPayload. cbv zeta. failover_auto.
Qed.
#[local] Hint Resolve sameFailover_broadcastStatus : failover.

Lemma sameFailover_handleCameraStartFailure now e s0 s :
  sameFailover s0 s -> sameFailover s0 (handleCameraStartFailure now e s).
Proof.
  intros H. unfold handleCameraStartFailure. cbv zeta.
  match goal with |- context [if ?c then _ else _] => destruct c end.
  - apply sameFailover_timer; [reflexivity|]. failover_auto.
  - failover_auto.
Qed.
#[local] Hint Resolve sameFailover_handleCameraStartFailure : failover.

Lemma sameFailover_startCameraStreaming_call now s0 s :
  sameFailover s0 s -> sameFailover s0 (fst (startCameraStreaming_call now s)).
Proof.
  intros H. unfold startCameraStreaming_call, resetCameraFailureTracker.
  destruct (truthy_str _); cbv zeta; cbn [fst]; failover_auto.
Qed.

Lemma sameFailover_startCameraStreaming_fetched now r s0 s :
  sameFailover s0 s -> sameFailover s0 (startCameraStreaming_fetched now r s).
Proof.
  intros H.
  unfold startCameraStreaming_fetched, startCameraStreaming_failed,
    resetCameraFailureTracker.
  destruct r; cbv zeta;
    try (apply sameFailover_timer; [reflexivity|]); failover_auto.
Qed.

(** When [connect()] rejects, [connectToPrinter] handles the rejection itself
    and returns normally; [autoConnect] takes the attempt for a success: the
    failure counter is set to zero, the list and the cursor stay, and no
    further call of [autoConnect] is scheduled. *)
Lemma autoConnect_swallowed_rejection (env : AutoConnectEnv) (now : Z)
    (s : Server) (p : DiscoveredPrinter) (errMessage : string) :
  printers (autoConnectState (supervisor s)) = [p] ->
  currentIdx (autoConnectState (supervisor s)) = 0%nat ->
  constructor_throws (connect_env env) = None ->
  connect_rejects (connect_env env) = Some errMessage ->
  autoConnectState (supervisor (autoConnect env now s))
    = {| printers := [p]; currentIdx := 0; failCount := 0 |}
  /\ autoConnectTimers (autoConnect env now s) = autoConnectTimers s.
Proof.
  intros Hp Hi Hc Hr. unfold autoConnect, autoConnect_discover. cbv zeta.
  rewrite Hp, Hi. cbn [List.length Nat.eqb Nat.leb orb negb].
  rewrite Hp, Hi. cbn [nth_error].
  unfold connectToPrinter. rewrite Hc, Hr. cbv zeta.
  set (s2 := broadcastStatus now _).
  assert (H2 : sameFailover s s2) by (unfold s2; failover_auto).
  pose proof (sameFailover_startCameraStreaming_call now s s2 H2) as H3.
  destruct (startCameraStreaming_call now s2) as [s3 fetching]. cbn [fst] in H3.
  assert (H4 : sameFailover s
    (if fetching then startCameraStreaming_fetched now (second_fetch env) s3 else s3)).
  { destruct fetching; [apply sameFailover_startCameraStreaming_fetched|]; exact H3. }
  destruct H4 as [Ha Ht]. simpl. rewrite Ha, Hp, Hi. split; [reflexivity|].
  exact Ht.
Qed.

(** C2, the code at the failing input.  From the start of the server,
    discovery finds one candidate whose [connect()] rejects.  The run of
    [autoConnect] ends with the failure counter at zero, the candidate still
    listed, the printer not connected, and no timer that would call
    [autoConnect] again: the failure is not counted, the list is not cleared
    and nothing is scheduled.  A second run, were one started, ends the same
    way. *)
Theorem C2_rejected_connect_is_never_counted :
  let s1 := autoConnect unreachableEnv 1000 (initialServer None) in
  let s2 := autoConnect unreachableEnv 6000 s1 in
  autoConnectState (supervisor s1)
    = {| printers := [unreachablePrinter]; currentIdx := 0; failCount := 0 |}
  /\ autoConnectTimers s1 = []
  /\ connected (printerStatus s1) = false
  /\ autoConnectState (supervisor s2)
     = {| printers := [unreachablePrinter]; currentIdx := 0; failCount := 0 |}
  /\ autoConnectTimers s2 = [].
Proof. vm_compute. repeat split; reflexivity. Qed.

(** One run of [autoConnect] in which [connectToPrinter] throws: the failure
    is counted, the third one in a row on the only candidate clears the list,
    and the next run is scheduled five seconds later. *)
Lemma autoConnect_counts_a_throw (env : AutoConnectEnv) (now : Z) (s : Server)
    (p : DiscoveredPrinter) (errMessage : string) :
  printers (autoConnectState (supervisor s)) = [p] ->
  currentIdx (autoConnectState (supervisor s)) = 0%nat ->
  constructor_throws (connect_env env) = Some errMessage ->
  autoConnect env now s
  = scheduleAutoConnect now
      (with_autoConnectState
         (if Nat.leb 3 (S (failCount (autoConnectState (supervisor s))))
          then clearedAutoConnectState
          else {| printers := [p]; currentIdx := 0;
                  failCount := S (failCount (autoConnectState (supervisor s))) |})
         s).
Proof.
  intros Hp Hi Hc. unfold autoConnect, autoConnect_discover. cbv zeta.
  rewrite Hp, Hi. cbn [List.length Nat.eqb Nat.leb orb negb].
  rewrite Hp, Hi. cbn [nth_error].
  unfold connectToPrinter. rewrite Hc. rewrite Hp, Hi.
  destruct (failCount (autoConnectState (supervisor s))) as [|[|k]]; reflexivity.
Qed.

(** The fail-over arithmetic of [autoConnect] when [connectToPrinter] does
    throw: from a fresh list with one candidate, three throws in a row count
    1, 2 and then clear the list, and each schedules the next run. *)
Lemma autoConnect_three_throws (env : AutoConnectEnv) (n1 n2 n3 : Z) (s : Server)
    (p : DiscoveredPrinter) (errMessage : string) :
  autoConnectState (supervisor s)
    = {| printers := [p]; currentIdx := 0; failCount := 0 |} ->
  constructor_throws (connect_env env) = Some errMessage ->
  let s1 := autoConnect env n1 s in
  let s2 := autoConnect env n2 s1 in
  let s3 := autoConnect env n3 s2 in
  failCount (autoConnectState (supervisor s1)) = 1%nat
  /\ failCount (autoConnectState (supervisor s2)) = 2%nat
  /\ autoConnectState (supervisor s3) = clearedAutoConnectState
  /\ List.length (autoConnectTimers s3) = (3 + List.length (autoConnectTimers s))%nat.
Proof.
  intros Hst Hc s1 s2 s3.
  assert (E1 : s1 = scheduleAutoConnect n1
                 (with_autoConnectState
                    {| printers := [p]; currentIdx := 0; failCount := 1 |} s)).
  { unfold s1. rewrite (autoConnect_counts_a_throw env n1 s p errMessage);
      rewrite ?Hst; try reflexivity; assumption. }
  assert (E2 : s2 = scheduleAutoConnect n2
                 (with_autoConnectState
                    {| printers := [p]; currentIdx := 0; failCount := 2 |} s1)).
  { unfold s2. rewrite (autoConnect_counts_a_throw env n2 s1 p errMessage);
      rewrite ?E1; try reflexivity; assumption. }
  assert (E3 : s3 = scheduleAutoConnect n3
                 (with_autoConnectState clearedAutoConnectState s2)).
  { unfold s3. rewrite (autoConnect_counts_a_throw env n3 s2 p errMessage);
      rewrite ?E2; try reflexivity; assumption. }
  rewrite E3, E2, E1. repeat split; try reflexivity.
  unfold autoConnectTimers, scheduleAutoConnect, setTimeout. simpl.
  rewrite !filter_app, !length_app. simpl. lia.
Qed.

(** The same on the start state, every run but the first started by the
    timer the run before it armed. *)
Lemma autoConnect_fails_over_when_connect_throws :
  let s1 := autoConnect throwingEnv 1000 (initialServer None) in
  let s2 := fireTimer throwingEnv 6000 0 s1 in
  let s3 := fireTimer throwingEnv 11000 1 s2 in
  failCount (autoConnectState (supervisor s1)) = 1%nat
  /\ failCount (autoConnectState (supervisor s2)) = 2%nat
  /\ autoConnectState (supervisor s3) = clearedAutoConnectState
  /\ autoConnectTimers s1 = [ {| handle := 0; due := 6000; action := CbAutoConnect |} ]
  /\ autoConnectTimers s2 = [ {| handle := 1; due := 11000; action := CbAutoConnect |} ]
  /\ autoConnectTimers s3 = [ {| handle := 2; due := 16000; action := CbAutoConnect |} ].
Proof. vm_compute. repeat split; reflexivity. Qed.

(** ** The read loop never runs out of fuel *)

Lemma indexFrom0_bound (needle hay : list Byte.byte) (j : nat) :
  needle <> [] -> indexFrom0 needle hay = Some j -> (j < List.length hay)%nat.
Proof.
  intros Hn. revert j. induction hay as [|h hay IH]; intros j; simpl.
  - destruct needle; [contradiction|]. simpl. discriminate.
  - destruct (startsWith needle (h :: hay)).
    + intros [= <-]. lia.
    + destruct (indexFrom0 needle hay) as [j'|]; simpl; [|discriminate].
      intros [= <-]. specialize (IH j' eq_refl). lia.
Qed.

Lemma indexOf_bounds (buf needle : list Byte.byte) (off i : nat) :
  needle <> [] -> indexOf buf needle off = Some i ->
  (off <= i < List.length buf)%nat.
Proof.
  intros Hn. unfold indexOf.
  destruct (indexFrom0 needle (skipn off buf)) as [j|] eqn:E; simpl; [|discriminate].
  intros [= <-]. apply (indexFrom0_bound _ _ _ Hn) in E.
  rewrite length_skipn in E. lia.
Qed.

Lemma indexOf_offset (buf needle : list Byte.byte) (off i : nat) :
  indexOf buf needle off = Some i -> (off <= i)%nat.
Proof.
  unfold indexOf. destruct (indexFrom0 needle (skipn off buf)); simpl; [|discriminate].
  intros [= <-]. lia.
Qed.

Lemma onFrame_buffer (now : Z) (f : Frame) (st : Stream) (s : Server) :
  buffer (fst (onFrame now f st s)) = buffer st
  /\ boundaryBuffer (fst (onFrame now f st s)) = boundaryBuffer st.
Proof. unfold onFrame. split_tests; split; reflexivity. Qed.

(** Fuel beyond the length of the buffer changes nothing: the loop of the
    model stops where the loop of the source does. *)
Lemma scanFrames_fuel (fuel extra : nat) (clock : nat -> Z) (k : nat)
    (st : Stream) (s : Server) :
  (List.length (buffer st) < fuel)%nat ->
  scanFrames (fuel + extra) clock k st s = scanFrames fuel clock k st s.
Proof.
  revert k st s. induction fuel as [|fuel IH]; intros k st s Hlen; [lia|].
  cbn [Nat.add scanFrames].
  destruct (indexOf (buffer st) (boundaryBuffer st) 0) as [bi|]; [|reflexivity].
  destruct (indexOf (buffer st) CRLFCRLF (bi + List.length (boundaryBuffer st)))
    as [he|] eqn:Ehe; [|reflexivity].
  destruct (indexOf (buffer st) (boundaryBuffer st) (he + 4)) as [nb|] eqn:Enb;
    [|reflexivity].
  cbv zeta.
  match goal with
  | |- context [onFrame ?n ?f st s] =>
      destruct (onFrame_buffer n f st s) as [Hb _];
      destruct (onFrame n f st s) as [st1 s1]
  end.
  cbn [fst] in Hb. apply IH. cbn [buffer]. rewrite Hb, length_skipn.
  assert (CRLFCRLF <> []) by discriminate.
  apply indexOf_bounds in Ehe; [|assumption].
  apply indexOf_offset in Enb. lia.
Qed.

(** * Further properties of the code *)

(** ** utils/status-utils *)

(** Case analysis of a status code against the literals it is compared with. *)
Ltac code_cases n :=
  repeat match goal with
         | |- context [Z.eqb n ?k] =>
             destruct (Z.eqb_spec n k);
             [ subst n; vm_compute;
               first [ left; repeat split; first [ reflexivity | discriminate | auto 20 ]
                     | repeat split; first [ reflexivity | discriminate | auto 20 ] ]
             | ]
         end.

Lemma machine_label_cases (c : option Z) :
  (isMachineCode c = true
   /\ mapMachineStatusIntToLabel c = lookup MACHINE_STATUS_LABELS c
   /\ In (str_or (mapMachineStatusIntToLabel c) "UNKNOWN") machineLabels
   /\ str_or (mapMachineStatusIntToLabel c) "UNKNOWN" <> "UNKNOWN")
  \/ (isMachineCode c = false /\ mapMachineStatusIntToLabel c = None).
Proof.
  destruct c as [n|]; [|right; split; reflexivity].
  unfold isMachineCode, mapMachineStatusIntToLabel, MACHINE_STATUS_LABELS,
    MACHINE_STATUS.PRINTING_RECOVERY.
  cbn [map fst existsb lookup code_is].
  code_cases n.
  right. split; reflexivity.
Qed.

Lemma job_label_cases (c : option Z) :
  In (str_or (mapJobStatusIntToLabel c) "UNKNOWN") jobLabels
  /\ mapJobStatusIntToLabel c <> Some "PRINTING_RECOVERY".
Proof.
  destruct c as [n|]; [|split; [simpl; auto 20 | discriminate]].
  unfold mapJobStatusIntToLabel, JOB_STATUS_LABELS, JOB_STATUS.PRINTING_RECOVERY,
    includes.
  cbn [existsb lookup code_is].
  code_cases n.
  split; [simpl; auto 20 | discriminate].
Qed.

Lemma consolidated_label_cases (data : option Payload) :
  In (consolidated (parsed_status (parseStatusPayload data))) machineLabels.
Proof.
  unfold parseStatusPayload. cbv zeta. cbn [parsed_status consolidated].
  set (mc := machineStatusCodeOf _). set (jc := jobStatusCodeOf _).
  destruct (code_is jc JOB_STATUS.PRINTING_RECOVERY); [simpl; auto 20|].
  destruct (machine_label_cases mc) as [(_ & _ & H & _) | [_ H]]; [exact H|].
  rewrite H. simpl. auto 20.
Qed.

(** X1.  For payloads whose status codes are integers or missing (every
    payload of the type [Payload]: [CurrentStatus] a number, an array of
    numbers or absent, [PrintInfo.Status] a number or absent, as SDCP sends
    them), [parseStatusPayload] yields labels from a closed set: the machine
    and the consolidated label are one of eight machine labels or UNKNOWN,
    the job label is one of fifteen job labels or UNKNOWN, and the label
    PRINTING_RECOVERY of the job table is not produced (code 13 is projected
    to PRINTING).  Codes of another JavaScript type are outside this
    statement: the strict tests [===] and [includes] do not match a string
    such as ["13"] while the table lookup does, so for it the job label is
    the raw table entry. *)
Theorem X1_parse_labels_closed :
  forall data : option Payload,
    let p := parsed_status (parseStatusPayload data) in
    In (state_label (machine p)) machineLabels
    /\ In (state_label (job p)) jobLabels
    /\ In (consolidated p) machineLabels
    /\ state_label (job p) <> "PRINTING_RECOVERY".
Proof.
  intros data. unfold parseStatusPayload. cbv zeta. cbn [parsed_status machine job
    consolidated state_label].
  set (mc := machineStatusCodeOf _). set (jc := jobStatusCodeOf _).
  assert (Hm : In (str_or (mapMachineStatusIntToLabel mc) "UNKNOWN") machineLabels).
  { destruct (machine_label_cases mc) as [(_ & _ & H & _) | [_ H]]; [exact H|].
    rewrite H. simpl. auto 20. }
  destruct (job_label_cases jc) as [Hj Hn].
  repeat split; try assumption.
  - destruct (code_is jc JOB_STATUS.PRINTING_RECOVERY); [simpl; auto 20 | exact Hm].
  - intros E. revert Hj Hn. unfold str_or in *.
    destruct (mapJobStatusIntToLabel jc) as [l|]; [|discriminate].
    destruct (String.eqb l EmptyString); [discriminate|].
    intros _ Hn. apply Hn. now rewrite E.
Qed.

(** X2.  The consolidated status is UNKNOWN exactly when the job code is not
    the printing-recovery code 13 and the machine code is missing or is no
    key of the machine table. *)
Theorem X2_consolidated_unknown_iff :
  forall data : option Payload,
    let p := parsed_status (parseStatusPayload data) in
    consolidated p = "UNKNOWN"
    <-> (code (job p) <> Some 13 /\ isMachineCode (code (machine p)) = false).
Proof.
  intros data. unfold parseStatusPayload. cbv zeta. cbn [parsed_status machine job
    consolidated code].
  set (mc := machineStatusCodeOf _). set (jc := jobStatusCodeOf _).
  destruct (code_is jc JOB_STATUS.PRINTING_RECOVERY) eqn:Ej.
  - apply code_is_true in Ej. split; [discriminate|]. intros [H _]. contradiction.
  - assert (Hj : jc <> Some 13).
    { intros E. apply code_is_true in E. unfold JOB_STATUS.PRINTING_RECOVERY in Ej.
      congruence. }
    destruct (machine_label_cases mc) as [(Hk & _ & _ & Hne) | [Hk Hnone]].
    + split; [intros E; contradiction | intros [_ E]; congruence].
    + rewrite Hnone. split; [intros _; split; assumption | reflexivity].
Qed.

(** X3.  The generic mapper [mapStatusIntToLabel] and the machine mapper agree
    on every code but the loading codes 18, 19 and 21, which only the generic
    one projects (to LOADING; the machine mapper gives [null]). *)
Theorem X3_generic_mapper_differs_on_loading_codes :
  forall c : option Z,
    mapStatusIntToLabel c = mapMachineStatusIntToLabel c
    <-> (c <> Some 18 /\ c <> Some 19 /\ c <> Some 21).
Proof.
  intros c. unfold mapStatusIntToLabel.
  destruct (includes [18; 19; 21] c) eqn:E.
  - assert (Hc : c = Some 18 \/ c = Some 19 \/ c = Some 21).
    { unfold includes in E. cbn [existsb] in E.
      repeat (apply orb_true_iff in E; destruct E as [E|E]);
        try discriminate; apply code_is_true in E; auto. }
    split.
    + intros H. exfalso.
      destruct Hc as [-> | [-> | ->]]; vm_compute in H; discriminate.
    + intros (H1 & H2 & H3). destruct Hc as [? | [? | ?]]; contradiction.
  - split; [|reflexivity]. intros _.
    unfold includes in E. cbn [existsb] in E.
    repeat (apply orb_false_iff in E; destruct E as [? E]).
    repeat split; intros ->; discriminate.
Qed.

(** ** [updatePrinterStatus] *)

(** The status fields right before the first [if (data.Status)] block are
    those the call started with: the reconnect trigger, the time stamp and
    the attributes leave them alone. *)
Lemma status_before_applyStatus (now : Z) (d : Payload) (s : Server) :
  let s4 := applyAttributes d
              (with_ps (set_lastUpdate (Some now))
                 (let s1 := reconnectOnData d s in
                  if isFirstUpdate (supervisor s1) then with_isFirstUpdate false s1 else s1)) in
  status (printerStatus s4) = status (printerStatus s)
  /\ prev_status (printerStatus s4) = prev_status (printerStatus s).
Proof.
  unfold applyAttributes, reconnectOnData, ensureReconnectSetup_call. cbv zeta.
  split_tests; simpl; split; reflexivity.
Qed.

Lemma parsed_consolidated_not_empty (data : option Payload) :
  consolidated (parsed_status (parseStatusPayload data)) <> EmptyString.
Proof.
  pose proof (consolidated_label_cases data) as H.
  intros E. rewrite E in H. simpl in H.
  repeat (destruct H as [H|H]; [discriminate|]). exact H.
Qed.

(** X4.  A status payload replaces [printerStatus.status] by the parsed
    object and sets [state] to the machine code; [prev_status] takes the old
    consolidated label exactly when the parsed label is valid (not UNKNOWN)
    and differs from it, and is left as it was otherwise. *)
Theorem X4_prev_status_records_valid_transitions :
  forall (now : Z) (d : Payload) (sb : StatusBlock) (s : Server),
    Status d = Some sb ->
    let old := consolidated (status (printerStatus s)) in
    let parsed := parseStatusPayload (Some d) in
    let new := consolidated (parsed_status parsed) in
    let s' := updatePrinterStatus now (Some d) s in
    prev_status (printerStatus s')
      = (if String.eqb new "UNKNOWN" || String.eqb new old
         then prev_status (printerStatus s)
         else Some old)
    /\ status (printerStatus s') = parsed_status parsed
    /\ state (printerStatus s') = StateCode (parsed_status_code parsed)
    /\ status_code (printerStatus s') = parsed_status_code parsed.
Proof.
  intros now d sb s Hsb old parsed new s'.
  unfold s', updatePrinterStatus. cbv zeta.
  rewrite printerStatus_broadcastStatus.
  match goal with
  | |- context [applyStatus d ?t] =>
      set (s4 := t);
      assert (H4 : status (printerStatus s4) = status (printerStatus s)
                   /\ prev_status (printerStatus s4) = prev_status (printerStatus s))
        by apply (status_before_applyStatus now d s)
  end.
  destruct H4 as [Hst Hprev]. clearbody s4.
  unfold setCustomState, applyTelemetry, applyTemperatures, applyPrintInfo, applyStatus.
  rewrite Hsb. cbv zeta. fold parsed. fold new. rewrite Hst. fold old.
  pose proof (parsed_consolidated_not_empty (Some d)) as Hne. fold parsed new in Hne.
  destruct (String.eqb_spec new EmptyString) as [E|_]; [contradiction|].
  cbn [orb].
  destruct (String.eqb_spec new "UNKNOWN") as [Eu|Eu]; cbn [orb].
  - rewrite String.eqb_refl. cbn [negb].
    destruct (PrintInfo sb); simpl; rewrite ?Hprev; repeat split; reflexivity.
  - rewrite (String.eqb_sym new old).
    destruct (String.eqb old new); cbn [negb];
      destruct (PrintInfo sb); simpl; rewrite ?Hprev, ?Hst; repeat split; reflexivity.
Qed.

Lemma X4_witness :
  prev_status (printerStatus
    (updatePrinterStatus 7000 (Some unmappablePayload)
       (updatePrinterStatus 5000 (Some printingPayload) (initialServer None))))
  = Some "UNKNOWN".
Proof.
  refine (eq_trans (proj1 (X4_prev_status_records_valid_transitions 7000
    unmappablePayload _
    (updatePrinterStatus 5000 (Some printingPayload) (initialServer None)) eq_refl)) _).
  vm_compute. reflexivity.
Defined.

(** X5.  A [null] payload (printer unreachable) marks the printer
    disconnected and the camera unavailable and asks for a reconnect setup,
    but keeps the printer name, the last status object and the telemetry,
    and starts no setup.  When the name is still the default one, the state
    it leaves is the disconnected shape for [setDisconnectedStatus], which
    then returns early: a later disconnect event resets nothing. *)
Theorem X5_null_payload_marks_unreachable :
  forall (now : Z) (s : Server),
    let s' := updatePrinterStatus now None s in
    (connected (printerStatus s') = false
     /\ state (printerStatus s') = StateText "Disconnected"
     /\ cameraAvailable (printerStatus s') = false
     /\ cameraError (printerStatus s') = Some "Printer unreachable"
     /\ customState (printerStatus s') = 0
     /\ lastUpdate (printerStatus s') = Some now
     /\ reconnectSetupNeeded (supervisor s') = true)
    /\ (printerName (printerStatus s') = printerName (printerStatus s)
        /\ status (printerStatus s') = status (printerStatus s)
        /\ prev_status (printerStatus s') = prev_status (printerStatus s)
        /\ progress (printerStatus s') = progress (printerStatus s)
        /\ currentFile (printerStatus s') = currentFile (printerStatus s)
        /\ temperatures s' = temperatures s
        /\ guardOf s' = guardOf s)
    /\ (printerName (printerStatus s) = "Unknown" ->
        forall later : Z, setDisconnectedStatus later s' = s').
Proof.
  intros now s s'.
  assert (Hps : printerStatus s'
    = set_users (Some (match users (printerStatus s) with
                       | Some u => u
                       | None => userStats s
                       end))
        (set_job_status_code IsNull
           (set_machine_status_code IsNull
              (set_job_status IsNull
                 (set_machine_status (Some "UNKNOWN")
                    (set_customState 0
                       (set_lastUpdate (Some now)
                          (set_cameraError (Some "Printer unreachable")
                             (set_cameraAvailable false
                                (set_state (StateText "Disconnected")
                                   (set_connected false (printerStatus s)))))))))))).
  { unfold s', updatePrinterStatus, markUnreachable. cbv zeta.
    rewrite printerStatus_broadcastStatus. reflexivity. }
  assert (Hrest : temperatures s' = temperatures s
                  /\ supervisor s' = set_reconnectSetupNeeded true (supervisor s)).
  { unfold s', updatePrinterStatus, markUnreachable. cbv zeta.
    match goal with
    | |- context [broadcastStatus now ?t] =>
        destruct (broadcastStatus_frame now t) as (_ & Ht & _ & _ & _ & Hs & _)
    end.
    rewrite Ht, Hs. split; reflexivity. }
  destruct Hrest as [Ht Hs].
  split; [|split].
  - rewrite Hps, Hs. repeat split; reflexivity.
  - rewrite Hps. unfold guardOf. rewrite Hs, Ht. repeat split; reflexivity.
  - intros Hname later. unfold setDisconnectedStatus.
    rewrite Hps. cbn [connected printerName state set_users set_job_status_code
      set_machine_status_code set_job_status set_machine_status set_customState
      set_lastUpdate set_cameraError set_cameraAvailable set_state set_connected].
    rewrite Hname. reflexivity.
Qed.

(** X6.  [printerStatus.temperatures] is one object shared with
    [defaultPrinterStatus] (the spread copies the reference), so a reset by
    [setDisconnectedStatus] does not clear the readings: when the printer
    was connected and the gate lets the message through, every open client
    receives the default status together with the temperatures measured
    before the disconnect. *)
Theorem X6_reset_keeps_measured_temperatures :
  forall (now : Z) (s : Server),
    connected (printerStatus s) = true ->
    WS_UPDATE_INTERVAL s <= now - lastBroadcastTime (gate s) ->
    let s' := setDisconnectedStatus now s in
    let reset := set_users (Some (userStats s)) (resetStatus now) in
    temperatures s' = temperatures s
    /\ printerStatus s' = reset
    /\ reconnectSetupNeeded (supervisor s') = true
    /\ sent (runtime s')
       = sent (runtime s)
         ++ map (fun c => (ws_id c, StatusMessage reset (temperatures s) (userStats s)))
                (openClients s).
Proof.
  intros now s Hc Hgate s' reset.
  unfold s', setDisconnectedStatus. rewrite Hc. cbn [negb andb]. cbv zeta.
  unfold broadcastStatus, buildStatusPayload. cbv zeta.
  unfold broadcastToClients. cbv zeta.
  cbn [msg_type String.eqb Ascii.eqb Bool.eqb].
  replace (WS_UPDATE_INTERVAL _ <=? _) with true
    by (symmetry; apply Z.leb_le; exact Hgate).
  repeat split; reflexivity.
Qed.

Lemma X6_witness :
  temperatures (setDisconnectedStatus 9000 warmServer) = temperatures warmServer
  /\ map snd (sent (runtime (setDisconnectedStatus 9000 warmServer)))
     = [ StatusMessage (set_users (Some (userStats warmServer)) (resetStatus 9000))
           {| bed := {| current := 60; target := 60 |};
              nozzle := {| current := 215; target := 220 |};
              enclosure := {| current := 35; target := 0 |} |}
           (userStats warmServer) ].
Proof.
  assert (Hc : connected (printerStatus warmServer) = true) by reflexivity.
  assert (Hg : WS_UPDATE_INTERVAL warmServer
               <= 9000 - lastBroadcastTime (gate warmServer)) by (vm_compute; discriminate).
  destruct (X6_reset_keeps_measured_temperatures 9000 warmServer Hc Hg)
    as (Ht & _ & _ & Hs).
  split; [exact Ht|]. rewrite Hs. reflexivity.
Defined.

(** X7.  After a payload with a [Status] block, [customState] is 1 exactly
    when [CurrentStatus] is an array whose first element is 1 and there is
    no file name (no [PrintInfo], or a missing or empty [Filename]), and 0
    otherwise; a bare number 1 as [CurrentStatus], which the parser accepts
    as PRINTING, never raises it. *)
Theorem X7_custom_state_printing_without_file :
  forall (now : Z) (d : Payload) (sb : StatusBlock) (s : Server),
    Status d = Some sb ->
    let s' := updatePrinterStatus now (Some d) s in
    (customState (printerStatus s') = 1
     <-> startsWithPrinting (CurrentStatus sb)
         /\ truthy_str (fileNameOf sb) = false)
    /\ (customState (printerStatus s') = 0 \/ customState (printerStatus s') = 1)
    /\ (forall n, CurrentStatus sb = CS_number n -> customState (printerStatus s') = 0).
Proof.
  intros now d sb s Hsb s'.
  assert (Hcs : customState (printerStatus s')
    = if match CurrentStatus sb with
         | CS_array (c :: _) => Z.eqb c 1
         | _ => false
         end
         && match PrintInfo sb with
            | None => true
            | Some pi => negb (truthy_str (PI_Filename pi))
            end
      then 1 else 0).
  { unfold s', updatePrinterStatus. cbv zeta.
    rewrite printerStatus_broadcastStatus.
    unfold setCustomState. rewrite Hsb. cbv zeta. reflexivity. }
  assert (Hfile : match PrintInfo sb with
                  | None => true
                  | Some pi => negb (truthy_str (PI_Filename pi))
                  end = negb (truthy_str (fileNameOf sb))).
  { unfold fileNameOf. destruct (PrintInfo sb); reflexivity. }
  rewrite Hfile in Hcs. rewrite Hcs. unfold startsWithPrinting.
  split; [|split].
  - destruct (CurrentStatus sb) as [|n|[|c rest]]; cbn [andb].
    + split; [discriminate|]. intros [[r Hr] _]. discriminate.
    + split; [discriminate|]. intros [[r Hr] _]. discriminate.
    + split; [discriminate|]. intros [[r Hr] _]. discriminate.
    + destruct (Z.eqb_spec c 1) as [->|Hne]; cbn [andb].
      * destruct (truthy_str (fileNameOf sb)); cbn [negb].
        -- split; [discriminate|]. intros [_ H]. discriminate.
        -- split; [|reflexivity]. intros _. split; [exists rest; reflexivity|reflexivity].
      * split; [discriminate|]. intros [[r Hr] _]. inversion Hr. contradiction.
  - destruct (_ && _); [right|left]; reflexivity.
  - intros n Hn. rewrite Hn. reflexivity.
Qed.

Lemma X7_witness :
  customState (printerStatus
    (updatePrinterStatus 5000 (Some (statusPayload (CS_array [1]) (Some 3) None))
       (initialServer None))) = 1
  /\ customState (printerStatus
    (updatePrinterStatus 5000 (Some (statusPayload (CS_number 1) (Some 3) None))
       (initialServer None))) = 0.
Proof.
  split.
  - apply (proj1 (X7_custom_state_printing_without_file 5000
      (statusPayload (CS_array [1]) (Some 3) None) _ (initialServer None) eq_refl)).
    split; [exists []; reflexivity|reflexivity].
  - apply (proj2 (proj2 (X7_custom_state_printing_without_file 5000
      (statusPayload (CS_number 1) (Some 3) None) _ (initialServer None) eq_refl)) 1).
    reflexivity.
Defined.

(** ** Chat *)

Lemma trimStart_head (l : jsstring) : headTrimmed (trimStart l).
Proof.
  induction l as [|c l IH]; simpl; [exact I|].
  destruct (isWhiteSpace c) eqn:E; [exact IH|exact E].
Qed.

Lemma trimStart_fixed (l : jsstring) : headTrimmed l -> trimStart l = l.
Proof. destruct l as [|c l]; simpl; [reflexivity|]. now intros ->. Qed.

Lemma trimStart_suffix (l : jsstring) : exists pre, l = pre ++ trimStart l.
Proof.
  induction l as [|c l [pre IH]]; simpl.
  - now exists [].
  - destruct (isWhiteSpace c).
    + exists (c :: pre). simpl. now rewrite <- IH.
    + now exists [].
Qed.

Lemma trimEnd_prefix (l : jsstring) : exists post, l = trimEnd l ++ post.
Proof.
  unfold trimEnd. destruct (trimStart_suffix (rev l)) as [pre H].
  exists (rev pre). rewrite <- rev_app_distr, <- H. now rewrite rev_involutive.
Qed.

Lemma trimEnd_head (l : jsstring) : headTrimmed l -> headTrimmed (trimEnd l).
Proof.
  intros H. destruct (trimEnd_prefix l) as [post E].
  destruct (trimEnd l) as [|c t]; [exact I|].
  rewrite E in H. exact H.
Qed.

Lemma trimEnd_fixed (l : jsstring) : headTrimmed (rev l) -> trimEnd l = l.
Proof.
  intros H. unfold trimEnd. rewrite (trimStart_fixed _ H). apply rev_involutive.
Qed.

Lemma trim_idempotent (l : jsstring) : trim (trim l) = trim l.
Proof.
  unfold trim.
  rewrite (trimStart_fixed (trimEnd (trimStart l)))
    by (apply trimEnd_head, trimStart_head).
  apply trimEnd_fixed. unfold trimEnd. rewrite rev_involutive. apply trimStart_head.
Qed.

(** What the handlers accept as a nickname or a text is [acceptable]. *)
Lemma accepted_is_acceptable (limit : Z) (raw : jsstring) :
  (List.length (trim raw) =? 0)%nat = false ->
  (limit <? Z.of_nat (List.length (trim raw))) = false ->
  acceptable limit (trim raw).
Proof.
  intros Hn Hl. repeat split.
  - intros E. rewrite E in Hn. discriminate.
  - apply Z.ltb_ge. exact Hl.
  - apply trim_idempotent.
Qed.

Lemma nickFrom_grows cfg pre e n : nickFrom cfg pre n -> nickFrom cfg (pre ++ [e]) n.
Proof.
  intros [Ha (env & raw & Hin & E)]. split; [exact Ha|].
  exists env, raw. split; [|exact E]. apply in_or_app. now left.
Qed.

Lemma chatInv_grows cfg pre e chat : chatInv cfg pre chat -> chatInv cfg (pre ++ [e]) chat.
Proof.
  intros [H1 H2]. split; [exact H1|].
  intros H. destruct (H2 H) as (n & Hn & Hf).
  exists n. split; [exact Hn|]. now apply nickFrom_grows.
Qed.

Lemma chatInv_newChat cfg : chatInv cfg [] newChat.
Proof.
  split; [discriminate|]. intros [H|H]; [discriminate|]. now contradiction H.
Qed.

(** The frames of a broadcast all carry the same payload and go to open
    sockets of [webClients]. *)
Lemma broadcast_frames (cs : list WebClient) (payload : chatFrame) (to : nat)
    (f : chatFrame) :
  In (to, f)
     (map (fun client => (ws_id client, payload))
          (filter (fun client => Z.eqb (readyState client) OPEN) cs)) ->
  f = payload
  /\ exists c, In c cs /\ ws_id c = to /\ readyState c = OPEN.
Proof.
  intros H. apply in_map_iff in H. destruct H as (c & E & Hc).
  apply filter_In in Hc. destruct Hc as [Hc Ho].
  injection E as E1 E2. split; [now symmetry|].
  exists c. repeat split; [exact Hc|exact E1|now apply Z.eqb_eq].
Qed.

(** One message: the invariant is kept, and a chat message that is sent
    carries the accepted nickname and an accepted text. *)
Lemma onMessage_step cfg ws env m pre chat :
  chatInv cfg pre chat ->
  chatInv cfg (pre ++ [(env, m)]) (fst (onMessage cfg ws env m chat))
  /\ forall to nick text stamp,
       In (to, ChatMessage nick text stamp) (snd (onMessage cfg ws env m chat)) ->
       verifiedHuman chat = true
       /\ CHAT_MESSAGE_COOLDOWN_MS cfg <= date_now env - lastChatAt chat
       /\ lastChatAt (fst (onMessage cfg ws env m chat)) = date_now env
       /\ nickFrom cfg pre nick
       /\ acceptable (CHAT_MESSAGE_MAX_LENGTH cfg) text
       /\ stamp = date_stamp env
       /\ exists c, In c (clients env) /\ ws_id c = to /\ readyState c = OPEN.
Proof.
  intros Hinv. pose proof (chatInv_grows cfg pre (env, m) chat Hinv) as Hg.
  assert (Hno : forall to nick text stamp (P : Prop),
                  In (to, ChatMessage nick text stamp) (@nil (nat * chatFrame)) -> P)
    by (intros ? ? ? ? ? []).
  assert (Hone : forall e to nick text stamp (P : Prop),
                  In (to, ChatMessage nick text stamp) [(ws, ChatError e)] -> P)
    by (intros ? ? ? ? ? ? [E|[]]; discriminate).
  destruct m as [|f|a|f|]; unfold onMessage.
  - split; [exact Hg|]. intros ? ? ? ?. apply Hno.
  - (* chat_init *)
    unfold handleChatInit.
    destruct f as [|raw|]; cbn [trimmedText].
    + replace (trim []) with (@nil N) by reflexivity. cbn [List.length Nat.eqb fst snd].
      split; [exact Hg|]. intros ? ? ? ?. apply Hone.
    + destruct (List.length (trim raw) =? 0)%nat eqn:El; cbn [fst snd].
      { split; [exact Hg|]. intros ? ? ? ?. apply Hone. }
      destruct (CHAT_NICKNAME_MAX_LENGTH cfg <? _) eqn:Em; cbn [fst snd].
      { split; [exact Hg|]. intros ? ? ? ?. apply Hone. }
      cbv zeta. cbn [fst snd]. split.
      * split; cbn [verifiedHuman challenge nickname]; [discriminate|].
        intros _. exists (trim raw). split; [reflexivity|]. split.
        -- now apply accepted_is_acceptable.
        -- exists env, raw. split; [|reflexivity]. apply in_or_app. right. now left.
      * intros ? ? ? ? [E|[]]. discriminate.
    + split; [exact Hg|]. intros ? ? ? ?. apply Hno.
  - (* chat_verify *)
    unfold handleChatVerify. destruct Hg as [Hg1 Hg2].
    destruct (challenge chat) as [c|] eqn:Ec; cbn [fst snd].
    + destruct (code_is a (answer c)); cbv zeta; cbn [fst snd].
      * split.
        -- split; cbn [verifiedHuman challenge nickname]; [reflexivity|].
           intros _. apply Hg2. right. discriminate.
        -- intros ? ? ? ? [E|[]]. discriminate.
      * split.
        -- split; cbn [verifiedHuman challenge nickname].
           ++ intros Hv. specialize (Hg1 Hv). discriminate.
           ++ intros _. apply Hg2. right. discriminate.
        -- intros ? ? ? ? [E|[E|[]]]; discriminate.
    + split.
      * split; [intros _; exact Ec|]. rewrite Ec. exact Hg2.
      * intros ? ? ? ?. apply Hone.
  - (* chat_message *)
    unfold handleChatMessage.
    destruct (verifiedHuman chat) eqn:Ev; cbn [negb fst snd].
    2:{ split; [exact Hg|]. intros ? ? ? ?. apply Hone. }
    cbv zeta.
    destruct (date_now env - lastChatAt chat <? CHAT_MESSAGE_COOLDOWN_MS cfg) eqn:Ecd;
      cbn [fst snd].
    { split; [exact Hg|]. intros ? ? ? ?. apply Hone. }
    destruct f as [|raw|]; cbn [trimmedText].
    + replace (trim []) with (@nil N) by reflexivity. cbn [List.length Nat.eqb fst snd].
      split; [exact Hg|]. intros ? ? ? ?. apply Hno.
    + destruct (List.length (trim raw) =? 0)%nat eqn:El; cbn [fst snd].
      { split; [exact Hg|]. intros ? ? ? ?. apply Hno. }
      destruct (CHAT_MESSAGE_MAX_LENGTH cfg <? _) eqn:Em; cbn [fst snd].
      { split; [exact Hg|]. intros ? ? ? ?. apply Hone. }
      split.
      * destruct Hg as [Hg1 Hg2]. split; cbn [verifiedHuman challenge nickname].
        -- intros _. apply Hg1. exact Ev.
        -- intros _. apply Hg2. left. exact Ev.
      * intros to nick text stamp Hin.
        apply broadcast_frames in Hin. destruct Hin as [E Hc].
        injection E as -> -> ->.
        destruct Hinv as [_ Hn]. destruct (Hn (or_introl Ev)) as (n & En & Hf).
        rewrite En.
        assert (Hnn : nickname_or_Anon (Some n) = n).
        { destruct Hf as [[Hne _] _]. destruct n; [now contradiction Hne|reflexivity]. }
        rewrite Hnn.
        repeat split; try reflexivity.
        -- apply Z.ltb_ge. exact Ecd.
        -- apply Hf.
        -- apply Hf.
        -- apply Hf.
        -- apply Hf.
        -- apply (accepted_is_acceptable _ raw El Em).
        -- apply (accepted_is_acceptable _ raw El Em).
        -- apply trim_idempotent.
        -- exact Hc.
    + split; [exact Hg|]. intros ? ? ? ?. apply Hno.
  - split; [exact Hg|]. intros ? ? ? ?. apply Hno.
Qed.

Lemma chatSession_cons cfg ws env m rest chat :
  chatSession cfg ws ((env, m) :: rest) chat
  = (fst (chatSession cfg ws rest (fst (onMessage cfg ws env m chat))),
     snd (onMessage cfg ws env m chat)
       :: snd (chatSession cfg ws rest (fst (onMessage cfg ws env m chat)))).
Proof.
  simpl. destruct (onMessage cfg ws env m chat) as [c1 out]. cbn [fst snd].
  destruct (chatSession cfg ws rest c1). reflexivity.
Qed.

Lemma chatSession_frames cfg ws ms :
  forall pre chat,
    chatInv cfg pre chat ->
    forall out to nick text stamp,
      In out (snd (chatSession cfg ws ms chat)) ->
      In (to, ChatMessage nick text stamp) out ->
      nickFrom cfg (pre ++ ms) nick
      /\ acceptable (CHAT_MESSAGE_MAX_LENGTH cfg) text
      /\ exists env c, In env (map fst ms) /\ stamp = date_stamp env
                       /\ In c (clients env) /\ ws_id c = to /\ readyState c = OPEN.
Proof.
  induction ms as [|[env m] rest IH]; intros pre chat Hinv out to nick text stamp Hout Hin.
  - destruct Hout.
  - rewrite chatSession_cons in Hout. cbn [snd] in Hout.
    destruct (onMessage_step cfg ws env m pre chat Hinv) as [Hinv1 Hfr].
    destruct Hout as [<-|Hout].
    + destruct (Hfr _ _ _ _ Hin) as (_ & _ & _ & Hn & Ht & Hs & c & Hc).
      split; [|split].
      * destruct Hn as [Ha (e & raw & Hi & E)]. split; [exact Ha|].
        exists e, raw. split; [|exact E]. apply in_or_app. now left.
      * exact Ht.
      * exists env, c. split; [now left|]. split; [exact Hs|exact Hc].
    + destruct (IH _ _ Hinv1 _ _ _ _ _ Hout Hin) as (Hn & Ht & e & c & He & Hc).
      split; [|split].
      * rewrite <- app_assoc in Hn. exact Hn.
      * exact Ht.
      * exists e, c. split; [now right|exact Hc].
Qed.

(** X8.  Whatever a socket sends, starting from the chat state a new
    connection gets: every chat message the server broadcasts carries a
    nickname that an earlier [chat_init] of that socket supplied (trimmed,
    not empty, within CHAT_NICKNAME_MAX_LENGTH, so the ['Anon'] fallback is
    never taken), a text that is trimmed, not empty and within
    CHAT_MESSAGE_MAX_LENGTH, and goes to a socket of [webClients] that is
    OPEN. *)
Theorem X8_chat_broadcast_is_validated :
  forall (cfg : ChatConfig) (ws : nat) (ms : list (ChatEnv * incoming))
         (out : list (nat * chatFrame)) (to : nat) (nick text : jsstring) (stamp : Z),
    In out (snd (chatSession cfg ws ms newChat)) ->
    In (to, ChatMessage nick text stamp) out ->
    acceptable (CHAT_NICKNAME_MAX_LENGTH cfg) nick
    /\ (exists env raw, In (env, ChatInit (FieldString raw)) ms /\ nick = trim raw)
    /\ acceptable (CHAT_MESSAGE_MAX_LENGTH cfg) text
    /\ (exists env c, In env (map fst ms) /\ stamp = date_stamp env
                      /\ In c (clients env) /\ ws_id c = to /\ readyState c = OPEN).
Proof.
  intros cfg ws ms out to nick text stamp Hout Hin.
  destruct (chatSession_frames cfg ws ms [] newChat (chatInv_newChat cfg)
              out to nick text stamp Hout Hin) as ([Ha Hf] & Ht & Hc).
  repeat split; try apply Ha; try apply Ht; [exact Hf|exact Hc].
Qed.

Lemma X8_witness :
  acceptable 24 [66; 111]%N /\ acceptable 500 hi.
Proof.
  assert (Hout : In [(7%nat, ChatMessage [66; 111]%N hi 4000)]
                    (snd (chatSession (chatConfig None None None None None) 7
                            solvedSession newChat)))
    by (vm_compute; right; right; right; left; reflexivity).
  assert (Hin : In (7%nat, ChatMessage [66; 111]%N hi 4000)
                   [(7%nat, ChatMessage [66; 111]%N hi 4000)])
    by (left; reflexivity).
  destruct (X8_chat_broadcast_is_validated _ _ _ _ _ _ _ _ Hout Hin)
    as (Hn & _ & Ht & _).
  split; [exact Hn|exact Ht].
Defined.

Lemma unsolved_step cfg ws env m pre chat :
  unsolvedInv pre chat ->
  (forall ans, m = ChatVerify (Some ans) -> Forall (fun e => ans <> drawnSum e) pre) ->
  unsolvedInv (pre ++ [(env, m)]) (fst (onMessage cfg ws env m chat))
  /\ delivers (snd (onMessage cfg ws env m chat)) = false.
Proof.
  intros [Hv Hc] Hans.
  assert (Hg : unsolvedInv (pre ++ [(env, m)]) chat).
  { split; [exact Hv|]. intros ch Hch. destruct (Hc ch Hch) as (e & He & E).
    exists e. split; [apply in_or_app; now left|exact E]. }
  destruct m as [|f|a|f|]; unfold onMessage.
  - split; [exact Hg|reflexivity].
  - unfold handleChatInit. destruct f as [|raw|]; cbn [trimmedText].
    + replace (trim []) with (@nil N) by reflexivity. cbn [List.length Nat.eqb fst snd].
      split; [exact Hg|reflexivity].
    + destruct (List.length (trim raw) =? 0)%nat; cbn [fst snd];
        [split; [exact Hg|reflexivity]|].
      destruct (CHAT_NICKNAME_MAX_LENGTH cfg <? _); cbn [fst snd];
        [split; [exact Hg|reflexivity]|].
      cbv zeta. cbn [fst snd]. split; [|reflexivity].
      split; cbn [verifiedHuman challenge]; [reflexivity|].
      intros ch E. injection E as <-.
      exists (env, ChatInit (FieldString raw)).
      split; [apply in_or_app; right; now left|reflexivity].
    + split; [exact Hg|reflexivity].
  - unfold handleChatVerify.
    destruct (challenge chat) as [c|] eqn:Ec; cbn [fst snd];
      [|split; [exact Hg|reflexivity]].
    destruct (code_is a (answer c)) eqn:Ea; cbv zeta; cbn [fst snd].
    + exfalso. destruct a as [ans|]; [|discriminate].
      cbn [code_is] in Ea. apply Z.eqb_eq in Ea.
      destruct (Hc c eq_refl) as (e & He & E).
      pose proof (Hans ans eq_refl) as Hall.
      rewrite Forall_forall in Hall. apply (Hall e He). now rewrite Ea.
    + split; [|reflexivity].
      split; cbn [verifiedHuman challenge]; [exact Hv|].
      intros ch E. injection E as <-.
      exists (env, ChatVerify a).
      split; [apply in_or_app; right; now left|reflexivity].
  - unfold handleChatMessage. rewrite Hv. cbn [negb fst snd].
    split; [exact Hg|reflexivity].
  - split; [exact Hg|reflexivity].
Qed.

Lemma unsolved_session cfg ws ms :
  forall pre chat,
    unsolvedInv pre chat ->
    (forall j e ans,
        nth_error ms j = Some (e, ChatVerify (Some ans)) ->
        Forall (fun earlier => ans <> drawnSum earlier) (pre ++ firstn j ms)) ->
    verifiedHuman (fst (chatSession cfg ws ms chat)) = false
    /\ Forall (fun out => delivers out = false) (snd (chatSession cfg ws ms chat)).
Proof.
  induction ms as [|[env m] rest IH]; intros pre chat Hinv Hns.
  - split; [apply Hinv|constructor].
  - rewrite chatSession_cons. cbn [fst snd].
    destruct (unsolved_step cfg ws env m pre chat Hinv) as [Hinv1 Hd].
    { intros ans ->. specialize (Hns 0%nat env ans eq_refl).
      cbn [firstn] in Hns. now rewrite app_nil_r in Hns. }
    destruct (IH _ _ Hinv1) as [Hv Hout].
    { intros j e ans Hj. specialize (Hns (S j) e ans Hj).
      cbn [firstn] in Hns. now rewrite <- app_assoc. }
    split; [exact Hv|]. constructor; [exact Hd|exact Hout].
Qed.

(** X9.  A socket cannot chat without solving a challenge: in a session
    that starts from the chat state of a new connection and in which no
    [chat_verify] gives the sum of a challenge drawn earlier, no chat message
    is broadcast, whatever else the socket sends, and the socket ends
    unverified. *)
Theorem X9_no_chat_without_solving_a_challenge :
  forall (cfg : ChatConfig) (ws : nat) (ms : list (ChatEnv * incoming)),
    neverSolved ms ->
    verifiedHuman (fst (chatSession cfg ws ms newChat)) = false
    /\ Forall (fun out => delivers out = false)
              (snd (chatSession cfg ws ms newChat)).
Proof.
  intros cfg ws ms Hns.
  apply (unsolved_session cfg ws ms []).
  - split; [reflexivity|discriminate].
  - intros j e ans Hj. exact (Hns j e ans Hj).
Qed.

Lemma unsolvedSession_neverSolved : neverSolved unsolvedSession.
Proof.
  intros j e ans Hj.
  destruct j as [|[|[|[|j]]]]; cbn in Hj; try discriminate.
  - injection Hj as _ <-. repeat constructor; cbn; discriminate.
  - destruct j; discriminate.
Defined.

Lemma X9_witness :
  Forall (fun out => delivers out = false)
         (snd (chatSession (chatConfig None None None None None) 7
                 unsolvedSession newChat)).
Proof.
  exact (proj2 (X9_no_chat_without_solving_a_challenge
                  (chatConfig None None None None None) 7 unsolvedSession
                  unsolvedSession_neverSolved)).
Defined.

(** X10.  A new nickname revokes the verification: after a [chat_init]
    with an acceptable nickname, in whatever chat state it arrives, no chat
    message of the socket is broadcast until a [chat_verify] gives the sum of
    a challenge drawn since. *)
Theorem X10_new_nickname_revokes_verification :
  forall (cfg : ChatConfig) (ws : nat) (env : ChatEnv) (raw : jsstring)
         (ms : list (ChatEnv * incoming)) (chat : ChatState),
    trim raw <> [] ->
    Z.of_nat (List.length (trim raw)) <= CHAT_NICKNAME_MAX_LENGTH cfg ->
    neverSolved ((env, ChatInit (FieldString raw)) :: ms) ->
    let session := chatSession cfg ws ((env, ChatInit (FieldString raw)) :: ms) chat in
    verifiedHuman (fst session) = false
    /\ Forall (fun out => delivers out = false) (snd session).
Proof.
  intros cfg ws env raw ms chat Hne Hlen Hns session. subst session.
  rewrite chatSession_cons. cbn [fst snd].
  assert (Hinit : onMessage cfg ws env (ChatInit (FieldString raw)) chat
                  = ({| nickname := Some (trim raw); verifiedHuman := false;
                        challenge := Some (generateMathChallenge (draw_a env) (draw_b env));
                        lastChatAt := lastChatAt chat |},
                     [ (ws, ChatChallenge
                              (question (generateMathChallenge (draw_a env) (draw_b env)))) ])).
  { unfold onMessage, handleChatInit. cbn [trimmedText].
    destruct (trim raw) as [|c t] eqn:Et; [now contradiction Hne|].
    cbn [List.length Nat.eqb].
    replace (CHAT_NICKNAME_MAX_LENGTH cfg <? _) with false
      by (symmetry; apply Z.ltb_ge; exact Hlen).
    reflexivity. }
  rewrite Hinit. cbn [fst snd].
  set (c1 := {| nickname := Some (trim raw); verifiedHuman := false;
                challenge := _; lastChatAt := _ |}).
  assert (Hinv : unsolvedInv [(env, ChatInit (FieldString raw))] c1).
  { split; [reflexivity|]. intros ch E. injection E as <-.
    exists (env, ChatInit (FieldString raw)). split; [now left|reflexivity]. }
  destruct (unsolved_session cfg ws ms _ c1 Hinv) as [Hv Hout].
  { intros j e ans Hj. exact (Hns (S j) e ans Hj). }
  split; [exact Hv|]. constructor; [reflexivity|exact Hout].
Qed.

Lemma X10_witness :
  Forall (fun out => delivers out = false)
    (snd (chatSession (chatConfig None None None None None) 7
            ((chatEnv 3 4 6000, ChatInit (FieldString paddedBo)) :: renamedSession)
            (fst (chatSession (chatConfig None None None None None) 7
                    solvedSession newChat)))).
Proof.
  refine (proj2 (X10_new_nickname_revokes_verification
            (chatConfig None None None None None) 7 (chatEnv 3 4 6000) paddedBo
            renamedSession _ _ _ _)).
  - vm_compute. discriminate.
  - vm_compute. discriminate.
  - intros j e ans Hj.
    destruct j as [|[|[|j]]]; cbn in Hj; try discriminate.
    + injection Hj as _ <-. repeat constructor; cbn; discriminate.
    + destruct j; discriminate.
Defined.

(** One message either leaves [lastChatAt] alone and broadcasts nothing, or
    passes the cooldown test and sets [lastChatAt] to the clock reading. *)
Lemma lastChatAt_step cfg ws env m chat :
  (lastChatAt (fst (onMessage cfg ws env m chat)) = lastChatAt chat
   /\ delivers (snd (onMessage cfg ws env m chat)) = false)
  \/ (lastChatAt (fst (onMessage cfg ws env m chat)) = date_now env
      /\ CHAT_MESSAGE_COOLDOWN_MS cfg <= date_now env - lastChatAt chat).
Proof.
  destruct m as [|f|a|f|]; unfold onMessage.
  - left. split; reflexivity.
  - unfold handleChatInit. destruct f as [|raw|]; cbn [trimmedText].
    + replace (trim []) with (@nil N) by reflexivity. left. split; reflexivity.
    + destruct (List.length (trim raw) =? 0)%nat; [left; split; reflexivity|].
      destruct (CHAT_NICKNAME_MAX_LENGTH cfg <? _); left; split; reflexivity.
    + left. split; reflexivity.
  - unfold handleChatVerify. destruct (challenge chat) as [c|]; [|left; split; reflexivity].
    destruct (code_is a (answer c)); left; split; reflexivity.
  - unfold handleChatMessage.
    destruct (verifiedHuman chat); cbn [negb]; [|left; split; reflexivity].
    cbv zeta.
    destruct (date_now env - lastChatAt chat <? CHAT_MESSAGE_COOLDOWN_MS cfg) eqn:Ecd;
      [left; split; reflexivity|].
    destruct f as [|raw|]; cbn [trimmedText].
    + replace (trim []) with (@nil N) by reflexivity. left. split; reflexivity.
    + destruct (List.length (trim raw) =? 0)%nat; [left; split; reflexivity|].
      destruct (CHAT_MESSAGE_MAX_LENGTH cfg <? _); [left; split; reflexivity|].
      right. split; [reflexivity|]. apply Z.ltb_ge. exact Ecd.
    + left. split; reflexivity.
  - left. split; reflexivity.
Qed.

(** A broadcast later in the session is at least the cooldown after the
    [lastChatAt] the session started with. *)
Lemma delivery_after_lastChatAt cfg ws ms :
  0 <= CHAT_MESSAGE_COOLDOWN_MS cfg ->
  forall chat j ej mj outj,
    nth_error ms j = Some (ej, mj) ->
    nth_error (snd (chatSession cfg ws ms chat)) j = Some outj ->
    delivers outj = true ->
    CHAT_MESSAGE_COOLDOWN_MS cfg <= date_now ej - lastChatAt chat.
Proof.
  intros Hcd. induction ms as [|[env m] rest IH]; intros chat j ej mj outj Hj Ho Hd.
  - destruct j; discriminate.
  - rewrite chatSession_cons in Ho. cbn [snd] in Ho.
    pose proof (lastChatAt_step cfg ws env m chat) as Hstep.
    destruct j as [|j]; cbn [nth_error] in Hj, Ho.
    + injection Hj as -> ->. injection Ho as <-.
      destruct Hstep as [[_ Hn]|[_ H]]; [congruence|exact H].
    + specialize (IH _ _ _ _ _ Hj Ho Hd).
      destruct Hstep as [[E _]|[E H]]; rewrite E in IH; lia.
Qed.

(** X11.  The cooldown spaces the broadcasts of a socket: with a cooldown
    that is not negative, two messages of one session that were both
    broadcast were handled at clock readings at least
    CHAT_MESSAGE_COOLDOWN_MS apart, whatever came between them and whatever
    the clock did. *)
Theorem X11_chat_broadcasts_are_spaced_by_the_cooldown :
  forall (cfg : ChatConfig) (ws : nat) (ms : list (ChatEnv * incoming))
         (chat : ChatState) (i j : nat) (ei ej : ChatEnv) (mi mj : incoming)
         (outi outj : list (nat * chatFrame)),
    0 <= CHAT_MESSAGE_COOLDOWN_MS cfg ->
    (i < j)%nat ->
    nth_error ms i = Some (ei, mi) ->
    nth_error ms j = Some (ej, mj) ->
    nth_error (snd (chatSession cfg ws ms chat)) i = Some outi ->
    nth_error (snd (chatSession cfg ws ms chat)) j = Some outj ->
    delivers outi = true ->
    delivers outj = true ->
    CHAT_MESSAGE_COOLDOWN_MS cfg <= date_now ej - date_now ei.
Proof.
  intros cfg ws ms chat i j ei ej mi mj outi outj Hcd.
  revert chat i j. induction ms as [|[env m] rest IH];
    intros chat i j Hij Hi Hj Hoi Hoj Hdi Hdj.
  - destruct i; discriminate.
  - rewrite chatSession_cons in Hoi, Hoj. cbn [snd] in Hoi, Hoj.
    destruct j as [|j]; [lia|]. cbn [nth_error] in Hj, Hoj.
    destruct i as [|i]; cbn [nth_error] in Hi, Hoi.
    + injection Hi as -> ->. injection Hoi as <-.
      pose proof (delivery_after_lastChatAt cfg ws rest Hcd _ _ _ _ _ Hj Hoj Hdj) as H.
      destruct (lastChatAt_step cfg ws ei mi chat) as [[_ Hn]|[E _]]; [congruence|].
      rewrite E in H. exact H.
    + apply (IH (fst (onMessage cfg ws env m chat)) i j); try assumption. lia.
Qed.

Lemma X11_witness : 1000 <= 5000 - 4000.
Proof.
  exact (X11_chat_broadcasts_are_spaced_by_the_cooldown
           (chatConfig None None None None None) 7 solvedSession newChat
           3 5 (chatEnv 1 1 4000) (chatEnv 1 1 5000)
           (ChatText (FieldString hi)) (ChatText (FieldString hi))
           [(7%nat, ChatMessage [66; 111]%N hi 4000)]
           [(7%nat, ChatMessage [66; 111]%N hi 5000)]
           ltac:(vm_compute; discriminate) ltac:(lia)
           eq_refl eq_refl eq_refl eq_refl eq_refl eq_refl).
Defined.

(** ** The multipart parser of the read loop *)

Lemma skipn_exact {A} (a b : list A) : skipn (List.length a) (a ++ b) = b.
Proof. induction a as [|x a IH]; simpl; [reflexivity|exact IH]. Qed.

Lemma firstn_exact {A} (a b : list A) : firstn (List.length a) (a ++ b) = a.
Proof. induction a as [|x a IH]; simpl; [reflexivity|now rewrite IH]. Qed.

Lemma startsWith_prefix (needle rest : list Byte.byte) :
  startsWith needle (needle ++ rest) = true.
Proof.
  induction needle as [|n needle IH]; simpl; [reflexivity|].
  rewrite IH. now rewrite (Byte.byte_dec_lb (eq_refl n)).
Qed.

Lemma startsWith_fits (needle hay : list Byte.byte) :
  startsWith needle hay = true -> (List.length needle <= List.length hay)%nat.
Proof.
  revert hay. induction needle as [|n needle IH]; intros [|h hay]; simpl;
    try lia; try discriminate.
  intros H. apply andb_true_iff in H. destruct H as [_ H]. apply IH in H. lia.
Qed.

Lemma startsWith_app (needle hay rest : list Byte.byte) :
  startsWith needle hay = true -> startsWith needle (hay ++ rest) = true.
Proof.
  revert hay. induction needle as [|n needle IH]; intros [|h hay]; simpl;
    try reflexivity; try discriminate.
  intros H. apply andb_true_iff in H. destruct H as [H1 H2].
  now rewrite H1, (IH _ H2).
Qed.

(** A mismatch inside the hay stays a mismatch when the hay grows. *)
Lemma startsWith_mismatch_app (needle hay rest : list Byte.byte) :
  startsWith needle hay = false ->
  (List.length needle <= List.length hay)%nat ->
  startsWith needle (hay ++ rest) = false.
Proof.
  revert hay. induction needle as [|n needle IH]; intros [|h hay]; simpl;
    try discriminate; try lia.
  intros H Hlen. destruct (Byte.eqb n h); cbn [andb] in *; [|reflexivity].
  apply IH; [exact H|lia].
Qed.

Lemma indexFrom0_fits (needle hay : list Byte.byte) (k : nat) :
  indexFrom0 needle hay = Some k ->
  (k + List.length needle <= List.length hay)%nat.
Proof.
  revert k. induction hay as [|h hay IH]; intros k; simpl.
  - destruct (startsWith needle []) eqn:E; [|discriminate].
    intros [= <-]. apply startsWith_fits in E. exact E.
  - destruct (startsWith needle (h :: hay)) eqn:E.
    + intros [= <-]. apply startsWith_fits in E. exact E.
    + destruct (indexFrom0 needle hay) as [k'|]; simpl; [|discriminate].
      intros [= <-]. specialize (IH k' eq_refl). lia.
Qed.

(** The first occurrence in a buffer is the first occurrence in any
    extension of it. *)
Lemma indexFrom0_app (needle hay rest : list Byte.byte) (k : nat) :
  indexFrom0 needle hay = Some k -> indexFrom0 needle (hay ++ rest) = Some k.
Proof.
  revert k. induction hay as [|h hay IH]; intros k.
  - simpl. destruct (startsWith needle []) eqn:E; [|discriminate].
    intros [= <-]. destruct needle; [|discriminate].
    destruct rest; reflexivity.
  - cbn [indexFrom0 app].
    destruct (startsWith needle (h :: hay)) eqn:E.
    + intros [= <-].
      change (h :: hay ++ rest) with ((h :: hay) ++ rest).
      now rewrite (startsWith_app _ _ rest E).
    + destruct (indexFrom0 needle hay) as [k'|] eqn:Ek; simpl; [|discriminate].
      intros [= <-].
      change (h :: hay ++ rest) with ((h :: hay) ++ rest).
      rewrite (startsWith_mismatch_app _ _ rest E).
      * now rewrite (IH k' eq_refl).
      * apply indexFrom0_fits in Ek. simpl. lia.
Qed.

Lemma indexOf_at_prefix (pre tail needle : list Byte.byte) (k : nat) :
  indexFrom0 needle tail = Some k ->
  indexOf (pre ++ tail) needle (List.length pre) = Some (List.length pre + k)%nat.
Proof. intros H. unfold indexOf. now rewrite skipn_exact, H. Qed.

(** A buffer that holds a boundary and no complete header block after it is
    left for the next chunk. *)
Lemma scanFrames_incomplete (fuel : nat) (clock : nat -> Z) (k : nat) (st : Stream)
    (s : Server) (rest : list Byte.byte) :
  buffer st = boundaryBuffer st ++ rest ->
  indexFrom0 CRLFCRLF rest = None ->
  scanFrames fuel clock k st s = (st, s).
Proof.
  intros Hb Hr. destruct fuel as [|fuel]; [reflexivity|]. cbn [scanFrames].
  rewrite Hb.
  assert (E0 : indexOf (boundaryBuffer st ++ rest) (boundaryBuffer st) 0 = Some 0%nat).
  { unfold indexOf. cbn [skipn].
    destruct (boundaryBuffer st ++ rest) eqn:E; cbn [indexFrom0];
      rewrite <- E, startsWith_prefix; reflexivity. }
  rewrite E0. cbn [Nat.add].
  unfold indexOf at 1. rewrite skipn_exact, Hr. reflexivity.
Qed.

(** One turn of the inner loop on a buffer that starts with a complete
    part. *)
Lemma scanFrames_part (fuel : nat) (clock : nat -> Z) (k : nat) (st : Stream)
    (s : Server) (headers body rest : list Byte.byte) :
  buffer st = partThenBoundary (boundaryBuffer st) headers body rest ->
  indexFrom0 CRLFCRLF (headers ++ CRLFCRLF) = Some (List.length headers) ->
  indexFrom0 (boundaryBuffer st) (body ++ CRLF ++ boundaryBuffer st)
    = Some (List.length body + 2)%nat ->
  scanFrames (S fuel) clock k st s
  = scanFrames fuel clock (if (0 <? List.length body)%nat then S k else k)
      {| boundaryBuffer := boundaryBuffer st;
         buffer := boundaryBuffer st ++ rest;
         lastFrameTime := lastFrameTime (fst (onFrame (clock k) body st s)) |}
      (snd (onFrame (clock k) body st s)).
Proof.
  intros Hb Hh Hn. set (B := boundaryBuffer st) in *.
  cbn [scanFrames]. fold B. rewrite Hb. unfold partThenBoundary.
  assert (E0 : indexOf (B ++ headers ++ CRLFCRLF ++ body ++ CRLF ++ B ++ rest) B 0
               = Some 0%nat).
  { unfold indexOf. cbn [skipn].
    destruct (B ++ headers ++ CRLFCRLF ++ body ++ CRLF ++ B ++ rest) eqn:E;
      cbn [indexFrom0]; rewrite <- E, startsWith_prefix; reflexivity. }
  rewrite E0. cbn [Nat.add].
  assert (E1 : indexOf (B ++ headers ++ CRLFCRLF ++ body ++ CRLF ++ B ++ rest)
                 CRLFCRLF (List.length B)
               = Some (List.length B + List.length headers)%nat).
  { apply indexOf_at_prefix.
    replace (headers ++ CRLFCRLF ++ body ++ CRLF ++ B ++ rest)
      with ((headers ++ CRLFCRLF) ++ body ++ CRLF ++ B ++ rest)
      by now rewrite <- app_assoc.
    apply indexFrom0_app. exact Hh. }
  rewrite E1.
  set (start := (List.length B + List.length headers + 4)%nat).
  assert (Esplit : B ++ headers ++ CRLFCRLF ++ body ++ CRLF ++ B ++ rest
                   = (B ++ headers ++ CRLFCRLF) ++ body ++ CRLF ++ B ++ rest)
    by now rewrite <- !app_assoc.
  assert (Elen : List.length (B ++ headers ++ CRLFCRLF) = start)
    by (rewrite !length_app; cbn; unfold start; lia).
  assert (E2 : indexOf (B ++ headers ++ CRLFCRLF ++ body ++ CRLF ++ B ++ rest) B start
               = Some (start + (List.length body + 2))%nat).
  { rewrite Esplit, <- Elen. apply indexOf_at_prefix.
    replace (body ++ CRLF ++ B ++ rest) with ((body ++ CRLF ++ B) ++ rest)
      by now rewrite <- !app_assoc.
    apply indexFrom0_app. exact Hn. }
  rewrite E2.
  set (buf := B ++ headers ++ CRLFCRLF ++ body ++ CRLF ++ B ++ rest).
  assert (Ebody : buf = ((B ++ headers ++ CRLFCRLF) ++ body)
                        ++ Byte.x0d :: Byte.x0a :: B ++ rest)
    by (unfold buf; rewrite <- !app_assoc; reflexivity).
  assert (Elen2 : List.length ((B ++ headers ++ CRLFCRLF) ++ body)
                  = (start + List.length body)%nat)
    by (rewrite length_app, Elen; reflexivity).
  assert (Ecr : byteAt buf (start + (List.length body + 2) - 2) Byte.x0d = true).
  { unfold byteAt.
    replace (start + (List.length body + 2) - 2)%nat
      with (List.length ((B ++ headers ++ CRLFCRLF) ++ body)) by (rewrite Elen2; lia).
    rewrite Ebody, nth_error_app2 by lia. rewrite Nat.sub_diag. reflexivity. }
  assert (Elf : byteAt buf (start + (List.length body + 2) - 1) Byte.x0a = true).
  { unfold byteAt.
    replace (start + (List.length body + 2) - 1)%nat
      with (S (List.length ((B ++ headers ++ CRLFCRLF) ++ body))) by (rewrite Elen2; lia).
    rewrite Ebody, nth_error_app2 by lia.
    replace (S _ - _)%nat with 1%nat by lia. reflexivity. }
  rewrite Ecr, Elf. cbn [andb].
  assert (Esub : subarray buf start (start + (List.length body + 2) - 2) = body).
  { unfold subarray.
    replace (start + (List.length body + 2) - 2 - start)%nat with (List.length body) by lia.
    unfold buf. rewrite Esplit, <- Elen, skipn_exact. apply firstn_exact. }
  rewrite Esub.
  destruct (onFrame_buffer (clock k) body st s) as [Hbuf Hbd].
  destruct (onFrame (clock k) body st s) as [st1 s1]. cbn [fst snd] in *.
  rewrite Hbd, Hbuf, Hb. fold B.
  replace (skipn (start + (List.length body + 2))
             (partThenBoundary B headers body rest)) with (B ++ rest); [reflexivity|].
  unfold partThenBoundary.
  replace (B ++ headers ++ CRLFCRLF ++ body ++ CRLF ++ B ++ rest)
    with (((B ++ headers ++ CRLFCRLF) ++ body ++ CRLF) ++ B ++ rest)
    by (rewrite <- !app_assoc; reflexivity).
  replace (start + (List.length body + 2))%nat
    with (List.length ((B ++ headers ++ CRLFCRLF) ++ body ++ CRLF))
    by (rewrite length_app, Elen, length_app; cbn; lia).
  now rewrite skipn_exact.
Qed.

(** The frame throttle looks at [lastFrameTime] only. *)
Lemma onFrame_throttle_only (now : Z) (f : Frame) (st st' : Stream) (s : Server) :
  lastFrameTime st = lastFrameTime st' ->
  lastFrameTime (fst (onFrame now f st s)) = lastFrameTime (fst (onFrame now f st' s))
  /\ snd (onFrame now f st s) = snd (onFrame now f st' s).
Proof.
  intros E. unfold onFrame. rewrite E.
  destruct (0 <? List.length f)%nat; [|split; [exact E|reflexivity]].
  destruct (intervalElapsed now (lastFrameTime st')); split;
    first [reflexivity|exact E].
Qed.

(** X12.  The read loop extracts a well-formed part exactly.  When the
    buffer is empty and the chunk is a boundary, a header block with no blank
    line before its end, the blank line, a body whose first following
    boundary is the one after its line end, that boundary and a rest without
    a complete header block, then the loop hands exactly the body (without
    the line end) to the frame throttle, once, with the first clock reading,
    and keeps the closing boundary and the rest as the new buffer. *)
Theorem X12_read_loop_extracts_well_formed_part :
  forall (clock : nat -> Z) (st : Stream) (s : Server)
         (headers body rest : list Byte.byte),
    buffer st = [] ->
    indexFrom0 CRLFCRLF (headers ++ CRLFCRLF) = Some (List.length headers) ->
    indexFrom0 (boundaryBuffer st) (body ++ CRLF ++ boundaryBuffer st)
      = Some (List.length body + 2)%nat ->
    indexFrom0 CRLFCRLF rest = None ->
    onChunk clock (partThenBoundary (boundaryBuffer st) headers body rest) st s
    = ({| boundaryBuffer := boundaryBuffer st;
          buffer := boundaryBuffer st ++ rest;
          lastFrameTime := lastFrameTime (fst (onFrame (clock 0%nat) body st s)) |},
       snd (onFrame (clock 0%nat) body st s)).
Proof.
  intros clock st s headers body rest Hb Hh Hn Hr.
  unfold onChunk. cbv zeta. rewrite Hb. cbn [app].
  set (st0 := {| boundaryBuffer := boundaryBuffer st;
                 buffer := partThenBoundary (boundaryBuffer st) headers body rest;
                 lastFrameTime := lastFrameTime st |}).
  rewrite (scanFrames_part _ clock 0 st0 s headers body rest eq_refl Hh Hn).
  rewrite scanFrames_incomplete with (rest := rest); [|reflexivity|exact Hr].
  destruct (onFrame_throttle_only (clock 0%nat) body st0 st s eq_refl) as [-> ->].
  reflexivity.
Qed.

Lemma X12_witness :
  let r := onChunk (fun _ => 5000)
             (partThenBoundary (boundaryBuffer freshStream) jpegHeaders oneFrame CRLF)
             freshStream (initialServer None) in
  buffer (fst r) = list_byte_of_string "--frame" ++ CRLF
  /\ latestFrame (relay (snd r)) = Some oneFrame.
Proof.
  cbv zeta.
  rewrite (X12_read_loop_extracts_well_formed_part (fun _ => 5000) freshStream
             (initialServer None) jpegHeaders oneFrame CRLF
             eq_refl eq_refl eq_refl eq_refl).
  split; reflexivity.
Defined.

(** ** Invariants of the event loop *)

Ltac keeps_split := split; [|split; [|split; [|split; [|split]]]].

Lemma keeps_refl (s : Server) : keeps s s.
Proof. keeps_split; auto using incl_refl. Qed.

Lemma keeps_trans (s1 s2 s3 : Server) : keeps s1 s2 -> keeps s2 s3 -> keeps s1 s3.
Proof.
  intros (A1 & T1 & R1 & N1 & C1 & F1) (A2 & T2 & R2 & N2 & C2 & F2).
  keeps_split; auto.
  - now rewrite A2.
  - eapply incl_tran; eassumption.
  - now rewrite R2.
Qed.

(** A step that shows in none of the fields the invariants read. *)
Lemma keeps_quiet (s s' : Server) : soundView s' = soundView s -> keeps s s'.
Proof.
  unfold soundView. intros E. injection E as En Ea Ee Eu Ef Ew Es Et.
  unfold keeps, nameOk, cameraOk, frameOk, autoConnectTimers.
  rewrite En, Ea, Ee, Eu, Ef, Ew, Es, Et.
  keeps_split; auto using incl_refl.
Qed.

(** A step that only adds timers, none of them a call of [autoConnect]. *)
Lemma keeps_more_timers (s s' : Server) (ext : list Timer) :
  filter isAutoConnectTimer ext = [] ->
  soundView s' = (printerName (printerStatus s), cameraAvailable (printerStatus s),
                  cameraError (printerStatus s), cameraStreamURL (relay s),
                  latestFrame (relay s), cameraWrites (runtime s),
                  autoConnectState (supervisor s), timers (runtime s) ++ ext) ->
  keeps s s'.
Proof.
  unfold soundView. intros Hext E. injection E as En Ea Ee Eu Ef Ew Es Et.
  unfold keeps, nameOk, cameraOk, frameOk, autoConnectTimers.
  rewrite En, Ea, Ee, Eu, Ef, Ew, Es, Et.
  keeps_split; auto using incl_appl, incl_refl.
  rewrite filter_app, Hext. apply app_nil_r.
Qed.

(** A step that only appends writes that carry no frame. *)
Lemma keeps_more_writes (s s' : Server) (ext : list (nat * chunk)) :
  Forall (fun w => snd w <> WriteFrame []) ext ->
  soundView s' = (printerName (printerStatus s), cameraAvailable (printerStatus s),
                  cameraError (printerStatus s), cameraStreamURL (relay s),
                  latestFrame (relay s), cameraWrites (runtime s) ++ ext,
                  autoConnectState (supervisor s), timers (runtime s)) ->
  keeps s s'.
Proof.
  unfold soundView. intros Hext E. injection E as En Ea Ee Eu Ef Ew Es Et.
  unfold keeps, nameOk, cameraOk, frameOk, autoConnectTimers.
  rewrite En, Ea, Ee, Eu, Ef, Ew, Es, Et.
  keeps_split; auto using incl_refl.
  intros [Hf Hw]. split; [exact Hf|]. apply Forall_app. split; assumption.
Qed.

(** A write to [printerStatus] that keeps the name and reports the camera as
    unavailable. *)
Lemma keeps_camera_off (f : PrinterStatus -> PrinterStatus) (s : Server) :
  printerName (f (printerStatus s)) = printerName (printerStatus s) ->
  cameraAvailable (f (printerStatus s)) = false ->
  keeps s (with_ps f s).
Proof.
  intros Hn Hc. unfold keeps, nameOk, cameraOk, frameOk. cbn.
  rewrite Hn, Hc. keeps_split; auto using incl_refl; discriminate.
Qed.

Create HintDb keeps.

Ltac is_setter f :=
  match f with
  | with_ps _ => idtac
  | set_userStats _ => idtac
  | set_temperatures _ => idtac
  | set_webClients _ => idtac
  | with_lastBroadcastTime _ => idtac
  | with_pendingBroadcast _ => idtac
  | with_cameraSubscribers _ => idtac
  | with_cameraStartFailure _ => idtac
  | with_streams _ => idtac
  | with_printerClient _ => idtac
  | with_reconnectSetupInProgress _ => idtac
  | with_reconnectSetupNeeded _ => idtac
  | with_isFirstUpdate _ => idtac
  | with_setupTasks _ => idtac
  | with_nextTimer _ => idtac
  | with_sent _ => idtac
  | with_brokenResponses _ => idtac
  | with_exited _ => idtac
  end.

Ltac peel_keeps :=
  match goal with
  | |- keeps ?s0 (?f ?s) =>
      is_setter f;
      apply (keeps_trans s0 s (f s)); [| apply keeps_quiet; reflexivity]
  end.

#[local] Hint Resolve keeps_refl : keeps.
#[local] Hint Extern 4 (keeps _ (_ _)) => peel_keeps : keeps.

Ltac keeps_auto := auto 30 with keeps nocore.

Lemma setTimeout_keeps cb delay now s0 s :
  cb <> CbAutoConnect ->
  keeps s0 s -> keeps s0 (fst (setTimeout cb delay now s)).
Proof.
  intros Hcb H. apply (keeps_trans _ _ _ H).
  eapply keeps_more_timers; [|reflexivity].
  cbn. unfold isAutoConnectTimer. cbn. destruct cb; try reflexivity. now contradiction Hcb.
Qed.
#[local] Hint Extern 2 (keeps _ (fst (setTimeout _ _ _ _))) =>
  apply setTimeout_keeps; [discriminate|] : keeps.

Lemma broadcastToClients_keeps now msg s0 s :
  keeps s0 s -> keeps s0 (broadcastToClients now msg s).
Proof.
  intros H. apply (keeps_trans _ _ _ H).
  unfold broadcastToClients, sendAll. cbv zeta.
  destruct (String.eqb _ _); [keeps_auto|].
  destruct (_ <=? _); [keeps_auto|].
  destruct (pendingBroadcast (gate s)); [keeps_auto|].
  match goal with
  | |- context [setTimeout ?cb ?d ?n s] =>
      pose proof (setTimeout_keeps cb d n s s ltac:(discriminate) (keeps_refl s)) as Ht;
      destruct (setTimeout cb d n s) as [s1 h]
  end.
  cbn [fst] in Ht. keeps_auto.
Qed.
#[local] Hint Resolve broadcastToClients_keeps : keeps.

Lemma broadcastStatus_keeps now s0 s : keeps s0 s -> keeps s0 (broadcastStatus now s).
Proof.
  intros H. unfold broadcastStatus, buildStatusPayload. cbv zeta. keeps_auto.
Qed.
#[local] Hint Resolve broadcastStatus_keeps : keeps.

Lemma updateUserStatsAndBroadcast_keeps now s0 s :
  keeps s0 s -> keeps s0 (updateUserStatsAndBroadcast now s).
Proof. intros H. unfold updateUserStatsAndBroadcast. keeps_auto. Qed.
#[local] Hint Resolve updateUserStatsAndBroadcast_keeps : keeps.

(** The reset to [defaultPrinterStatus]: the name is ['Unknown'], the camera
    unavailable. *)
Lemma reset_keeps now s0 s :
  keeps s0 s -> keeps s0 (set_printerStatus (resetStatus now) s).
Proof.
  intros H. apply (keeps_trans _ _ _ H).
  unfold keeps, nameOk, cameraOk, frameOk. cbn.
  keeps_split; auto using incl_refl; discriminate.
Qed.
#[local] Hint Resolve reset_keeps : keeps.

Lemma setDisconnectedStatus_keeps now s0 s :
  keeps s0 s -> keeps s0 (setDisconnectedStatus now s).
Proof.
  intros H. unfold setDisconnectedStatus. split_tests; cbv zeta; keeps_auto.
Qed.
#[local] Hint Resolve setDisconnectedStatus_keeps : keeps.

Lemma setCustomState_keeps info s0 s : keeps s0 s -> keeps s0 (setCustomState info s).
Proof.
  intros H. unfold setCustomState.
  destruct info as [d|]; [|assumption].
  destruct (Status d); [|assumption]. cbv zeta. keeps_auto.
Qed.
#[local] Hint Resolve setCustomState_keeps : keeps.

Lemma resetCameraFailureTracker_keeps s0 s :
  keeps s0 s -> keeps s0 (resetCameraFailureTracker s).
Proof. intros H. unfold resetCameraFailureTracker. keeps_auto. Qed.
#[local] Hint Resolve resetCameraFailureTracker_keeps : keeps.

Lemma handleCameraStartFailure_keeps now e s0 s :
  keeps s0 s -> keeps s0 (handleCameraStartFailure now e s).
Proof.
  intros H. unfold handleCameraStartFailure. cbv zeta.
  match goal with |- context [if ?c then _ else _] => destruct c end; keeps_auto.
Qed.
#[local] Hint Resolve handleCameraStartFailure_keeps : keeps.

(** A subscriber writes the frame it is given; the frame is not empty
    wherever the cache is sound. *)
Lemma subscriber_keeps id (f : Frame) s0 s :
  (frameOk s -> f <> []) ->
  keeps s0 s -> keeps s0 (subscriber id f s).
Proof.
  intros Hf H. apply (keeps_trans _ _ _ H).
  unfold subscriber, deleteSubscriber. destruct (isBroken id s); [keeps_auto|].
  unfold keeps, nameOk, cameraOk, frameOk, autoConnectTimers. cbn.
  keeps_split; auto using incl_refl.
  intros [Hl Hw]. split; [exact Hl|].
  apply Forall_app. split; [exact Hw|].
  assert (Hne : f <> []) by (apply Hf; split; assumption).
  repeat constructor; cbn; try discriminate.
  intros E. injection E as E. contradiction.
Qed.

Lemma dispatch_keeps (f : Frame) s0 s :
  f <> [] -> keeps s0 s -> keeps s0 (dispatch f s).
Proof.
  intros Hf. unfold dispatch. generalize (cameraSubscribers (relay s)) as ids.
  intros ids. revert s. induction ids as [|id ids IH]; intros s H; simpl.
  - exact H.
  - apply IH. apply subscriber_keeps; [intros _; exact Hf|exact H].
Qed.

(** The cache takes frames that are not empty. *)
Lemma cache_keeps (f : Frame) s0 s :
  (0 <? List.length f)%nat = true ->
  keeps s0 s -> keeps s0 (with_latestFrame (Some f) s).
Proof.
  intros Hf H. apply (keeps_trans _ _ _ H).
  unfold keeps, nameOk, cameraOk, frameOk. cbn.
  keeps_split; auto using incl_refl.
  intros [_ Hw]. split; [|exact Hw].
  intros E. injection E as ->. discriminate.
Qed.

Lemma onFrame_keeps now f st s0 s : keeps s0 s -> keeps s0 (snd (onFrame now f st s)).
Proof.
  intros H. unfold onFrame.
  destruct (0 <? List.length f)%nat eqn:Ef; [|exact H].
  destruct (intervalElapsed _ _); [|exact H].
  cbv zeta. cbn [snd]. apply dispatch_keeps.
  - intros ->. discriminate.
  - apply cache_keeps; assumption.
Qed.
#[local] Hint Resolve onFrame_keeps : keeps.

Lemma scanFrames_keeps fuel clock k st s0 s :
  keeps s0 s -> keeps s0 (snd (scanFrames fuel clock k st s)).
Proof.
  revert k st s. induction fuel as [|fuel IH]; intros k st s H; simpl; [exact H|].
  destruct (indexOf (buffer st) (boundaryBuffer st) 0); [|exact H].
  destruct (indexOf (buffer st) CRLFCRLF _); [|exact H].
  destruct (indexOf (buffer st) (boundaryBuffer st) _); [|exact H].
  match goal with
  | |- context [onFrame ?n ?f st s] =>
      pose proof (onFrame_keeps n f st s0 s H) as Hf; destruct (onFrame n f st s) as [st1 s1]
  end.
  apply IH. exact Hf.
Qed.

Lemma streamChunk_keeps i clock value s0 s :
  keeps s0 s -> keeps s0 (streamChunk i clock value s).
Proof.
  intros H. unfold streamChunk, onChunk.
  destruct (nth_error (streams (relay s)) i) as [st|]; [|exact H]. cbv zeta.
  match goal with
  | |- context [scanFrames ?fu ?c ?k ?t s] =>
      pose proof (scanFrames_keeps fu c k t s0 s H) as Hf;
      destruct (scanFrames fu c k t s) as [st1 s1]
  end.
  cbn [snd] in Hf. keeps_auto.
Qed.
#[local] Hint Resolve streamChunk_keeps : keeps.

Lemma streamDone_keeps i s0 s : keeps s0 s -> keeps s0 (streamDone i s).
Proof. intros H. unfold streamDone. keeps_auto. Qed.
#[local] Hint Resolve streamDone_keeps : keeps.

Lemma streamError_keeps now i e s0 s : keeps s0 s -> keeps s0 (streamError now i e s).
Proof.
  intros H. unfold streamError.
  destruct (nth_error (streams (relay s)) i); [|exact H]. cbv zeta. keeps_auto.
Qed.
#[local] Hint Resolve streamError_keeps : keeps.

Lemma api_camera_keeps now id stats s0 s :
  keeps s0 s -> keeps s0 (api_camera now id stats s).
Proof.
  intros H. unfold api_camera. destruct (isBroken id s); [exact H|]. cbv zeta.
  apply updateUserStatsAndBroadcast_keeps. peel_keeps.
  assert (H0 : keeps s0
             (with_cameraWrites (cameraWrites (runtime s) ++ [(id, WriteOpeningBoundary)]) s)).
  { apply (keeps_trans _ _ _ H).
    eapply keeps_more_writes; [|reflexivity]. repeat constructor. discriminate. }
  assert (H1 : keeps s0 (addSubscriber id
             (with_cameraWrites (cameraWrites (runtime s) ++ [(id, WriteOpeningBoundary)]) s))).
  { unfold addSubscriber. split_tests; keeps_auto. }
  destruct (latestFrame _) as [f|] eqn:Ef; [|exact H1].
  apply subscriber_keeps; [|exact H1].
  intros [Hl _] ->. apply Hl. exact Ef.
Qed.
#[local] Hint Resolve api_camera_keeps : keeps.

Lemma api_camera_cleanup_keeps now id stats s0 s :
  keeps s0 s -> keeps s0 (api_camera_cleanup now id stats s).
Proof. intros H. unfold api_camera_cleanup, deleteSubscriber. keeps_auto. Qed.
#[local] Hint Resolve api_camera_cleanup_keeps : keeps.

(** The writes of the camera start and of the camera setup. *)
Lemma camera_off_keeps (f : PrinterStatus -> PrinterStatus) s0 s :
  printerName (f (printerStatus s)) = printerName (printerStatus s) ->
  cameraAvailable (f (printerStatus s)) = false ->
  keeps s0 s -> keeps s0 (with_ps f s).
Proof. intros Hn Hc H. apply (keeps_trans _ _ _ H). now apply keeps_camera_off. Qed.

Lemma startCameraStreaming_call_keeps now s0 s :
  keeps s0 s -> keeps s0 (fst (startCameraStreaming_call now s)).
Proof.
  intros H. unfold startCameraStreaming_call.
  destruct (truthy_str _); cbv zeta; cbn [fst]; [exact H|].
  apply resetCameraFailureTracker_keeps, broadcastStatus_keeps.
  apply camera_off_keeps; [reflexivity|reflexivity|exact H].
Qed.
#[local] Hint Resolve startCameraStreaming_call_keeps : keeps.

Lemma startCameraStreaming_failed_keeps now e s0 s :
  keeps s0 s -> keeps s0 (startCameraStreaming_failed now e s).
Proof.
  intros H. unfold startCameraStreaming_failed. cbv zeta.
  apply setTimeout_keeps; [discriminate|].
  apply handleCameraStartFailure_keeps, broadcastStatus_keeps.
  apply camera_off_keeps; [reflexivity|reflexivity|exact H].
Qed.
#[local] Hint Resolve startCameraStreaming_failed_keeps : keeps.

(** A start that succeeds clears the error and leaves the availability flag
    as it was. *)
Lemma clear_error_keeps s0 s :
  keeps s0 s -> keeps s0 (with_ps (set_cameraError None) s).
Proof.
  intros H. apply (keeps_trans _ _ _ H).
  unfold keeps, nameOk, cameraOk, frameOk. cbn.
  keeps_split; auto using incl_refl.
  intros Hc Ha. split; [apply (Hc Ha)|reflexivity].
Qed.

Lemma startCameraStreaming_fetched_keeps now r s0 s :
  keeps s0 s -> keeps s0 (startCameraStreaming_fetched now r s).
Proof.
  intros H. unfold startCameraStreaming_fetched. destruct r; cbv zeta; [|keeps_auto..].
  peel_keeps. apply clear_error_keeps. keeps_auto.
Qed.
#[local] Hint Resolve startCameraStreaming_fetched_keeps : keeps.

Lemma camera_rejected_keeps (reason : string) s0 s :
  keeps s0 s ->
  keeps s0
    (with_cameraStreamURL None
       (with_ps (fun p => set_cameraError (Some reason) (set_cameraAvailable false p)) s)).
Proof.
  intros H. apply (keeps_trans _ _ _ H).
  unfold keeps, nameOk, cameraOk, frameOk. cbn.
  keeps_split; auto using incl_refl; discriminate.
Qed.

Lemma setupCameraURL_answered_keeps r s0 s :
  keeps s0 s -> keeps s0 (setupCameraURL_answered r s).
Proof.
  intros H. unfold setupCameraURL_answered.
  destruct r as [e|[cd|]]; [apply camera_rejected_keeps; exact H| |exact H].
  destruct (_ && _); [|cbv zeta; apply camera_rejected_keeps; exact H].
  apply (keeps_trans _ _ _ H).
  unfold keeps, nameOk, cameraOk, frameOk. cbn.
  keeps_split; auto using incl_refl.
Qed.
#[local] Hint Resolve setupCameraURL_answered_keeps : keeps.

Lemma str_or_not_empty (a : option string) (b : string) :
  b <> EmptyString -> str_or a b <> EmptyString.
Proof.
  intros Hb. unfold str_or. destruct a as [x|]; [|exact Hb].
  destruct (String.eqb_spec x EmptyString); [exact Hb|assumption].
Qed.

Lemma str_or_truthy (a : option string) (b : string) :
  truthy_str a = true -> str_or a b <> EmptyString.
Proof.
  unfold truthy_str, str_or. destruct a as [x|]; [|discriminate].
  destruct (String.eqb_spec x EmptyString); [discriminate|auto].
Qed.

(** A write of a name that is not empty. *)
Lemma rename_keeps (n : string) s0 s :
  n <> EmptyString ->
  keeps s0 s -> keeps s0 (with_ps (set_printerName n) s).
Proof.
  intros Hn H. apply (keeps_trans _ _ _ H).
  unfold keeps, nameOk, cameraOk, frameOk. cbn.
  keeps_split; auto using incl_refl.
Qed.

Lemma ensureReconnectSetup_call_keeps name s0 s :
  keeps s0 s -> keeps s0 (fst (ensureReconnectSetup_call name s)).
Proof.
  intros H. unfold ensureReconnectSetup_call.
  destruct (reconnectSetupInProgress (supervisor s)); [exact H|].
  cbv zeta. cbn [fst]. peel_keeps.
  destruct (truthy_str name) eqn:En.
  - apply rename_keeps; [now apply str_or_truthy|]. keeps_auto.
  - keeps_auto.
Qed.
#[local] Hint Resolve ensureReconnectSetup_call_keeps : keeps.

Lemma setup_resume_keeps now i a s0 s :
  keeps s0 s -> keeps s0 (setup_resume now i a s).
Proof.
  intros H. unfold setup_resume.
  destruct (nth_error (setupTasks (supervisor s)) i) as [q|] eqn:Hnth; [|exact H].
  destruct q, a; try exact H; cbv zeta;
    try (pose proof (startCameraStreaming_call_keeps now s0 s H) as Hc;
         destruct (startCameraStreaming_call now s) as [s1 fetching];
         cbn [fst] in Hc);
    keeps_auto.
Qed.
#[local] Hint Resolve setup_resume_keeps : keeps.

Lemma onReconnected_keeps name s0 s : keeps s0 s -> keeps s0 (onReconnected name s).
Proof.
  intros H. unfold onReconnected. destruct (negb _); keeps_auto.
Qed.
#[local] Hint Resolve onReconnected_keeps : keeps.

Lemma markUnreachable_keeps now s0 s : keeps s0 s -> keeps s0 (markUnreachable now s).
Proof.
  intros H. unfold markUnreachable. cbv zeta. apply broadcastStatus_keeps.
  apply camera_off_keeps; [reflexivity|reflexivity|]. keeps_auto.
Qed.
#[local] Hint Resolve markUnreachable_keeps : keeps.

Lemma reconnectOnData_keeps d s0 s : keeps s0 s -> keeps s0 (reconnectOnData d s).
Proof. intros H. unfold reconnectOnData. destruct (negb _); keeps_auto. Qed.
#[local] Hint Resolve reconnectOnData_keeps : keeps.

Lemma applyAttributes_keeps d s0 s : keeps s0 s -> keeps s0 (applyAttributes d s).
Proof.
  intros H. unfold applyAttributes. destruct (Attributes d) as [a|]; [|exact H].
  apply (keeps_trans _ _ _ H).
  unfold keeps, nameOk, cameraOk, frameOk. cbn.
  keeps_split; auto using incl_refl. apply str_or_not_empty.
Qed.
#[local] Hint Resolve applyAttributes_keeps : keeps.

Lemma applyStatus_keeps d s0 s : keeps s0 s -> keeps s0 (applyStatus d s).
Proof.
  intros H. unfold applyStatus. destruct (Status d); [|exact H].
  destruct (negb _); keeps_auto.
Qed.
#[local] Hint Resolve applyStatus_keeps : keeps.

Lemma applyTelemetry_keeps d s0 s : keeps s0 s -> keeps s0 (applyTelemetry d s).
Proof.
  intros H. unfold applyTelemetry, applyTemperatures, applyPrintInfo.
  destruct (Status d) as [st|]; [|exact H].
  destruct (PrintInfo st); keeps_auto.
Qed.
#[local] Hint Resolve applyTelemetry_keeps : keeps.

Lemma updatePrinterStatus_keeps now data s0 s :
  keeps s0 s -> keeps s0 (updatePrinterStatus now data s).
Proof.
  intros H. unfold updatePrinterStatus. destruct data as [d|]; [|keeps_auto].
  destruct (isFirstUpdate _); keeps_auto.
Qed.
#[local] Hint Resolve updatePrinterStatus_keeps : keeps.

Lemma ensureReconnectSetup_await_keeps env now name s0 s :
  keeps s0 s -> keeps s0 (ensureReconnectSetup_await env now name s).
Proof.
  intros H. unfold ensureReconnectSetup_await.
  pose proof (ensureReconnectSetup_call_keeps name s0 s H) as Hc.
  destruct (ensureReconnectSetup_call name s) as [s1 started]. cbn [fst] in Hc.
  destruct started; cbv zeta; keeps_auto.
Qed.
#[local] Hint Resolve ensureReconnectSetup_await_keeps : keeps.

Lemma connectToPrinter_keeps env now ip name s0 s :
  keeps s0 s -> keeps s0 (fst (connectToPrinter env now ip name s)).
Proof.
  intros H. unfold connectToPrinter.
  destruct (constructor_throws env); [exact H|]. cbv zeta.
  destruct (connect_rejects env); cbn [fst]; keeps_auto.
Qed.
#[local] Hint Resolve connectToPrinter_keeps : keeps.

Lemma wsConnection_keeps now id stats s0 s :
  keeps s0 s -> keeps s0 (wsConnection now id stats s).
Proof.
  intros H. unfold wsConnection, buildStatusPayload. cbv zeta.
  destruct (existsb _ _); keeps_auto.
Qed.
#[local] Hint Resolve wsConnection_keeps : keeps.

Lemma wsCleanup_keeps now id stats s0 s :
  keeps s0 s -> keeps s0 (wsCleanup now id stats s).
Proof. intros H. unfold wsCleanup. cbv zeta. keeps_auto. Qed.
#[local] Hint Resolve wsCleanup_keeps : keeps.

Lemma api_connect_keeps env now ip s0 s :
  keeps s0 s -> keeps s0 (api_connect env now ip s).
Proof.
  intros H. unfold api_connect.
  pose proof (connectToPrinter_keeps env now ip None s0 s H) as Hc.
  destruct (connectToPrinter env now ip None s) as [s1 [thrown|]]; cbn [fst] in Hc;
    keeps_auto.
Qed.
#[local] Hint Resolve api_connect_keeps : keeps.

Lemma keepsSound_refl (s : Server) : keepsSound s s.
Proof. split; auto using incl_refl. Qed.

Lemma keepsSound_trans (s1 s2 s3 : Server) :
  keepsSound s1 s2 -> keepsSound s2 s3 -> keepsSound s1 s3.
Proof.
  intros [T1 S1] [T2 S2]. split; [eapply incl_tran; eassumption|auto].
Qed.

Lemma keeps_keepsSound (s s' : Server) : keeps s s' -> keepsSound s s'.
Proof.
  intros (A & T & _ & N & C & F). split; [exact T|].
  intros (Hn & Hc & Hf & Ha). unfold sound, failoverOk. rewrite A. auto.
Qed.

Lemma scheduleAutoConnect_keepsSound now s0 s :
  keepsSound s0 s -> keepsSound s0 (scheduleAutoConnect now s).
Proof.
  intros H. apply (keepsSound_trans _ _ _ H).
  unfold scheduleAutoConnect, setTimeout. cbn [fst]. split.
  - cbn. apply incl_appl, incl_refl.
  - intros Hs. exact Hs.
Qed.

(** The writes of [autoConnect] to its fail-over state. *)
Lemma failover_write_keepsSound (st : AutoConnectState) s0 s1 s :
  keepsSound s0 s1 -> keeps s1 s ->
  (sound s1 -> failoverStateOk st) ->
  keepsSound s0 (with_autoConnectState st s).
Proof.
  intros H0 H1 Hst. apply (keepsSound_trans _ _ _ H0).
  destruct H1 as (_ & T & _ & N & C & F). split; [exact T|].
  intros Hs. pose proof (Hst Hs) as Hok. destruct Hs as (Hn & Hc & Hf & _).
  split; [|split; [|split]]; [exact (N Hn)|exact (C Hc)|exact (F Hf)|exact Hok].
Qed.

Lemma filter_no_proxy (found : list DiscoveredPrinter) :
  Forall (fun p => prn_Proxy p = false) (filter (fun p => negb (prn_Proxy p)) found).
Proof.
  apply Forall_forall. intros p Hp. apply filter_In in Hp.
  destruct Hp as [_ Hp]. now apply negb_true_iff in Hp.
Qed.

(** The rediscovery block: a run that goes on to a connection attempt has
    its cursor inside the list. *)
Lemma autoConnect_discover_keepsSound env now s :
  keepsSound s (fst (autoConnect_discover env now s))
  /\ (snd (autoConnect_discover env now s) = true ->
      (currentIdx (autoConnectState (supervisor (fst (autoConnect_discover env now s))))
       < List.length
           (printers (autoConnectState (supervisor (fst (autoConnect_discover env now s))))))%nat).
Proof.
  unfold autoConnect_discover. cbv zeta.
  destruct (_ || _) eqn:Etest.
  - destruct (discover_result env) as [found|e]; cbn [fst snd].
    + destruct (Nat.eqb (List.length (filter _ found)) 0) eqn:El; cbn [fst snd].
      * split; [|intros E; discriminate E].
        apply scheduleAutoConnect_keepsSound.
        apply (failover_write_keepsSound _ s s s (keepsSound_refl s) (keeps_refl s)).
        intros _. split; [constructor|]. split; [cbn; lia|]. left. repeat split.
      * split.
        -- apply (failover_write_keepsSound _ s s s (keepsSound_refl s) (keeps_refl s)).
           intros _. split; [apply filter_no_proxy|]. split; [cbn; lia|].
           right. cbn. apply Nat.eqb_neq in El. lia.
        -- intros _. cbn. apply Nat.eqb_neq in El. lia.
    + split; [|intros E; discriminate E].
      apply scheduleAutoConnect_keepsSound, keepsSound_refl.
  - cbn [fst snd]. split; [apply keepsSound_refl|].
    intros _. apply orb_false_iff in Etest. destruct Etest as [_ E2].
    apply Nat.leb_gt in E2. exact E2.
Qed.

Lemma autoConnect_keepsSound env now s : keepsSound s (autoConnect env now s).
Proof.
  unfold autoConnect.
  destruct (autoConnect_discover_keepsSound env now s) as [Hd Hidx].
  destruct (autoConnect_discover env now s) as [s1 attempt]. cbn [fst snd] in Hd, Hidx.
  destruct attempt; cbn [negb]; [|exact Hd]. specialize (Hidx eq_refl).
  cbv zeta.
  destruct (nth_error _ _) as [printer|];
    [|apply scheduleAutoConnect_keepsSound; exact Hd].
  match goal with
  | |- context [connectToPrinter ?e ?n ?ip ?nm s1] =>
      pose proof (connectToPrinter_keeps e n ip nm s1 s1 (keeps_refl s1)) as Hc;
      destruct (connectToPrinter e n ip nm s1) as [s2 [thrown|]]
  end; cbn [fst] in Hc.
  - (* connectToPrinter threw *)
    assert (Ha : autoConnectState (supervisor s2) = autoConnectState (supervisor s1))
      by apply Hc.
    rewrite Ha.
    destruct (Nat.leb 3 _) eqn:E3.
    + destruct (Nat.leb (List.length _) _) eqn:El.
      * apply scheduleAutoConnect_keepsSound.
        apply (failover_write_keepsSound _ s s1 s2 Hd Hc).
        intros _. split; [constructor|]. split; [cbn; lia|]. left. repeat split.
      * apply scheduleAutoConnect_keepsSound.
        apply (failover_write_keepsSound _ s s1 s2 Hd Hc).
        intros (_ & _ & _ & Hp & _). split; [exact Hp|]. split; [cbn; lia|].
        right. cbn. apply Nat.leb_gt in El. exact El.
    + apply scheduleAutoConnect_keepsSound.
      apply (failover_write_keepsSound _ s s1 s2 Hd Hc).
      intros (_ & _ & _ & Hp & _). split; [exact Hp|]. split.
      * cbn. apply Nat.leb_gt in E3. exact E3.
      * right. exact Hidx.
  - (* connectToPrinter returned *)
    pose proof (startCameraStreaming_call_keeps now s1 s2 Hc) as Hs.
    destruct (startCameraStreaming_call now s2) as [s3 fetching]. cbn [fst] in Hs.
    assert (H4 : keeps s1
      (if fetching then startCameraStreaming_fetched now (second_fetch env) s3 else s3))
      by (destruct fetching; keeps_auto).
    assert (Ha : autoConnectState (supervisor
      (if fetching then startCameraStreaming_fetched now (second_fetch env) s3 else s3))
      = autoConnectState (supervisor s1)) by apply H4.
    rewrite Ha.
    apply (failover_write_keepsSound _ s s1 _ Hd H4).
    intros (_ & _ & _ & Hp & _). split; [exact Hp|]. split; [cbn; lia|].
    right. exact Hidx.
Qed.

(** What a firing timer runs, on the state without that timer. *)
Lemma fired_action_keepsSound env now (t : Timer) s :
  keepsSound s
    (match action t with
     | CbDeferredBroadcast data => deferredBroadcast now data s
     | CbProcessExit c => with_exited (Some c) s
     | CbAutoConnect => autoConnect env now s
     | CbRetryCameraStreaming =>
         if truthy_str (cameraStreamURL (relay s))
         then fst (startCameraStreaming_call now s)
         else s
     end).
Proof.
  destruct (action t).
  - apply keeps_keepsSound. unfold deferredBroadcast, sendAll. keeps_auto.
  - apply keeps_keepsSound. keeps_auto.
  - apply autoConnect_keepsSound.
  - apply keeps_keepsSound. destruct (truthy_str _); keeps_auto.
Qed.

Lemma sound_dropTimer h s : sound s -> sound (dropTimer h s).
Proof. intros Hs. exact Hs. Qed.

Lemma fireTimer_sound env now h s : sound s -> sound (fireTimer env now h s).
Proof.
  intros Hs. unfold fireTimer. destruct (findTimer h s) as [t|]; [|exact Hs].
  cbv zeta. apply (fired_action_keepsSound env now t (dropTimer h s)).
  apply sound_dropTimer. exact Hs.
Qed.

(** A firing timer takes only itself off the list. *)
Lemma fireTimer_timers env now h s (t : Timer) :
  In t (timers (runtime s)) -> handle t <> h ->
  In t (timers (runtime (fireTimer env now h s))).
Proof.
  intros Hin Hne. unfold fireTimer. destruct (findTimer h s) as [t0|]; [|exact Hin].
  cbv zeta. apply (fired_action_keepsSound env now t0 (dropTimer h s)).
  unfold dropTimer. cbn. apply filter_In. split; [exact Hin|].
  apply negb_true_iff. now apply Nat.eqb_neq.
Qed.

(** Every event but a firing timer. *)
Lemma dispatchEvent_keepsSound (e : event) (s : Server) :
  (forall env now h, e <> EvTimer env now h) ->
  keepsSound s (dispatchEvent e s).
Proof.
  intros Hne.
  destruct e; cbn [dispatchEvent];
    try (apply autoConnect_keepsSound);
    try (now contradiction (Hne env now h));
    apply keeps_keepsSound;
    unfold socketState, api_status, buildStatusPayload, connect_call,
      connect_resolved, connect_rejected, responseBroken;
    cbv zeta; cbn [fst]; keeps_auto.
Qed.

Lemma step_sound (e : event) (s : Server) : sound s -> sound (step e s).
Proof.
  intros Hs. unfold step. destruct (exited (runtime s)); [exact Hs|].
  destruct e; try (apply dispatchEvent_keepsSound; [discriminate|exact Hs]).
  apply fireTimer_sound. exact Hs.
Qed.

Lemma sound_initialServer (interval : option Z) : sound (initialServer interval).
Proof.
  split; [discriminate|]. split; [discriminate|]. split.
  - split; [discriminate|constructor].
  - split; [constructor|]. split; [cbn; lia|]. left. repeat split.
Qed.

Lemma run_sound (es : list event) (s : Server) : sound s -> sound (run es s).
Proof.
  revert s. induction es as [|e es IH]; intros s Hs; [exact Hs|].
  unfold run in *. simpl. apply IH. apply step_sound. exact Hs.
Qed.

Lemma step_timers (e : event) (s : Server) (t : Timer) :
  In t (timers (runtime s)) ->
  In t (timers (runtime (step e s))) \/ fires (handle t) e.
Proof.
  intros Hin. unfold step. destruct (exited (runtime s)); [now left|].
  destruct e; try (left; apply dispatchEvent_keepsSound; [discriminate|exact Hin]).
  destruct (Nat.eq_dec (handle t) h) as [<-|Hne].
  - right. now exists env, now.
  - left. now apply fireTimer_timers.
Qed.

Lemma run_timers (es : list event) (s : Server) (t : Timer) :
  In t (timers (runtime s)) ->
  In t (timers (runtime (run es s))) \/ Exists (fires (handle t)) es.
Proof.
  revert s. induction es as [|e es IH]; intros s Hin; [now left|].
  unfold run in *. simpl.
  destruct (step_timers e s t Hin) as [H|H].
  - destruct (IH _ H) as [H1|H1]; [now left|right; now apply Exists_cons_tl].
  - right. now apply Exists_cons_hd.
Qed.

(** X13.  In every state a run of the event loop reaches from the start
    of the server, a camera reported as available has a stream address and
    no error: [cameraAvailable] is true only together with a non-empty
    [cameraStreamURL] and [cameraError === null]. *)
Theorem X13_available_camera_has_stream_and_no_error :
  forall (interval : option Z) (es : list event),
    let s := run es (initialServer interval) in
    cameraAvailable (printerStatus s) = true ->
    truthy_str (cameraStreamURL (relay s)) = true
    /\ cameraError (printerStatus s) = None.
Proof.
  intros interval es s Ha.
  destruct (run_sound es _ (sound_initialServer interval)) as (_ & Hc & _).
  exact (Hc Ha).
Qed.

Lemma X13_witness :
  let s := run [EvApiConnect cameraEnv 1000 "192.168.1.50"] (initialServer None) in
  truthy_str (cameraStreamURL (relay s)) = true
  /\ cameraError (printerStatus s) = None.
Proof.
  exact (X13_available_camera_has_stream_and_no_error None
           [EvApiConnect cameraEnv 1000 "192.168.1.50"] eq_refl).
Defined.

Lemma framesWrittenTo_not_empty (id : nat) (writes : list (nat * chunk)) :
  Forall (fun w => snd w <> WriteFrame []) writes ->
  Forall (fun f => f <> []) (framesWrittenTo id writes).
Proof.
  induction 1 as [|[i c] ws Hw _ IH]; cbn; [constructor|].
  destruct c; cbn; try exact IH.
  destruct (Nat.eqb i id); cbn; [|exact IH].
  constructor; [|exact IH]. intros ->. now apply Hw.
Qed.

(** X14.  No client of [/api/camera] is ever sent an empty frame, and the
    frame cache never holds one: in every state a run reaches from the start
    of the server, every frame written to a response has at least one byte,
    and so has [latestFrame] when it is set. *)
Theorem X14_no_empty_frame_is_relayed :
  forall (interval : option Z) (es : list event) (id : nat),
    let s := run es (initialServer interval) in
    Forall (fun f => f <> []) (framesWrittenTo id (cameraWrites (runtime s)))
    /\ (latestFrame (relay s) = None
        \/ exists b f, latestFrame (relay s) = Some (b :: f)).
Proof.
  intros interval es id s.
  destruct (run_sound es _ (sound_initialServer interval)) as (_ & _ & [Hl Hw] & _).
  split; [now apply framesWrittenTo_not_empty|].
  fold s in Hl. destruct (latestFrame (relay s)) as [[|b f]|].
  - now contradiction Hl.
  - right. now exists b, f.
  - now left.
Qed.

(** X15.  The printer name reported to clients is never empty: neither a
    connection, a reconnection, a status payload with or without
    [Attributes.Name], nor a reset writes an empty [printerName]. *)
Theorem X15_printer_name_is_never_empty :
  forall (interval : option Z) (es : list event),
    exists c rest,
      printerName (printerStatus (run es (initialServer interval))) = String c rest.
Proof.
  intros interval es.
  pose proof (proj1 (run_sound es _ (sound_initialServer interval))) as H.
  unfold nameOk in H.
  destruct (printerName _) as [|c rest]; [now contradiction H|].
  now exists c, rest.
Qed.

(** X16.  The fail-over state of [autoConnect] stays well formed in every
    state a run reaches from the start of the server: no proxy is among the
    candidates, fewer than three failures are counted, and the cursor points
    into the list, or the list is empty with both counters at zero. *)
Theorem X16_failover_state_is_well_formed :
  forall (interval : option Z) (es : list event),
    let st := autoConnectState (supervisor (run es (initialServer interval))) in
    Forall (fun p => prn_Proxy p = false) (printers st)
    /\ (failCount st < 3)%nat
    /\ ((printers st = [] /\ currentIdx st = 0%nat /\ failCount st = 0%nat)
        \/ (currentIdx st < List.length (printers st))%nat).
Proof.
  intros interval es st.
  exact (proj2 (proj2 (proj2 (run_sound es _ (sound_initialServer interval))))).
Qed.

(** X17.  No handler cancels a timer: a timer that is pending stays
    pending through every run of the event loop until the event that fires
    it.  In particular the exit that [handleCameraStartFailure] schedules is
    not called off by a later successful start of the relay. *)
Theorem X17_pending_timers_are_never_cancelled :
  forall (es : list event) (s : Server) (t : Timer),
    In t (timers (runtime s)) ->
    In t (timers (runtime (run es s))) \/ Exists (fires (handle t)) es.
Proof. intros es s t Hin. now apply run_timers. Qed.

Lemma X17_witness :
  In {| handle := 0; due := 2200; action := CbProcessExit 1 |}
     (timers (runtime (run [EvCameraFetched 1500 (FetchOk None)] failingRelay))).
Proof.
  destruct (X17_pending_timers_are_never_cancelled
              [EvCameraFetched 1500 (FetchOk None)] failingRelay
              {| handle := 0; due := 2200; action := CbProcessExit 1 |}
              (or_introl eq_refl)) as [H|H].
  - exact H.
  - exfalso. inversion H as [e l (env & now & E)|e l H1]; [discriminate E|].
    inversion H1.
Defined.

Lemma autoConnectTimers_schedule now s :
  autoConnectTimers (scheduleAutoConnect now s)
  = autoConnectTimers s
    ++ [ {| handle := nextTimer (runtime s); due := now + 5000; action := CbAutoConnect |} ].
Proof.
  unfold autoConnectTimers, scheduleAutoConnect, setTimeout. cbn.
  now rewrite filter_app.
Qed.

(** The rediscovery block in terms of its two tests. *)
Lemma autoConnect_discover_outcome env now s :
  let r := autoConnect_discover env now s in
  snd r = negb (needsDiscovery s && noneEligible env)
  /\ autoConnectTimers (fst r)
     = (if needsDiscovery s && noneEligible env
        then autoConnectTimers s
             ++ [ {| handle := nextTimer (runtime s); due := now + 5000;
                     action := CbAutoConnect |} ]
        else autoConnectTimers s).
Proof.
  unfold autoConnect_discover, needsDiscovery, noneEligible. cbv zeta.
  destruct (_ || _); cbn [andb negb fst snd]; [|split; reflexivity].
  destruct (discover_result env) as [found|e]; cbn [fst snd negb].
  - destruct (Nat.eqb (List.length (filter _ found)) 0); cbn [fst snd negb].
    + split; [reflexivity|]. now rewrite autoConnectTimers_schedule.
    + split; reflexivity.
  - split; [reflexivity|]. now rewrite autoConnectTimers_schedule.
Qed.

(** The connection attempt of [autoConnect]: the next run is scheduled when
    [connectToPrinter] throws and only then. *)
Lemma autoConnect_attempt_timers env now s :
  snd (autoConnect_discover env now s) = true ->
  exists h,
    autoConnectTimers (autoConnect env now s)
    = autoConnectTimers (fst (autoConnect_discover env now s))
      ++ match constructor_throws (connect_env env) with
         | Some _ => [ {| handle := h; due := now + 5000; action := CbAutoConnect |} ]
         | None => []
         end.
Proof.
  intros Hat. unfold autoConnect.
  destruct (autoConnect_discover_keepsSound env now s) as [_ Hidx].
  destruct (autoConnect_discover env now s) as [s1 attempt]. cbn [fst snd] in *.
  subst attempt. specialize (Hidx eq_refl). cbn [negb]. cbv zeta.
  destruct (nth_error _ _) as [printer|] eqn:En;
    [|apply nth_error_None in En; lia].
  match goal with
  | |- context [connectToPrinter ?e ?n ?ip ?nm s1] =>
      pose proof (connectToPrinter_keeps e n ip nm s1 s1 (keeps_refl s1)) as Hc;
      assert (Hthrow : snd (connectToPrinter e n ip nm s1) = constructor_throws e)
        by (unfold connectToPrinter; destruct (constructor_throws e);
            [reflexivity|destruct (connect_rejects e); reflexivity]);
      destruct (connectToPrinter e n ip nm s1) as [s2 [thrown|]]
  end; cbn [fst snd] in Hc, Hthrow; rewrite <- Hthrow.
  - assert (Ht : autoConnectTimers s2 = autoConnectTimers s1) by apply Hc.
    exists (nextTimer (runtime s2)). rewrite <- Ht.
    destruct (Nat.leb 3 _); [destruct (Nat.leb (List.length _) _)|];
      rewrite autoConnectTimers_schedule; reflexivity.
  - exists 0%nat. rewrite app_nil_r.
    pose proof (startCameraStreaming_call_keeps now s1 s2 Hc) as Hs.
    destruct (startCameraStreaming_call now s2) as [s3 fetching]. cbn [fst] in Hs.
    assert (H4 : keeps s1
      (if fetching then startCameraStreaming_fetched now (second_fetch env) s3 else s3))
      by (destruct fetching; keeps_auto).
    destruct H4 as (_ & _ & Ht & _). exact Ht.
Qed.

(** X18.  [autoConnect] schedules its next run exactly when it ends in a
    failure it noticed: when the rediscovery it needed rejected or found no
    printer that is not a proxy, or when [connectToPrinter] threw.  It then
    schedules one run, five seconds later.  After an attempt from which
    [connectToPrinter] returned (also one whose [connect()] rejection it
    caught itself), no further run of [autoConnect] is scheduled. *)
Theorem X18_autoConnect_reschedules_only_after_failure :
  forall (env : AutoConnectEnv) (now : Z) (s : Server),
    (autoConnectFails env s = true ->
     exists h,
       autoConnectTimers (autoConnect env now s)
       = autoConnectTimers s
         ++ [ {| handle := h; due := now + 5000; action := CbAutoConnect |} ])
    /\ (autoConnectFails env s = false ->
        autoConnectTimers (autoConnect env now s) = autoConnectTimers s).
Proof.
  intros env now s. unfold autoConnectFails.
  destruct (autoConnect_discover_outcome env now s) as [Hsnd Htim].
  pose proof (autoConnect_attempt_timers env now s) as Hat.
  destruct (needsDiscovery s && noneEligible env) eqn:Ed; cbn [negb orb] in *.
  - (* no attempt *)
    split; [|intros E; discriminate E]. intros _.
    exists (nextTimer (runtime s)).
    unfold autoConnect.
    destruct (autoConnect_discover env now s) as [s1 attempt]. cbn [fst snd] in *.
    subst attempt. cbn [negb]. exact Htim.
  - destruct (Hat Hsnd) as [h Hh]. rewrite Htim in Hh.
    destruct (constructor_throws (connect_env env)).
    + split; [|intros E; discriminate E]. intros _. now exists h.
    + split; [intros E; discriminate E|]. intros _. now rewrite app_nil_r in Hh.
Qed.

(** ** New web sockets *)

Lemma sentTo_app id a b : sentTo id (a ++ b) = sentTo id a ++ sentTo id b.
Proof. unfold sentTo. now rewrite filter_app, map_app. Qed.

Lemma sentTo_others id (m : message) (cs : list WebClient) :
  existsb (fun c => Nat.eqb (ws_id c) id) cs = false ->
  sentTo id (map (fun c => (ws_id c, m)) cs) = [].
Proof.
  induction cs as [|c cs IH]; [reflexivity|]. cbn [existsb].
  intros H. apply orb_false_iff in H. destruct H as [Hc Hcs].
  unfold sentTo in *. cbn. rewrite Hc. now apply IH.
Qed.

Lemma existsb_filter_false {A} (p q : A -> bool) (l : list A) :
  existsb p l = false -> existsb p (filter q l) = false.
Proof.
  induction l as [|x l IH]; [reflexivity|]. cbn.
  intros H. apply orb_false_iff in H. destruct H as [Hx Hl].
  destruct (q x); cbn; [rewrite Hx|]; now apply IH.
Qed.

(** What a status broadcast hands to [send]. *)
Lemma broadcast_sent (now : Z) (msg : message) (s : Server) :
  msg_type msg <> "server_restarting" ->
  sent (runtime (broadcastToClients now msg s))
  = sent (runtime s)
    ++ (if WS_UPDATE_INTERVAL s <=? now - lastBroadcastTime (gate s)
        then map (fun c => (ws_id c, msg)) (openClients s)
        else []).
Proof.
  intros Hm. unfold broadcastToClients. cbv zeta.
  destruct (String.eqb_spec (msg_type msg) "server_restarting") as [E|_]; [contradiction|].
  destruct (WS_UPDATE_INTERVAL s <=? now - lastBroadcastTime (gate s)); [reflexivity|].
  destruct (pendingBroadcast (gate s)); cbn; now rewrite app_nil_r.
Qed.

(** X19.  A socket that connects is sent the current status at once,
    whatever the throttle says: after [wss.on('connection')] for a socket
    not yet in [webClients], the frames handed to [send] grew, and those for
    the new socket are the status with the user statistics just taken, once
    when the broadcast of the handler was throttled, and twice (the
    broadcast and the direct send) when it went out. *)
Theorem X19_new_socket_gets_the_status_at_once :
  forall (now : Z) (id : nat) (statsAfter : UserSnapshot) (s : Server),
    newSocket id s ->
    let s' := wsConnection now id statsAfter s in
    let m := StatusMessage (set_users (Some statsAfter) (printerStatus s))
                           (temperatures s) statsAfter in
    exists ext,
      sent (runtime s') = sent (runtime s) ++ ext
      /\ sentTo id ext
         = (if WS_UPDATE_INTERVAL s <=? now - lastBroadcastTime (gate s)
            then [m; m] else [m]).
Proof.
  intros now id statsAfter s Hnew s' m. unfold newSocket in Hnew.
  unfold s', wsConnection. rewrite Hnew. cbv zeta.
  unfold updateUserStatsAndBroadcast, broadcastStatus.
  set (s2 := with_ps (set_users (Some (userStats _))) _).
  assert (Hb : buildStatusPayload s2 = (s2, m)) by reflexivity.
  rewrite Hb.
  pose proof (broadcast_sent now m s2 ltac:(discriminate)) as Hsent.
  destruct (broadcastToClients_frame now m s2) as (_ & Hp & Ht & Hu & _).
  set (s3 := broadcastToClients now m s2) in *.
  assert (Hb3 : buildStatusPayload s3
                = (with_ps (set_users (Some statsAfter)) s3, m)).
  { unfold buildStatusPayload. cbv zeta. cbn [with_ps printerStatus set_printerStatus
      temperatures userStats]. rewrite Hp, Ht, Hu. reflexivity. }
  rewrite Hb3. cbn [runtime sent with_sent with_ps set_printerStatus set_runtime set_sent].
  rewrite Hsent.
  change (WS_UPDATE_INTERVAL s2) with (WS_UPDATE_INTERVAL s).
  change (lastBroadcastTime (gate s2)) with (lastBroadcastTime (gate s)).
  change (sent (runtime s2)) with (sent (runtime s)).
  change (openClients s2)
    with (filter (fun c => Z.eqb (readyState c) OPEN)
            (webClients s ++ [ {| ws_id := id; readyState := OPEN |} ])).
  eexists. split; [rewrite <- app_assoc; reflexivity|].
  rewrite sentTo_app.
  destruct (WS_UPDATE_INTERVAL s <=? now - lastBroadcastTime (gate s)).
  - rewrite filter_app, map_app, sentTo_app.
    rewrite sentTo_others by (now apply existsb_filter_false).
    unfold sentTo. cbn. rewrite Nat.eqb_refl. reflexivity.
  - unfold sentTo. cbn. rewrite Nat.eqb_refl. reflexivity.
Qed.

Lemma X19_witness :
  exists ext,
    sent (runtime (wsConnection 9000 8 (userStats oneClientServer) oneClientServer))
    = sent (runtime oneClientServer) ++ ext
    /\ List.length (sentTo 8 ext) = 2%nat.
Proof.
  destruct (X19_new_socket_gets_the_status_at_once 9000 8 (userStats oneClientServer)
              oneClientServer eq_refl) as (ext & Hs & Ht).
  exists ext. split; [exact Hs|]. rewrite Ht. reflexivity.
Defined.

(** ** Connections and reconnections *)

Lemma sameLink_refl (s : Server) : sameLink s s.
Proof. reflexivity. Qed.

Lemma sameLink_trans (s1 s2 s3 : Server) :
  sameLink s1 s2 -> sameLink s2 s3 -> sameLink s1 s3.
Proof. unfold sameLink. intros H1 H2. now rewrite H2. Qed.

Create HintDb link.

Ltac is_link_setter f :=
  match f with
  | with_ps _ => idtac
  | set_userStats _ => idtac
  | set_temperatures _ => idtac
  | set_webClients _ => idtac
  | with_lastBroadcastTime _ => idtac
  | with_pendingBroadcast _ => idtac
  | with_cameraStreamURL _ => idtac
  | with_cameraSubscribers _ => idtac
  | with_latestFrame _ => idtac
  | with_cameraStartFailure _ => idtac
  | with_streams _ => idtac
  | with_timers _ => idtac
  | with_nextTimer _ => idtac
  | with_sent _ => idtac
  | with_cameraWrites _ => idtac
  end.

Ltac peel_link :=
  match goal with
  | |- sameLink ?s0 (?f ?s) =>
      is_link_setter f;
      apply (sameLink_trans s0 s (f s)); [| reflexivity]
  end.

#[local] Hint Resolve sameLink_refl : link.
#[local] Hint Extern 4 (sameLink _ (_ _)) => peel_link : link.

Ltac link_auto := auto 30 with link nocore.

Lemma setTimeout_link cb delay now s0 s :
  sameLink s0 s -> sameLink s0 (fst (setTimeout cb delay now s)).
Proof. intros H. apply (sameLink_trans _ _ _ H). reflexivity. Qed.
#[local] Hint Resolve setTimeout_link : link.

Lemma broadcastToClients_link now msg s0 s :
  sameLink s0 s -> sameLink s0 (broadcastToClients now msg s).
Proof.
  intros H. apply (sameLink_trans _ _ _ H). unfold sameLink, linkView.
  destruct (broadcastToClients_frame now msg s) as (_ & Hp & _ & _ & _ & _ & Hs).
  now rewrite Hp, Hs.
Qed.
#[local] Hint Resolve broadcastToClients_link : link.

Lemma broadcastStatus_link now s0 s : sameLink s0 s -> sameLink s0 (broadcastStatus now s).
Proof.
  intros H. unfold broadcastStatus, buildStatusPayload. cbv zeta. link_auto.
Qed.
#[local] Hint Resolve broadcastStatus_link : link.

Lemma resetCameraFailureTracker_link s0 s :
  sameLink s0 s -> sameLink s0 (resetCameraFailureTracker s).
Proof. intros H. unfold resetCameraFailureTracker. link_auto. Qed.
#[local] Hint Resolve resetCameraFailureTracker_link : link.

Lemma handleCameraStartFailure_link now e s0 s :
  sameLink s0 s -> sameLink s0 (handleCameraStartFailure now e s).
Proof.
  intros H. unfold handleCameraStartFailure. cbv zeta.
  match goal with |- context [if ?c then _ else _] => destruct c end; link_auto.
Qed.
#[local] Hint Resolve handleCameraStartFailure_link : link.

Lemma startCameraStreaming_call_link now s0 s :
  sameLink s0 s -> sameLink s0 (fst (startCameraStreaming_call now s)).
Proof.
  intros H. unfold startCameraStreaming_call.
  destruct (truthy_str _); cbv zeta; cbn [fst]; link_auto.
Qed.
#[local] Hint Resolve startCameraStreaming_call_link : link.

Lemma startCameraStreaming_fetched_link now r s0 s :
  sameLink s0 s -> sameLink s0 (startCameraStreaming_fetched now r s).
Proof.
  intros H. unfold startCameraStreaming_fetched, startCameraStreaming_failed.
  destruct r; cbv zeta; link_auto.
Qed.
#[local] Hint Resolve startCameraStreaming_fetched_link : link.

Lemma setupCameraURL_answered_link r s0 s :
  sameLink s0 s -> sameLink s0 (setupCameraURL_answered r s).
Proof.
  intros H. unfold setupCameraURL_answered.
  destruct r as [e|[cd|]]; [| |exact H]; split_tests; cbv zeta; link_auto.
Qed.
#[local] Hint Resolve setupCameraURL_answered_link : link.

Lemma setCustomState_link info s0 s : sameLink s0 s -> sameLink s0 (setCustomState info s).
Proof.
  intros H. unfold setCustomState.
  destruct info as [d|]; [|assumption].
  destruct (Status d); [|assumption]. cbv zeta. link_auto.
Qed.
#[local] Hint Resolve setCustomState_link : link.

Lemma applyStatus_link d s0 s : sameLink s0 s -> sameLink s0 (applyStatus d s).
Proof.
  intros H. unfold applyStatus. destruct (Status d); [|exact H].
  destruct (negb _); link_auto.
Qed.
#[local] Hint Resolve applyStatus_link : link.

Lemma applyTelemetry_link d s0 s : sameLink s0 s -> sameLink s0 (applyTelemetry d s).
Proof.
  intros H. unfold applyTelemetry, applyTemperatures, applyPrintInfo.
  destruct (Status d) as [st|]; [|exact H].
  destruct (PrintInfo st); link_auto.
Qed.
#[local] Hint Resolve applyTelemetry_link : link.

(** [a || (a || b)] and [(a || b) || b] on strings. *)
Lemma str_or_absorb (a : option string) (b : string) :
  str_or a (str_or a b) = str_or a b.
Proof.
  unfold str_or. destruct a as [x|]; [|reflexivity].
  destruct (String.eqb x EmptyString); reflexivity.
Qed.

(** The name after the reconnect trigger and the [Attributes] block of
    [updatePrinterStatus]. *)
Lemma name_after_attributes (d : Payload) (s : Server) :
  connected (printerStatus s) = false ->
  printerName (printerStatus (applyAttributes d (reconnectOnData d s)))
  = str_or (attributeName d) (printerName (printerStatus s)).
Proof.
  intros Hc. unfold reconnectOnData, applyAttributes, attributeName,
    ensureReconnectSetup_call. rewrite Hc. cbn [negb].
  destruct (reconnectSetupInProgress (supervisor s)); cbv zeta; cbn [fst].
  - destruct (Attributes d) as [a|]; [reflexivity|].
    cbn [str_or]. reflexivity.
  - destruct (Attributes d) as [a|].
    + remember (str_or (Name a) (printerName (printerStatus s))) as n eqn:En.
      cbn [truthy_str].
      destruct (String.eqb n EmptyString) eqn:E; cbn [negb]; cbn.
      * exact (eq_sym En).
      * rewrite E. rewrite En. apply str_or_absorb.
    + cbn [truthy_str str_or].
      destruct (String.eqb (printerName (printerStatus s)) EmptyString) eqn:E;
        cbn [negb]; cbn; rewrite ?E; reflexivity.
Qed.

(** X20.  Data that arrives while the printer is marked disconnected is
    treated as a reconnection.  The status update takes the name of the
    payload, or keeps the old one.  When no post-connect setup is running,
    the same call marks the printer connected and starts one setup; when one
    is running, the guard stops the new setup and the printer stays marked
    disconnected although its data is applied. *)
Theorem X20_data_after_disconnect_reconnects :
  forall (now : Z) (d : Payload) (s : Server),
    connected (printerStatus s) = false ->
    let s' := updatePrinterStatus now (Some d) s in
    printerName (printerStatus s')
      = str_or (attributeName d) (printerName (printerStatus s))
    /\ (reconnectSetupInProgress (supervisor s) = false ->
        connected (printerStatus s') = true
        /\ reconnectSetupInProgress (supervisor s') = true
        /\ setupTasks (supervisor s') = setupTasks (supervisor s) ++ [firstPhase s])
    /\ (reconnectSetupInProgress (supervisor s) = true ->
        connected (printerStatus s') = false
        /\ guardOf s' = guardOf s).
Proof.
  intros now d s Hc s'.
  set (s1 := reconnectOnData d s).
  set (s3 := with_ps (set_lastUpdate (Some now))
               (if isFirstUpdate (supervisor s1) then with_isFirstUpdate false s1 else s1)).
  set (s4 := applyAttributes d s3).
  assert (Htail : sameLink s4 s').
  { unfold s', updatePrinterStatus. cbv zeta. fold s1. fold s3. fold s4. link_auto. }
  unfold sameLink, linkView in Htail. injection Htail as Hcon Hname Hsup.
  assert (Hname4 : printerName (printerStatus s4)
                   = str_or (attributeName d) (printerName (printerStatus s))).
  { rewrite <- (name_after_attributes d s Hc). fold s1.
    unfold s4, s3, applyAttributes.
    destruct (Attributes d); destruct (isFirstUpdate (supervisor s1)); reflexivity. }
  assert (Hcon4 : connected (printerStatus s4) = connected (printerStatus s1)).
  { unfold s4, s3, applyAttributes.
    destruct (Attributes d); destruct (isFirstUpdate (supervisor s1)); reflexivity. }
  assert (Hguard4 : guardOf s4 = guardOf s1).
  { unfold s4, s3, applyAttributes.
    destruct (Attributes d); destruct (isFirstUpdate (supervisor s1)); reflexivity. }
  unfold guardOf in *. rewrite Hsup, Hcon, Hname. injection Hguard4 as Hflag Htasks.
  rewrite Hname4, Hcon4, Hflag, Htasks.
  split; [reflexivity|].
  unfold s1, reconnectOnData, ensureReconnectSetup_call, firstPhase. rewrite Hc.
  cbn [negb]. split; intros Hg; rewrite Hg; cbv zeta; cbn [fst].
  - destruct (truthy_str _); repeat split; reflexivity.
  - rewrite Hc. split; [reflexivity|]. now rewrite Hg.
Qed.

Lemma X20_witness :
  connected (printerStatus
    (updatePrinterStatus 5000 (Some printingPayload) (initialServer None))) = true.
Proof.
  exact (proj1 (proj1 (proj2 (X20_data_after_disconnect_reconnects 5000
           printingPayload (initialServer None) eq_refl)) eq_refl)).
Defined.

Lemma nth_error_last {A} (l : list A) (x : A) :
  nth_error (l ++ [x]) (List.length l) = Some x.
Proof. rewrite nth_error_app2 by lia. now rewrite Nat.sub_diag. Qed.

Lemma replaceNth_last {A} (l : list A) (x y : A) :
  replaceNth (List.length l) y (l ++ [x]) = l ++ [y].
Proof. induction l as [|h l IH]; cbn; [reflexivity|now rewrite IH]. Qed.

Lemma removeNth_last {A} (l : list A) (x : A) :
  removeNth (List.length l) (l ++ [x]) = l.
Proof. induction l as [|h l IH]; cbn; [reflexivity|now rewrite IH]. Qed.

(** A handler that leaves the link alone, followed by the step of the setup
    to its next phase. *)
Lemma setupAt_next core before q q' (s s1 : Server) :
  setupAt core before q s ->
  sameLink s s1 ->
  setupAt core before q'
    (with_setupTasks (replaceNth (List.length before) q' (setupTasks (supervisor s1))) s1).
Proof.
  intros [Hcore Htasks] Hl. unfold sameLink, linkView in Hl.
  injection Hl as Hc Hn Hs. unfold setupAt, coreView in *. cbn.
  rewrite Hc, Hn, Hs, Htasks. split; [exact Hcore|apply replaceNth_last].
Qed.

Lemma resume_cameraURL now r core before s :
  setupAt core before AwaitCameraURLResponse s ->
  setupAt core before AwaitSetupCameraURL
    (setup_resume now (List.length before) (GotCameraURL r) s).
Proof.
  intros H. unfold setup_resume. rewrite (proj2 H), nth_error_last. cbv zeta.
  apply (setupAt_next core before AwaitCameraURLResponse _ s); [exact H|link_auto].
Qed.

Lemma resume_startCamera now core before s :
  setupAt core before AwaitSetupCameraURL s ->
  setupAt core before AwaitFetch (setup_resume now (List.length before) Resumed s)
  \/ setupAt core before AwaitStartCameraStreaming
       (setup_resume now (List.length before) Resumed s).
Proof.
  intros H. unfold setup_resume. rewrite (proj2 H), nth_error_last.
  pose proof (startCameraStreaming_call_link now s s (sameLink_refl s)) as Hl.
  destruct (startCameraStreaming_call now s) as [s1 fetching]. cbn [fst] in Hl.
  destruct fetching; [left|right];
    apply (setupAt_next core before AwaitSetupCameraURL _ s); assumption.
Qed.

Lemma resume_fetch now r core before s :
  setupAt core before AwaitFetch s ->
  setupAt core before AwaitStartCameraStreaming
    (setup_resume now (List.length before) (GotFetch r) s).
Proof.
  intros H. unfold setup_resume. rewrite (proj2 H), nth_error_last. cbv zeta.
  apply (setupAt_next core before AwaitFetch _ s); [exact H|link_auto].
Qed.

Lemma resume_fetch_skipped now r core before s :
  setupAt core before AwaitStartCameraStreaming s ->
  setup_resume now (List.length before) (GotFetch r) s = s.
Proof.
  intros H. unfold setup_resume. now rewrite (proj2 H), nth_error_last.
Qed.

Lemma resume_broadcast now core before s :
  setupAt core before AwaitStartCameraStreaming s ->
  setupAt core before AwaitOnPrinterConnected
    (setup_resume now (List.length before) Resumed s).
Proof.
  intros H. unfold setup_resume. rewrite (proj2 H), nth_error_last. cbv zeta.
  apply (setupAt_next core before AwaitStartCameraStreaming _ s); [exact H|link_auto].
Qed.

(** The tail of [ensureReconnectSetup]: the flags are cleared and the setup
    leaves the list. *)
Lemma resume_finish now c n pc flag needed first ac before s :
  setupAt (c, n, pc, flag, needed, first, ac) before AwaitOnPrinterConnected s ->
  let s' := setup_resume now (List.length before) Resumed s in
  coreView s' = (c, n, pc, false, false, first, ac)
  /\ setupTasks (supervisor s') = before.
Proof.
  intros [Hcore Htasks]. unfold setup_resume. rewrite Htasks, nth_error_last.
  cbv zeta. unfold coreView in *. cbn. rewrite Htasks, removeNth_last.
  injection Hcore as -> -> -> _ _ -> ->. split; reflexivity.
Qed.

(** [await ensureReconnectSetup(name)] when the guard is free. *)
Lemma ensureReconnectSetup_await_free env now name s :
  reconnectSetupInProgress (supervisor s) = false ->
  let s' := ensureReconnectSetup_await env now name s in
  coreView s'
  = (true, str_or name (printerName (printerStatus s)), printerClient (supervisor s),
     false, false, isFirstUpdate (supervisor s), autoConnectState (supervisor s))
  /\ setupTasks (supervisor s') = setupTasks (supervisor s).
Proof.
  intros Hg. unfold ensureReconnectSetup_await.
  set (before := setupTasks (supervisor s)).
  set (core := (true, str_or name (printerName (printerStatus s)),
                printerClient (supervisor s), true,
                reconnectSetupNeeded (supervisor s), isFirstUpdate (supervisor s),
                autoConnectState (supervisor s))).
  assert (Hcall : snd (ensureReconnectSetup_call name s) = true
                  /\ exists q, (q = AwaitCameraURLResponse \/ q = AwaitSetupCameraURL)
                       /\ setupAt core before q (fst (ensureReconnectSetup_call name s))).
  { unfold ensureReconnectSetup_call. rewrite Hg. cbv zeta. cbn [fst snd].
    split; [reflexivity|].
    exists (match printerClient (supervisor s) with
            | None => AwaitSetupCameraURL
            | Some _ => AwaitCameraURLResponse
            end).
    split; [destruct (printerClient (supervisor s)); auto|].
    unfold setupAt, coreView, core, before, truthy_str, str_or.
    destruct name as [n|]; [destruct (String.eqb n EmptyString)|];
      cbn; split; reflexivity. }
  destruct (ensureReconnectSetup_call name s) as [s1 started].
  cbn [fst snd] in Hcall. destruct Hcall as (-> & q & Hq & H1).
  cbv zeta.
  assert (Hi : Nat.pred (List.length (setupTasks (supervisor s1))) = List.length before).
  { rewrite (proj2 H1), length_app. cbn. lia. }
  rewrite Hi.
  set (s2 := setup_resume now (List.length before) (GotCameraURL (cameraURL_result env)) s1).
  assert (H2 : setupAt core before AwaitSetupCameraURL s2).
  { destruct Hq as [-> | ->].
    - now apply resume_cameraURL.
    - unfold s2, setup_resume. rewrite (proj2 H1), nth_error_last. exact H1. }
  set (s3 := setup_resume now (List.length before) Resumed s2).
  set (s4 := setup_resume now (List.length before) (GotFetch (setup_fetch env)) s3).
  assert (H4 : setupAt core before AwaitStartCameraStreaming s4).
  { destruct (resume_startCamera now core before s2 H2) as [H3|H3]; fold s3 in H3.
    - now apply resume_fetch.
    - unfold s4. now rewrite (resume_fetch_skipped now _ core before s3 H3). }
  pose proof (resume_broadcast now core before s4 H4) as H5.
  exact (resume_finish now _ _ _ _ _ _ _ before _ H5).
Qed.

(** *** Steps that do not end the process *)

Lemma sameExit_refl (s : Server) : sameExit s s.
Proof. reflexivity. Qed.

Lemma sameExit_trans (s1 s2 s3 : Server) :
  sameExit s1 s2 -> sameExit s2 s3 -> sameExit s1 s3.
Proof. unfold sameExit. intros H1 H2. now rewrite H2. Qed.

Create HintDb alive.

Ltac is_alive_setter f :=
  match f with
  | with_ps _ => idtac
  | set_printerStatus _ => idtac
  | set_userStats _ => idtac
  | set_temperatures _ => idtac
  | set_webClients _ => idtac
  | with_lastBroadcastTime _ => idtac
  | with_pendingBroadcast _ => idtac
  | with_cameraStreamURL _ => idtac
  | with_cameraSubscribers _ => idtac
  | with_latestFrame _ => idtac
  | with_cameraStartFailure _ => idtac
  | with_streams _ => idtac
  | with_printerClient _ => idtac
  | with_reconnectSetupInProgress _ => idtac
  | with_reconnectSetupNeeded _ => idtac
  | with_setupTasks _ => idtac
  | with_timers _ => idtac
  | with_nextTimer _ => idtac
  | with_sent _ => idtac
  | with_cameraWrites _ => idtac
  end.

Ltac peel_alive :=
  match goal with
  | |- sameExit ?s0 (?f ?s) =>
      is_alive_setter f;
      apply (sameExit_trans s0 s (f s)); [| reflexivity]
  end.

#[local] Hint Resolve sameExit_refl : alive.
#[local] Hint Extern 4 (sameExit _ (_ _)) => peel_alive : alive.

Ltac alive_auto := auto 30 with alive nocore.

Lemma setTimeout_alive cb delay now s0 s :
  sameExit s0 s -> sameExit s0 (fst (setTimeout cb delay now s)).
Proof. intros H. apply (sameExit_trans _ _ _ H). reflexivity. Qed.
#[local] Hint Resolve setTimeout_alive : alive.

Lemma broadcastToClients_alive now msg s0 s :
  sameExit s0 s -> sameExit s0 (broadcastToClients now msg s).
Proof.
  intros H. apply (sameExit_trans _ _ _ H).
  apply (broadcastToClients_runtime now msg s).
Qed.
#[local] Hint Resolve broadcastToClients_alive : alive.

Lemma broadcastStatus_alive now s0 s :
  sameExit s0 s -> sameExit s0 (broadcastStatus now s).
Proof.
  intros H. unfold broadcastStatus, buildStatusPayload. cbv zeta. alive_auto.
Qed.
#[local] Hint Resolve broadcastStatus_alive : alive.

Lemma resetCameraFailureTracker_alive s0 s :
  sameExit s0 s -> sameExit s0 (resetCameraFailureTracker s).
Proof. intros H. unfold resetCameraFailureTracker. alive_auto. Qed.
#[local] Hint Resolve resetCameraFailureTracker_alive : alive.

Lemma handleCameraStartFailure_alive now e s0 s :
  sameExit s0 s -> sameExit s0 (handleCameraStartFailure now e s).
Proof.
  intros H. unfold handleCameraStartFailure. cbv zeta.
  match goal with |- context [if ?c then _ else _] => destruct c end; alive_auto.
Qed.
#[local] Hint Resolve handleCameraStartFailure_alive : alive.

Lemma startCameraStreaming_call_alive now s0 s :
  sameExit s0 s -> sameExit s0 (fst (startCameraStreaming_call now s)).
Proof.
  intros H. unfold startCameraStreaming_call.
  destruct (truthy_str _); cbv zeta; cbn [fst]; alive_auto.
Qed.
#[local] Hint Resolve startCameraStreaming_call_alive : alive.

Lemma startCameraStreaming_fetched_alive now r s0 s :
  sameExit s0 s -> sameExit s0 (startCameraStreaming_fetched now r s).
Proof.
  intros H. unfold startCameraStreaming_fetched, startCameraStreaming_failed.
  destruct r; cbv zeta; alive_auto.
Qed.
#[local] Hint Resolve startCameraStreaming_fetched_alive : alive.

Lemma setupCameraURL_answered_alive r s0 s :
  sameExit s0 s -> sameExit s0 (setupCameraURL_answered r s).
Proof.
  intros H. unfold setupCameraURL_answered.
  destruct r as [e|[cd|]]; [| |exact H]; split_tests; cbv zeta; alive_auto.
Qed.
#[local] Hint Resolve setupCameraURL_answered_alive : alive.

Lemma setDisconnectedStatus_alive now s0 s :
  sameExit s0 s -> sameExit s0 (setDisconnectedStatus now s).
Proof.
  intros H. unfold setDisconnectedStatus.
  match goal with |- context [if ?c then _ else _] => destruct c end;
    cbv zeta; alive_auto.
Qed.
#[local] Hint Resolve setDisconnectedStatus_alive : alive.

Lemma ensureReconnectSetup_call_alive name s0 s :
  sameExit s0 s -> sameExit s0 (fst (ensureReconnectSetup_call name s)).
Proof.
  intros H. unfold ensureReconnectSetup_call.
  destruct (reconnectSetupInProgress (supervisor s)); [exact H|].
  cbv zeta. cbn [fst]. destruct (truthy_str name); alive_auto.
Qed.
#[local] Hint Resolve ensureReconnectSetup_call_alive : alive.

Lemma setup_resume_alive now i a s0 s :
  sameExit s0 s -> sameExit s0 (setup_resume now i a s).
Proof.
  intros H. unfold setup_resume.
  destruct (nth_error (setupTasks (supervisor s)) i) as [[| | | |]|];
    destruct a; try exact H; cbv zeta; try solve [alive_auto].
  pose proof (startCameraStreaming_call_alive now s0 s H) as Hc.
  destruct (startCameraStreaming_call now s) as [s1 fetching]. cbn [fst] in Hc.
  alive_auto.
Qed.
#[local] Hint Resolve setup_resume_alive : alive.

Lemma resumeAll_alive now i answers s0 s :
  sameExit s0 s -> sameExit s0 (resumeAll now i answers s).
Proof.
  revert s. induction answers as [|a answers IH]; intros s H; [exact H|].
  apply IH. now apply setup_resume_alive.
Qed.

(** While the process lives, the turns of a setup are its resumptions. *)
Lemma run_setupResumes now i answers s :
  exited (runtime s) = None ->
  run (map (EvSetupResume now i) answers) s = resumeAll now i answers s.
Proof.
  revert s. induction answers as [|a answers IH]; intros s H; [reflexivity|].
  cbn [map]. unfold run, resumeAll in *. cbn [fold_left]. unfold step at 2.
  rewrite H. cbn [dispatchEvent]. apply IH.
  rewrite <- H. apply (setup_resume_alive now i a s s (sameExit_refl s)).
Qed.

Lemma run_app (es1 es2 : list event) (s : Server) :
  run (es1 ++ es2) s = run es2 (run es1 s).
Proof. unfold run. apply fold_left_app. Qed.

Lemma resumeAll_app now i (a1 a2 : list Awaited) (s : Server) :
  resumeAll now i (a1 ++ a2) s = resumeAll now i a2 (resumeAll now i a1 s).
Proof. unfold resumeAll. apply fold_left_app. Qed.

(** The call and the continuation after [connect()] resolved, with the guard
    free: the printer is marked connected and the setup of this call is the
    last of [setupTasks], waiting for the camera request. *)
Lemma connect_starts_setup ip name s :
  reconnectSetupInProgress (supervisor s) = false ->
  setupAt (true, str_or name (printerName (printerStatus s)), Some ip, true,
           reconnectSetupNeeded (supervisor s), isFirstUpdate (supervisor s),
           autoConnectState (supervisor s))
    (setupTasks (supervisor s)) AwaitCameraURLResponse
    (connect_resolved name (connect_call ip s)).
Proof.
  intros Hg. unfold connect_resolved, connect_call, ensureReconnectSetup_call.
  cbn [supervisor with_printerClient set_supervisor reconnectSetupInProgress
       set_printerClient]. rewrite Hg. cbv zeta. cbn [fst].
  unfold setupAt, coreView, truthy_str, str_or.
  destruct name as [n|]; [destruct (String.eqb n EmptyString)|];
    cbn; split; reflexivity.
Qed.

(** One turn of the setup takes it from a phase it can be in after [k] turns
    to one it can be in after [k + 1]. *)
Lemma setup_progress env now core before k q s :
  (k < 4)%nat ->
  phaseAfter k q ->
  setupAt core before q s ->
  exists q',
    phaseAfter (S k) q'
    /\ setupAt core before q'
         (setup_resume now (List.length before) (nth k (setupAnswers env) Resumed) s).
Proof.
  intros Hk Hq H.
  destruct k as [|[|[|[|k]]]]; [| | | |lia]; cbn [phaseAfter nth setupAnswers] in *.
  - subst q. eexists. split; [reflexivity|]. now apply resume_cameraURL.
  - subst q. destruct (resume_startCamera now core before s H) as [H'|H'];
      eexists; (split; [|exact H']); [left|right]; reflexivity.
  - destruct Hq as [-> | ->].
    + eexists. split; [reflexivity|]. now apply resume_fetch.
    + eexists. split; [reflexivity|].
      now rewrite (resume_fetch_skipped now _ core before s H).
  - subst q. eexists. split; [reflexivity|]. now apply resume_broadcast.
Qed.

Lemma skipn_nth {A} (k : nat) (l : list A) (d : A) :
  (k < List.length l)%nat -> skipn k l = nth k l d :: skipn (S k) l.
Proof.
  revert l. induction k as [|k IH]; intros [|x l] H; cbn in *; try lia.
  - reflexivity.
  - apply IH. lia.
Qed.

Lemma firstn_nth {A} (k : nat) (l : list A) (d : A) :
  (k < List.length l)%nat -> firstn (S k) l = firstn k l ++ [nth k l d].
Proof.
  revert l. induction k as [|k IH]; intros [|x l] H; cbn in *; try lia.
  - reflexivity.
  - f_equal. apply IH. lia.
Qed.

(** From any of its phases the setup runs to its end on the remaining
    answers: the guard and [reconnectSetupNeeded] are cleared, the setup
    leaves [setupTasks], and the rest of the supervisor, the connection flag
    and the name are as they were in that phase. *)
Lemma setup_completes env now c n pc flag needed first ac before :
  forall (m k : nat) (q : SetupPhase) (s : Server),
    (k + m = 4)%nat ->
    phaseAfter k q ->
    setupAt (c, n, pc, flag, needed, first, ac) before q s ->
    let s' := resumeAll now (List.length before) (skipn k (setupAnswers env)) s in
    coreView s' = (c, n, pc, false, false, first, ac)
    /\ setupTasks (supervisor s') = before.
Proof.
  induction m as [|m IH]; intros k q s Hk Hq H.
  - assert (k = 4%nat) by lia. subst k. cbn [phaseAfter] in Hq. subst q.
    exact (resume_finish now c n pc flag needed first ac before s H).
  - rewrite (skipn_nth k (setupAnswers env) Resumed) by (cbn; lia).
    destruct (setup_progress env now _ before k q s ltac:(lia) Hq H) as (q' & Hq' & H').
    unfold resumeAll. cbn [fold_left].
    apply (IH (S k) q' _ ltac:(lia) Hq' H').
Qed.

(** After [k] turns the setup is in one of the phases of [phaseAfter k]. *)
Lemma setup_reaches env now core before :
  forall (k : nat) (s : Server),
    (k <= 4)%nat ->
    setupAt core before AwaitCameraURLResponse s ->
    exists q,
      phaseAfter k q
      /\ setupAt core before q
           (resumeAll now (List.length before) (firstn k (setupAnswers env)) s).
Proof.
  induction k as [|k IH]; intros s Hk H.
  - exists AwaitCameraURLResponse. split; [reflexivity|exact H].
  - destruct (IH s ltac:(lia) H) as (q & Hq & Hs).
    rewrite (firstn_nth k (setupAnswers env) Resumed) by (cbn; lia).
    rewrite resumeAll_app. unfold resumeAll at 1. cbn [fold_left].
    exact (setup_progress env now core before k q _ ltac:(lia) Hq Hs).
Qed.

(** The ['disconnect'] listener while a setup is in some phase: the status
    is reset and [reconnectSetupNeeded] set; the setup stays in its phase. *)
Lemma setDisconnectedStatus_setupAt later n pc flag needed first ac before q s :
  setupAt (true, n, pc, flag, needed, first, ac) before q s ->
  setupAt (false, "Unknown"%string, pc, flag, true, first, ac) before q
    (setDisconnectedStatus later s).
Proof.
  intros [Hcore Htasks]. unfold coreView in Hcore.
  injection Hcore as Hc Hn Hpc Hf Hnd Hfi Hac.
  unfold setDisconnectedStatus. rewrite Hc. cbn [negb andb]. cbv zeta.
  set (s2 := set_printerStatus (resetStatus later) (with_reconnectSetupNeeded true s)).
  pose proof (broadcastStatus_link later s2 s2 (sameLink_refl s2)) as Hl.
  unfold sameLink, linkView in Hl. injection Hl as Hlc Hln Hls.
  unfold setupAt, coreView. rewrite Hlc, Hln, Hls. unfold s2. cbn.
  rewrite Hpc, Hf, Hfi, Hac, Htasks. split; reflexivity.
Qed.

(** The big-step [connectToPrinter] of a call whose [connect()] resolves is
    the run of its turns with nothing handled in between. *)
Lemma connectToPrinter_is_uninterrupted_run env now ip name s :
  exited (runtime s) = None ->
  constructor_throws env = None ->
  connect_rejects env = None ->
  connectToPrinter env now ip name s
  = (run (connectTurns env now ip name (List.length (setupTasks (supervisor s)))) s,
     None).
Proof.
  intros He Hc Hr. unfold connectToPrinter. rewrite Hc, Hr. cbv zeta. f_equal.
  unfold connectTurns, setupTurns, run. cbn [fold_left]. unfold step at 2 3.
  rewrite He. cbn [dispatchEvent].
  assert (He1 : exited (runtime (connect_call ip s)) = None) by exact He.
  rewrite He1. cbn [dispatchEvent].
  assert (He2 : exited (runtime (connect_resolved name (connect_call ip s))) = None).
  { rewrite <- He1. unfold connect_resolved.
    apply (ensureReconnectSetup_call_alive name _ _ (sameExit_refl _)). }
  fold (run (map (EvSetupResume now (List.length (setupTasks (supervisor s))))
               (setupAnswers env))
          (connect_resolved name (connect_call ip s))).
  rewrite (run_setupResumes now _ _ _ He2).
  unfold ensureReconnectSetup_await, connect_resolved, connect_call.
  destruct (reconnectSetupInProgress (supervisor s)) eqn:Hg.
  - unfold ensureReconnectSetup_call.
    cbn [supervisor with_printerClient set_supervisor reconnectSetupInProgress
         set_printerClient]. rewrite Hg. cbn [fst].
    unfold resumeAll, setupAnswers. cbn [fold_left].
    assert (Hno : forall a,
              setup_resume now (List.length (setupTasks (supervisor s))) a
                (with_printerClient (Some ip) s)
              = with_printerClient (Some ip) s).
    { intros a. unfold setup_resume.
      replace (nth_error (setupTasks (supervisor (with_printerClient (Some ip) s)))
                 (List.length (setupTasks (supervisor s))))
        with (@None SetupPhase); [reflexivity|].
      symmetry. apply nth_error_None. cbn. lia. }
    now rewrite !Hno.
  - pose proof (connect_starts_setup ip name s Hg) as Hs.
    unfold connect_resolved, connect_call in Hs.
    assert (Hst : snd (ensureReconnectSetup_call name (with_printerClient (Some ip) s))
                  = true).
    { unfold ensureReconnectSetup_call.
      cbn [supervisor with_printerClient set_supervisor reconnectSetupInProgress
           set_printerClient]. rewrite Hg. reflexivity. }
    destruct (ensureReconnectSetup_call name (with_printerClient (Some ip) s))
      as [s1 started]. cbn [fst snd] in *. subst started. cbv zeta.
    assert (Hi : Nat.pred (List.length (setupTasks (supervisor s1)))
                 = List.length (setupTasks (supervisor s))).
    { rewrite (proj2 Hs), length_app. cbn. lia. }
    rewrite Hi. reflexivity.
Qed.

(** The run of a call whose [connect()] resolved, from the state after the
    continuation started the setup. *)
Lemma run_connectTurns env now ip name i s :
  exited (runtime s) = None ->
  run (connectTurns env now ip name i) s
  = resumeAll now i (setupAnswers env) (connect_resolved name (connect_call ip s))
  /\ exited (runtime (connect_resolved name (connect_call ip s))) = None.
Proof.
  intros He.
  assert (He2 : exited (runtime (connect_resolved name (connect_call ip s))) = None).
  { rewrite <- He. unfold connect_resolved.
    apply (ensureReconnectSetup_call_alive name s (connect_call ip s)). reflexivity. }
  split; [|exact He2].
  unfold connectTurns, setupTurns.
  change (run (EvConnectCall ip :: EvConnectResolved name
                 :: map (EvSetupResume now i) (setupAnswers env)) s)
    with (run (map (EvSetupResume now i) (setupAnswers env))
            (step (EvConnectResolved name) (step (EvConnectCall ip) s))).
  unfold step at 2. rewrite He. cbn [dispatchEvent].
  unfold step. change (exited (runtime (connect_call ip s))) with (exited (runtime s)).
  rewrite He. cbn [dispatchEvent].
  apply run_setupResumes. exact He2.
Qed.

Lemma run_connectTurnsLost env now ip name i k later s :
  exited (runtime s) = None ->
  run (connectTurnsLost env now ip name i k later) s
  = resumeAll now i (skipn k (setupAnswers env))
      (setDisconnectedStatus later
         (resumeAll now i (firstn k (setupAnswers env))
            (connect_resolved name (connect_call ip s)))).
Proof.
  intros He.
  destruct (run_connectTurns env now ip name i s He) as [_ He2].
  unfold connectTurnsLost, setupTurns.
  change (run (EvConnectCall ip :: EvConnectResolved name
                 :: firstn k (map (EvSetupResume now i) (setupAnswers env))
                    ++ EvPrinterLost later
                       :: skipn k (map (EvSetupResume now i) (setupAnswers env))) s)
    with (run (firstn k (map (EvSetupResume now i) (setupAnswers env))
                 ++ EvPrinterLost later
                    :: skipn k (map (EvSetupResume now i) (setupAnswers env)))
            (step (EvConnectResolved name) (step (EvConnectCall ip) s))).
  unfold step at 2. rewrite He. cbn [dispatchEvent].
  unfold step. change (exited (runtime (connect_call ip s))) with (exited (runtime s)).
  rewrite He. cbn [dispatchEvent].
  set (s1 := connect_resolved name (connect_call ip s)) in *.
  rewrite run_app, firstn_map, skipn_map, (run_setupResumes now i _ s1 He2).
  set (s2 := resumeAll now i (firstn k (setupAnswers env)) s1).
  assert (He3 : exited (runtime s2) = None).
  { rewrite <- He2. apply (resumeAll_alive now i _ s1 s1 (sameExit_refl s1)). }
  change (run (EvPrinterLost later :: map (EvSetupResume now i) (skipn k (setupAnswers env))) s2)
    with (run (map (EvSetupResume now i) (skipn k (setupAnswers env)))
            (step (EvPrinterLost later) s2)).
  unfold step. rewrite He3. cbn [dispatchEvent].
  apply run_setupResumes.
  rewrite <- He3. apply (setDisconnectedStatus_alive later s2 s2 (sameExit_refl s2)).
Qed.

(** X21.  [connectToPrinter] turn by turn, for a call whose client is
    created and whose [connect()] resolves.  The new client is in place
    from the first turn.  When no post-connect setup is running and the
    event loop handles nothing else between the awaits of the call, the run
    is the one the big-step [connectToPrinter] computes, and it ends,
    whatever the camera request and the relay fetch answer, with the printer
    marked connected under the given name (the old name when none is given),
    both reconnect flags cleared and the guard released.  That end is not
    guaranteed otherwise: when the ['disconnect'] or ['error'] listener runs
    between two awaits of the setup, the call still runs to its end, and it
    ends with the printer marked disconnected under the name Unknown, the
    guard released and [reconnectSetupNeeded] cleared, although the
    connection was lost after the flag was last set.  When a setup is
    running, the guard stops the setup of the new connection: the call
    replaces the client and nothing else. *)
Theorem X21_connect_turn_by_turn :
  forall (env : ConnectEnv) (now : Z) (ip : string) (name : option string)
         (s : Server),
    exited (runtime s) = None ->
    let i := List.length (setupTasks (supervisor s)) in
    let s' := run (connectTurns env now ip name i) s in
    (constructor_throws env = None -> connect_rejects env = None ->
     connectToPrinter env now ip name s = (s', None))
    /\ printerClient (supervisor s') = Some ip
    /\ (reconnectSetupInProgress (supervisor s) = false ->
        (connected (printerStatus s') = true
         /\ printerName (printerStatus s') = str_or name (printerName (printerStatus s))
         /\ reconnectSetupInProgress (supervisor s') = false
         /\ reconnectSetupNeeded (supervisor s') = false
         /\ setupTasks (supervisor s') = setupTasks (supervisor s))
        /\ forall (k : nat) (later : Z),
             (k <= 4)%nat ->
             let t := run (connectTurnsLost env now ip name i k later) s in
             connected (printerStatus t) = false
             /\ printerName (printerStatus t) = "Unknown"%string
             /\ printerClient (supervisor t) = Some ip
             /\ reconnectSetupInProgress (supervisor t) = false
             /\ reconnectSetupNeeded (supervisor t) = false
             /\ setupTasks (supervisor t) = setupTasks (supervisor s))
    /\ (reconnectSetupInProgress (supervisor s) = true ->
        s' = with_printerClient (Some ip) s).
Proof.
  intros env now ip name s He i s'.
  set (env' := {| constructor_throws := None; connect_rejects := None;
                  cameraURL_result := cameraURL_result env;
                  setup_fetch := setup_fetch env |}).
  assert (Hbig : connectToPrinter env' now ip name s = (s', None))
    by exact (connectToPrinter_is_uninterrupted_run env' now ip name s He eq_refl eq_refl).
  split.
  { intros Hc Hr. exact (connectToPrinter_is_uninterrupted_run env now ip name s He Hc Hr). }
  destruct (run_connectTurns env now ip name i s He) as [Hrun _].
  fold s' in Hrun.
  destruct (reconnectSetupInProgress (supervisor s)) eqn:Hg.
  - assert (E : s' = with_printerClient (Some ip) s).
    { unfold connectToPrinter in Hbig. cbn [constructor_throws connect_rejects env'] in Hbig.
      cbv zeta in Hbig. injection Hbig as Hbig. rewrite <- Hbig.
      unfold ensureReconnectSetup_await, ensureReconnectSetup_call.
      cbn [supervisor with_printerClient set_supervisor reconnectSetupInProgress
           set_printerClient]. rewrite Hg. reflexivity. }
    split; [rewrite E; reflexivity|].
    split; [intros H; discriminate H|intros _; exact E].
  - pose proof (connect_starts_setup ip name s Hg) as Hs.
    set (s1 := connect_resolved name (connect_call ip s)) in *.
    fold i in Hs.
    assert (Hend : coreView s'
                   = (true, str_or name (printerName (printerStatus s)), Some ip,
                      false, false, isFirstUpdate (supervisor s),
                      autoConnectState (supervisor s))
                   /\ setupTasks (supervisor s') = setupTasks (supervisor s)).
    { rewrite Hrun.
      exact (setup_completes env now _ _ _ _ _ _ _ _ 4 0 _ s1 eq_refl eq_refl Hs). }
    destruct Hend as [Hcore Htasks]. unfold coreView in Hcore.
    injection Hcore as H1 H2 H3 H4 H5 _ _.
    split; [exact H3|]. split; [|intros H; discriminate H].
    intros _. split; [repeat split; assumption|].
    intros k later Hk t. unfold t.
    rewrite (run_connectTurnsLost env now ip name i k later s He). fold s1.
    destruct (setup_reaches env now _ _ k s1 Hk Hs) as (q & Hq & Hat).
    apply (setDisconnectedStatus_setupAt later) in Hat.
    destruct (setup_completes env now _ _ _ _ _ _ _ _ (4 - k) k q _ ltac:(lia) Hq Hat)
      as [Hcore' Htasks'].
    unfold coreView in Hcore'. injection Hcore' as K1 K2 K3 K4 K5 _ _.
    repeat split; assumption.
Qed.

(** The printer is lost while the relay fetch of the setup is pending: the
    call that connected ends with the printer marked disconnected and no
    setup owed. *)
Lemma X21_witness :
  let t := run (connectTurnsLost cameraEnv 1000 "192.168.1.50" (Some "Centauri Carbon")
                  0 2 1500) (initialServer None) in
  connected (printerStatus t) = false
  /\ printerName (printerStatus t) = "Unknown"%string
  /\ reconnectSetupNeeded (supervisor t) = false.
Proof.
  destruct (X21_connect_turn_by_turn cameraEnv 1000 "192.168.1.50"
              (Some "Centauri Carbon") (initialServer None) eq_refl)
    as (_ & _ & H & _).
  destruct (proj2 (H eq_refl) 2%nat 1500 ltac:(lia)) as (H1 & H2 & _ & _ & H5 & _).
  repeat split; assumption.
Defined.

(** ** Restarts of the camera relay *)

Lemma handleCameraStartFailure_frame now e s :
  let s' := handleCameraStartFailure now e s in
  printerStatus s' = printerStatus s
  /\ streams (relay s') = streams (relay s)
  /\ cameraStreamURL (relay s') = cameraStreamURL (relay s)
  /\ incl (timers (runtime s)) (timers (runtime s')).
Proof.
  unfold handleCameraStartFailure. cbv zeta.
  match goal with |- context [if ?c then _ else _] => destruct c end.
  - match goal with
    | |- context [broadcastToClients ?n ?m ?t] =>
        destruct (broadcastToClients_frame n m t) as (_ & Hp & _ & _ & _ & Hr & _);
        pose proof (broadcastToClients_keeps n m t t (keeps_refl t)) as (_ & Ht & _);
        set (s2 := broadcastToClients n m t) in *
    end.
    split; [|split; [|split]].
    + change (printerStatus s2 = printerStatus s). now rewrite Hp.
    + change (streams (relay s2) = streams (relay s)). now rewrite Hr.
    + change (cameraStreamURL (relay s2) = cameraStreamURL (relay s)). now rewrite Hr.
    + change (incl (timers (runtime s))
                (timers (runtime s2)
                   ++ [ {| handle := nextTimer (runtime s2); due := now + 1000;
                           action := CbProcessExit 1 |} ])).
      apply incl_appl. exact Ht.
  - repeat split; try reflexivity. apply incl_refl.
Qed.

(** X22.  A failed start of the relay marks the camera unavailable with
    the error and arms a retry five seconds later.  The start that then
    succeeds clears the error and the failure tracker and opens a read loop,
    but it does not mark the camera available again: [cameraAvailable] stays
    false while frames are relayed. *)
Theorem X22_relay_restart_leaves_camera_unavailable :
  forall (now later : Z) (errMessage : string) (boundaryMatch : option string)
         (s : Server),
    let s1 := startCameraStreaming_fetched now (FetchRejected errMessage) s in
    let s2 := startCameraStreaming_fetched later (FetchOk boundaryMatch) s1 in
    (cameraAvailable (printerStatus s1) = false
     /\ cameraError (printerStatus s1) = Some errMessage
     /\ exists h, In {| handle := h; due := now + 5000; action := CbRetryCameraStreaming |}
                     (timers (runtime s1)))
    /\ (cameraAvailable (printerStatus s2) = false
        /\ cameraError (printerStatus s2) = None
        /\ cameraStartFailure (relay s2) = {| lastError := None; count := 0 |}
        /\ List.length (streams (relay s2)) = S (List.length (streams (relay s)))).
Proof.
  intros now later e bm s s1 s2.
  assert (H1 : printerStatus s1
               = set_users (Some (match users (printerStatus s) with
                                  | Some u => u
                                  | None => userStats s
                                  end))
                   (set_cameraError (Some e) (set_cameraAvailable false (printerStatus s)))
               /\ streams (relay s1) = streams (relay s)).
  { unfold s1, startCameraStreaming_fetched, startCameraStreaming_failed. cbv zeta.
    match goal with
    | |- context [handleCameraStartFailure ?n ?m ?t] =>
        destruct (handleCameraStartFailure_frame n m t) as (Hp & Hs & _ & _)
    end.
    match goal with
    | |- context [broadcastStatus ?n ?t] =>
        destruct (broadcastStatus_frame n t) as (_ & _ & _ & _ & Hr & _ & Hq)
    end.
    match goal with
    | |- printerStatus (fst (setTimeout _ _ _ ?t)) = _ /\ _ =>
        change (printerStatus t = set_users (Some (match users (printerStatus s) with
                                  | Some u => u
                                  | None => userStats s
                                  end))
                   (set_cameraError (Some e) (set_cameraAvailable false (printerStatus s)))
                /\ streams (relay t) = streams (relay s))
    end.
    rewrite Hp, Hs, Hq, Hr. split; reflexivity. }
  destruct H1 as [Hp1 Hs1].
  split.
  - rewrite Hp1. split; [reflexivity|]. split; [reflexivity|].
    eexists. unfold s1, startCameraStreaming_fetched, startCameraStreaming_failed.
    cbv zeta.
    match goal with
    | |- In _ (timers (runtime (fst (setTimeout ?cb ?d ?n ?t)))) =>
        change (timers (runtime (fst (setTimeout cb d n t))))
          with (timers (runtime t)
                  ++ [ {| handle := nextTimer (runtime t); due := n + d; action := cb |} ])
    end.
    apply in_or_app. right. left. reflexivity.
  - unfold s2, startCameraStreaming_fetched. cbv zeta.
    cbn [printerStatus relay with_streams with_ps resetCameraFailureTracker
         with_cameraStartFailure set_relay set_printerStatus set_streams
         set_cameraStartFailure streams cameraStartFailure].
    rewrite Hp1, Hs1, length_app. cbn. repeat split; try reflexivity. lia.
Qed.

Lemma cameraView_broadcastStatus now s :
  cameraView (broadcastStatus now s) = cameraView s.
Proof.
  unfold cameraView.
  destruct (broadcastStatus_frame now s) as (_ & _ & _ & _ & Hr & _ & Hp).
  now rewrite Hr, Hp.
Qed.

(** The post-connect setup when the printer answers the camera request and
    the relay fetch succeeds, phase by phase. *)
Lemma resume_cameraURL_ok now r url core before s :
  r = CameraURLResponse (Some {| Ack := Some 0; VideoUrl := Some url |}) ->
  url <> EmptyString ->
  setupAt core before AwaitCameraURLResponse s ->
  cameraView (setup_resume now (List.length before) (GotCameraURL r) s)
  = (true, None, Some ("http://" ++ url)%string, streams (relay s)).
Proof.
  intros -> Hu H. unfold setup_resume. rewrite (proj2 H), nth_error_last. cbv zeta.
  unfold setupCameraURL_answered. cbn [Ack VideoUrl code_is truthy_str].
  destruct (String.eqb_spec url EmptyString) as [E|_]; [contradiction|].
  cbn [Z.eqb negb andb str_or].
  destruct (String.eqb_spec url EmptyString) as [E|_]; [contradiction|].
  reflexivity.
Qed.

Lemma resume_startCamera_ok now url core before s :
  cameraStreamURL (relay s) = Some ("http://" ++ url)%string ->
  setupAt core before AwaitSetupCameraURL s ->
  setupAt core before AwaitFetch (setup_resume now (List.length before) Resumed s)
  /\ cameraView (setup_resume now (List.length before) Resumed s) = cameraView s.
Proof.
  intros Hu H. unfold setup_resume. rewrite (proj2 H), nth_error_last.
  unfold startCameraStreaming_call. rewrite Hu. cbn [truthy_str String.eqb negb].
  split; [|reflexivity].
  apply (setupAt_next core before AwaitSetupCameraURL _ s);
    [exact H|apply sameLink_refl].
Qed.

Lemma resume_fetch_ok now b core before s :
  setupAt core before AwaitFetch s ->
  cameraView (setup_resume now (List.length before) (GotFetch (FetchOk b)) s)
  = (cameraAvailable (printerStatus s), None, cameraStreamURL (relay s),
     streams (relay s) ++ [newLoop b]).
Proof.
  intros H. unfold setup_resume. rewrite (proj2 H), nth_error_last. reflexivity.
Qed.

Lemma resume_broadcast_camera now core before s :
  setupAt core before AwaitStartCameraStreaming s ->
  cameraView (setup_resume now (List.length before) Resumed s) = cameraView s.
Proof.
  intros H. unfold setup_resume. rewrite (proj2 H), nth_error_last. cbv zeta.
  rewrite <- (cameraView_broadcastStatus now s). reflexivity.
Qed.

Lemma resume_finish_camera now core before s :
  setupAt core before AwaitOnPrinterConnected s ->
  cameraView (setup_resume now (List.length before) Resumed s) = cameraView s.
Proof.
  intros H. unfold setup_resume. rewrite (proj2 H), nth_error_last. reflexivity.
Qed.

(** [await ensureReconnectSetup(name)] with a client in place, the guard
    free, the camera request answered and the fetch successful: the camera is
    available and one read loop was opened. *)
Lemma ensureReconnectSetup_await_camera env now name url b ip s :
  printerClient (supervisor s) = Some ip ->
  reconnectSetupInProgress (supervisor s) = false ->
  cameraAnswers env url ->
  setup_fetch env = FetchOk b ->
  cameraView (ensureReconnectSetup_await env now name s)
  = (true, None, Some ("http://" ++ url)%string, streams (relay s) ++ [newLoop b]).
Proof.
  intros Hpc Hg [Hr Hu] Hf. unfold ensureReconnectSetup_await.
  set (before := setupTasks (supervisor s)).
  set (core := (true, str_or name (printerName (printerStatus s)),
                printerClient (supervisor s), true,
                reconnectSetupNeeded (supervisor s), isFirstUpdate (supervisor s),
                autoConnectState (supervisor s))).
  assert (Hcall : snd (ensureReconnectSetup_call name s) = true
                  /\ setupAt core before AwaitCameraURLResponse
                       (fst (ensureReconnectSetup_call name s))
                  /\ streams (relay (fst (ensureReconnectSetup_call name s)))
                     = streams (relay s)).
  { unfold ensureReconnectSetup_call. rewrite Hg. cbv zeta. cbn [fst snd].
    split; [reflexivity|]. split.
    - unfold setupAt, coreView, core, before, truthy_str, str_or.
      destruct name as [n|]; [destruct (String.eqb n EmptyString)|];
        cbn; rewrite Hpc; split; reflexivity.
    - destruct (truthy_str name); reflexivity. }
  destruct (ensureReconnectSetup_call name s) as [s1 started].
  cbn [fst snd] in Hcall. destruct Hcall as (-> & H1 & Hs1).
  cbv zeta.
  assert (Hi : Nat.pred (List.length (setupTasks (supervisor s1))) = List.length before).
  { rewrite (proj2 H1), length_app. cbn. lia. }
  rewrite Hi, Hf.
  set (s2 := setup_resume now (List.length before) (GotCameraURL (cameraURL_result env)) s1).
  pose proof (resume_cameraURL now (cameraURL_result env) core before s1 H1) as H2.
  pose proof (resume_cameraURL_ok now _ url core before s1 Hr Hu H1) as C2.
  fold s2 in H2, C2. rewrite Hs1 in C2.
  set (s3 := setup_resume now (List.length before) Resumed s2).
  assert (Hu2 : cameraStreamURL (relay s2) = Some ("http://" ++ url)%string).
  { unfold cameraView in C2. now injection C2. }
  destruct (resume_startCamera_ok now url core before s2 Hu2 H2) as [H3 C3].
  fold s3 in H3, C3. rewrite C2 in C3.
  set (s4 := setup_resume now (List.length before) (GotFetch (FetchOk b)) s3).
  pose proof (resume_fetch now (FetchOk b) core before s3 H3) as H4.
  pose proof (resume_fetch_ok now b core before s3 H3) as C4.
  fold s4 in H4, C4.
  assert (C4' : cameraView s4
                = (true, None, Some ("http://" ++ url)%string,
                   streams (relay s) ++ [newLoop b])).
  { rewrite C4. unfold cameraView in C3. injection C3 as -> _ -> ->. reflexivity. }
  pose proof (resume_broadcast now core before s4 H4) as H5.
  pose proof (resume_broadcast_camera now core before s4 H4) as C5.
  rewrite (resume_finish_camera now core before _ H5), C5. exact C4'.
Qed.

(** X23.  [autoConnect] starts the relay twice.  Take the state in which
    [autoConnect] picks a printer of its list, with no post-connect setup
    running, a client that is created and connects, a printer that answers
    the camera request with a stream address, and two fetches that succeed.
    When the event loop handles nothing else between the awaits, the turns
    of [connectToPrinter] leave the camera marked available with one new
    read loop (started by the post-connect setup), the
    [await startCameraStreaming()] that follows in [autoConnect] fetches
    again and adds a second read loop on the same stream, each loop with a
    frame throttle of its own, and that is the run the big-step
    [autoConnect] computes.  Events handled between the awaits (a lost
    printer, a chunk or the end of the first loop) are outside this
    statement. *)
Theorem X23_two_relay_starts_turn_by_turn :
  forall (env : AutoConnectEnv) (now : Z) (s : Server) (printer : DiscoveredPrinter)
         (url : string) (b1 b2 : option string),
    exited (runtime s) = None ->
    reconnectSetupInProgress (supervisor s) = false ->
    nth_error (printers (autoConnectState (supervisor s)))
              (currentIdx (autoConnectState (supervisor s))) = Some printer ->
    constructor_throws (connect_env env) = None ->
    connect_rejects (connect_env env) = None ->
    cameraAnswers (connect_env env) url ->
    setup_fetch (connect_env env) = FetchOk b1 ->
    second_fetch env = FetchOk b2 ->
    let name := Some (str_or (prn_Name printer) (str_or (prn_Id printer) "Elegoo Printer")) in
    let s2 := run (connectTurns (connect_env env) now (address printer) name
                     (List.length (setupTasks (supervisor s)))) s in
    let s3 := startCameraStreaming_fetched now (second_fetch env)
                (fst (startCameraStreaming_call now s2)) in
    cameraView s2
    = (true, None, Some ("http://" ++ url)%string, streams (relay s) ++ [newLoop b1])
    /\ snd (startCameraStreaming_call now s2) = true
    /\ cameraView s3
       = (true, None, Some ("http://" ++ url)%string,
          streams (relay s) ++ [newLoop b1; newLoop b2])
    /\ autoConnect env now s
       = with_autoConnectState
           {| printers := printers (autoConnectState (supervisor s3));
              currentIdx := currentIdx (autoConnectState (supervisor s3));
              failCount := 0 |} s3.
Proof.
  intros env now s printer url b1 b2 He Hg Hnth Hct Hrej Hcam Hf1 Hf2 name s2 s3.
  pose proof (connectToPrinter_is_uninterrupted_run (connect_env env) now
                (address printer) name s He Hct Hrej) as Hbig.
  fold s2 in Hbig.
  assert (Hs2 : s2 = ensureReconnectSetup_await (connect_env env) now name
                       (with_printerClient (Some (address printer)) s)).
  { unfold connectToPrinter in Hbig. rewrite Hct, Hrej in Hbig. cbv zeta in Hbig.
    now injection Hbig. }
  assert (Hview : cameraView s2
                  = (true, None, Some ("http://" ++ url)%string,
                     streams (relay s) ++ [newLoop b1])).
  { rewrite Hs2.
    exact (ensureReconnectSetup_await_camera (connect_env env) now name url b1
             (address printer) (with_printerClient (Some (address printer)) s)
             eq_refl Hg Hcam Hf1). }
  assert (Hcall : startCameraStreaming_call now s2 = (s2, true)).
  { unfold startCameraStreaming_call. unfold cameraView in Hview.
    injection Hview as _ _ Hu _. rewrite Hu. reflexivity. }
  split; [exact Hview|]. split; [rewrite Hcall; reflexivity|].
  split.
  - unfold s3. rewrite Hcall, Hf2. cbn [fst].
    assert (Hend : cameraView (startCameraStreaming_fetched now (FetchOk b2) s2)
                   = (cameraAvailable (printerStatus s2), None,
                      cameraStreamURL (relay s2), streams (relay s2) ++ [newLoop b2]))
      by reflexivity.
    rewrite Hend. unfold cameraView in Hview. injection Hview as -> _ -> ->.
    rewrite <- app_assoc. reflexivity.
  - unfold autoConnect, autoConnect_discover. cbv zeta.
    assert (Hlt : (currentIdx (autoConnectState (supervisor s))
                   < List.length (printers (autoConnectState (supervisor s))))%nat).
    { apply nth_error_Some. rewrite Hnth. discriminate. }
    replace (Nat.eqb (List.length (printers (autoConnectState (supervisor s)))) 0
             || Nat.leb (List.length (printers (autoConnectState (supervisor s))))
                  (currentIdx (autoConnectState (supervisor s))))
      with false.
    2:{ symmetry. apply orb_false_iff. split.
        - apply Nat.eqb_neq. lia.
        - apply Nat.leb_gt. exact Hlt. }
    cbn [negb]. rewrite Hnth. fold name. rewrite Hbig.
    unfold s3. rewrite Hcall, Hf2. reflexivity.
Qed.

Lemma X23_witness :
  cameraView
    (startCameraStreaming_fetched 1000 (second_fetch reachableEnv)
       (fst (startCameraStreaming_call 1000
          (run (connectTurns (connect_env reachableEnv) 1000 (address unreachablePrinter)
                  (Some (str_or (prn_Name unreachablePrinter)
                           (str_or (prn_Id unreachablePrinter) "Elegoo Printer")))
                  (List.length (setupTasks (supervisor discoveredServer))))
             discoveredServer))))
  = (true, None, Some ("http://" ++ "192.168.1.50:3031/video")%string,
     streams (relay discoveredServer) ++ [newLoop (Some "frame"); newLoop (Some "frame")]).
Proof.
  assert (H : cameraAnswers (connect_env reachableEnv) "192.168.1.50:3031/video")
    by (split; [reflexivity|discriminate]).
  exact (proj1 (proj2 (proj2
    (X23_two_relay_starts_turn_by_turn reachableEnv 1000 discoveredServer
       unreachablePrinter "192.168.1.50:3031/video" (Some "frame") (Some "frame")
       eq_refl eq_refl eq_refl eq_refl eq_refl H eq_refl eq_refl)))).
Defined.

(** ** Camera responses after they are closed *)

Lemma quiet_refl rid (s : Server) : quietFor rid s s.
Proof. intros H. split; [exact H|reflexivity]. Qed.

Lemma quiet_trans rid (s1 s2 s3 : Server) :
  quietFor rid s1 s2 -> quietFor rid s2 s3 -> quietFor rid s1 s3.
Proof.
  intros H1 H2 Hd. destruct (H1 Hd) as [Hd2 Hw2]. destruct (H2 Hd2) as [Hd3 Hw3].
  split; [exact Hd3|]. now rewrite Hw3.
Qed.

Lemma quiet_view rid (s s' : Server) :
  subscriberView s' = subscriberView s -> quietFor rid s s'.
Proof.
  unfold subscriberView. intros E. injection E as Es Ew.
  unfold quietFor, detached. rewrite Es, Ew. auto.
Qed.

Create HintDb quiet.

Ltac is_quiet_setter f :=
  match f with
  | with_ps _ => idtac
  | set_printerStatus _ => idtac
  | set_userStats _ => idtac
  | set_temperatures _ => idtac
  | set_webClients _ => idtac
  | with_lastBroadcastTime _ => idtac
  | with_pendingBroadcast _ => idtac
  | with_cameraStreamURL _ => idtac
  | with_latestFrame _ => idtac
  | with_cameraStartFailure _ => idtac
  | with_streams _ => idtac
  | with_printerClient _ => idtac
  | with_reconnectSetupInProgress _ => idtac
  | with_reconnectSetupNeeded _ => idtac
  | with_isFirstUpdate _ => idtac
  | with_autoConnectState _ => idtac
  | with_setupTasks _ => idtac
  | with_timers _ => idtac
  | with_nextTimer _ => idtac
  | with_sent _ => idtac
  | with_brokenResponses _ => idtac
  | with_exited _ => idtac
  end.

Ltac peel_quiet :=
  match goal with
  | |- quietFor ?rid ?s0 (?f ?s) =>
      is_quiet_setter f;
      apply (quiet_trans rid s0 s (f s)); [| apply quiet_view; reflexivity]
  end.

#[local] Hint Resolve quiet_refl : quiet.
#[local] Hint Extern 4 (quietFor _ _ (_ _)) => peel_quiet : quiet.

Ltac quiet_auto := auto 30 with quiet nocore.

Lemma setTimeout_quiet rid cb delay now s0 s :
  quietFor rid s0 s -> quietFor rid s0 (fst (setTimeout cb delay now s)).
Proof.
  intros H. apply (quiet_trans _ _ _ _ H). apply quiet_view. reflexivity.
Qed.
#[local] Hint Resolve setTimeout_quiet : quiet.

Lemma broadcastToClients_quiet rid now msg s0 s :
  quietFor rid s0 s -> quietFor rid s0 (broadcastToClients now msg s).
Proof.
  intros H. apply (quiet_trans _ _ _ _ H). apply quiet_view. unfold subscriberView.
  destruct (broadcastToClients_frame now msg s) as (_ & _ & _ & _ & _ & Hr & _).
  destruct (broadcastToClients_runtime now msg s) as (Hw & _).
  now rewrite Hr, Hw.
Qed.
#[local] Hint Resolve broadcastToClients_quiet : quiet.

Lemma broadcastStatus_quiet rid now s0 s :
  quietFor rid s0 s -> quietFor rid s0 (broadcastStatus now s).
Proof.
  intros H. unfold broadcastStatus, buildStatusPayload. cbv zeta. quiet_auto.
Qed.
#[local] Hint Resolve broadcastStatus_quiet : quiet.

Lemma updateUserStatsAndBroadcast_quiet rid now s0 s :
  quietFor rid s0 s -> quietFor rid s0 (updateUserStatsAndBroadcast now s).
Proof. intros H. unfold updateUserStatsAndBroadcast. quiet_auto. Qed.
#[local] Hint Resolve updateUserStatsAndBroadcast_quiet : quiet.

Lemma setDisconnectedStatus_quiet rid now s0 s :
  quietFor rid s0 s -> quietFor rid s0 (setDisconnectedStatus now s).
Proof.
  intros H. unfold setDisconnectedStatus. split_tests; cbv zeta; quiet_auto.
Qed.
#[local] Hint Resolve setDisconnectedStatus_quiet : quiet.

Lemma setCustomState_quiet rid info s0 s :
  quietFor rid s0 s -> quietFor rid s0 (setCustomState info s).
Proof.
  intros H. unfold setCustomState.
  destruct info as [d|]; [|assumption].
  destruct (Status d); [|assumption]. cbv zeta. quiet_auto.
Qed.
#[local] Hint Resolve setCustomState_quiet : quiet.

Lemma resetCameraFailureTracker_quiet rid s0 s :
  quietFor rid s0 s -> quietFor rid s0 (resetCameraFailureTracker s).
Proof. intros H. unfold resetCameraFailureTracker. quiet_auto. Qed.
#[local] Hint Resolve resetCameraFailureTracker_quiet : quiet.

Lemma handleCameraStartFailure_quiet rid now e s0 s :
  quietFor rid s0 s -> quietFor rid s0 (handleCameraStartFailure now e s).
Proof.
  intros H. unfold handleCameraStartFailure. cbv zeta.
  match goal with |- context [if ?c then _ else _] => destruct c end; quiet_auto.
Qed.
#[local] Hint Resolve handleCameraStartFailure_quiet : quiet.

Lemma detached_delete rid id (s : Server) :
  detached rid s -> detached rid (deleteSubscriber id s).
Proof.
  unfold detached, deleteSubscriber. cbn. intros H Hin.
  apply filter_In in Hin. now apply H.
Qed.

(** The subscriber of another response. *)
Lemma subscriber_quiet rid id (f : Frame) s0 s :
  id <> rid -> quietFor rid s0 s -> quietFor rid s0 (subscriber id f s).
Proof.
  intros Hne H. apply (quiet_trans _ _ _ _ H). intros Hd.
  unfold subscriber. destruct (isBroken id s).
  - split; [now apply detached_delete|reflexivity].
  - split; [exact Hd|]. cbn [runtime with_cameraWrites set_runtime cameraWrites
      set_cameraWrites].
    rewrite framesWrittenTo_app. unfold framesWrittenTo at 2. cbn.
    apply Nat.eqb_neq in Hne. rewrite Hne. apply app_nil_r.
Qed.

Lemma fold_subscriber_quiet rid (f : Frame) (ids : list nat) s0 s :
  ~ In rid ids ->
  quietFor rid s0 s ->
  quietFor rid s0 (fold_left (fun acc id => subscriber id f acc) ids s).
Proof.
  revert s. induction ids as [|id ids IH]; intros s Hni H; cbn; [exact H|].
  apply IH.
  - intros Hin. apply Hni. now right.
  - apply subscriber_quiet; [|exact H]. intros ->. apply Hni. now left.
Qed.

Lemma dispatch_quiet rid (f : Frame) s0 s :
  quietFor rid s0 s -> quietFor rid s0 (dispatch f s).
Proof.
  intros H Hd0. destruct (H Hd0) as [Hd Hw].
  unfold dispatch.
  destruct (fold_subscriber_quiet rid f (cameraSubscribers (relay s)) s s Hd
              (quiet_refl rid s) Hd) as [Hd' Hw'].
  split; [exact Hd'|]. now rewrite Hw'.
Qed.
#[local] Hint Resolve dispatch_quiet : quiet.

Lemma onFrame_quiet rid now f st s0 s :
  quietFor rid s0 s -> quietFor rid s0 (snd (onFrame now f st s)).
Proof.
  intros H. unfold onFrame. split_tests; cbv zeta; cbn [snd]; quiet_auto.
Qed.
#[local] Hint Resolve onFrame_quiet : quiet.

Lemma scanFrames_quiet rid fuel clock k st s0 s :
  quietFor rid s0 s -> quietFor rid s0 (snd (scanFrames fuel clock k st s)).
Proof.
  revert k st s. induction fuel as [|fuel IH]; intros k st s H; simpl; [exact H|].
  destruct (indexOf (buffer st) (boundaryBuffer st) 0); [|exact H].
  destruct (indexOf (buffer st) CRLFCRLF _); [|exact H].
  destruct (indexOf (buffer st) (boundaryBuffer st) _); [|exact H].
  match goal with
  | |- context [onFrame ?n ?f st s] =>
      pose proof (onFrame_quiet rid n f st s0 s H) as Hf;
      destruct (onFrame n f st s) as [st1 s1]
  end.
  apply IH. exact Hf.
Qed.

Lemma streamChunk_quiet rid i clock value s0 s :
  quietFor rid s0 s -> quietFor rid s0 (streamChunk i clock value s).
Proof.
  intros H. unfold streamChunk, onChunk.
  destruct (nth_error (streams (relay s)) i) as [st|]; [|exact H]. cbv zeta.
  match goal with
  | |- context [scanFrames ?fu ?c ?k ?t s] =>
      pose proof (scanFrames_quiet rid fu c k t s0 s H) as Hf;
      destruct (scanFrames fu c k t s) as [st1 s1]
  end.
  cbn [snd] in Hf. quiet_auto.
Qed.
#[local] Hint Resolve streamChunk_quiet : quiet.

Lemma streamDone_quiet rid i s0 s :
  quietFor rid s0 s -> quietFor rid s0 (streamDone i s).
Proof. intros H. unfold streamDone. quiet_auto. Qed.
#[local] Hint Resolve streamDone_quiet : quiet.

Lemma streamError_quiet rid now i e s0 s :
  quietFor rid s0 s -> quietFor rid s0 (streamError now i e s).
Proof.
  intros H. unfold streamError.
  destruct (nth_error (streams (relay s)) i); [|exact H]. cbv zeta. quiet_auto.
Qed.
#[local] Hint Resolve streamError_quiet : quiet.

(** The request of another response. *)
Lemma api_camera_quiet rid now id stats s0 s :
  id <> rid -> quietFor rid s0 s -> quietFor rid s0 (api_camera now id stats s).
Proof.
  intros Hne H. unfold api_camera. destruct (isBroken id s); [exact H|]. cbv zeta.
  apply updateUserStatsAndBroadcast_quiet. peel_quiet.
  assert (H0 : quietFor rid s0
             (with_cameraWrites (cameraWrites (runtime s) ++ [(id, WriteOpeningBoundary)]) s)).
  { apply (quiet_trans _ _ _ _ H). intros Hd. split; [exact Hd|].
    cbn [runtime with_cameraWrites set_runtime cameraWrites set_cameraWrites].
    rewrite framesWrittenTo_app. cbn. apply app_nil_r. }
  assert (H1 : quietFor rid s0 (addSubscriber id
             (with_cameraWrites (cameraWrites (runtime s) ++ [(id, WriteOpeningBoundary)]) s))).
  { apply (quiet_trans _ _ _ _ H0). unfold addSubscriber.
    destruct (existsb _ _); [apply quiet_refl|].
    intros Hd. split; [|reflexivity].
    unfold detached in *. cbn in *. intros Hin. apply in_app_or in Hin.
    destruct Hin as [Hin|[E|[]]]; [now apply Hd|]. now apply Hne. }
  destruct (latestFrame _); [|exact H1].
  apply subscriber_quiet; assumption.
Qed.

Lemma api_camera_cleanup_quiet rid now id stats s0 s :
  quietFor rid s0 s -> quietFor rid s0 (api_camera_cleanup now id stats s).
Proof.
  intros H. unfold api_camera_cleanup.
  apply updateUserStatsAndBroadcast_quiet. peel_quiet.
  apply (quiet_trans _ _ _ _ H). intros Hd.
  split; [now apply detached_delete|reflexivity].
Qed.
#[local] Hint Resolve api_camera_cleanup_quiet : quiet.

Lemma startCameraStreaming_call_quiet rid now s0 s :
  quietFor rid s0 s -> quietFor rid s0 (fst (startCameraStreaming_call now s)).
Proof.
  intros H. unfold startCameraStreaming_call.
  destruct (truthy_str _); cbv zeta; cbn [fst]; quiet_auto.
Qed.
#[local] Hint Resolve startCameraStreaming_call_quiet : quiet.

Lemma startCameraStreaming_failed_quiet rid now e s0 s :
  quietFor rid s0 s -> quietFor rid s0 (startCameraStreaming_failed now e s).
Proof. intros H. unfold startCameraStreaming_failed. cbv zeta. quiet_auto. Qed.
#[local] Hint Resolve startCameraStreaming_failed_quiet : quiet.

Lemma startCameraStreaming_fetched_quiet rid now r s0 s :
  quietFor rid s0 s -> quietFor rid s0 (startCameraStreaming_fetched now r s).
Proof.
  intros H. unfold startCameraStreaming_fetched. destruct r; cbv zeta; quiet_auto.
Qed.
#[local] Hint Resolve startCameraStreaming_fetched_quiet : quiet.

Lemma setupCameraURL_answered_quiet rid r s0 s :
  quietFor rid s0 s -> quietFor rid s0 (setupCameraURL_answered r s).
Proof.
  intros H. unfold setupCameraURL_answered.
  destruct r as [e|[cd|]]; [| |exact H]; split_tests; cbv zeta; quiet_auto.
Qed.
#[local] Hint Resolve setupCameraURL_answered_quiet : quiet.

Lemma ensureReconnectSetup_call_quiet rid name s0 s :
  quietFor rid s0 s -> quietFor rid s0 (fst (ensureReconnectSetup_call name s)).
Proof.
  intros H. unfold ensureReconnectSetup_call.
  destruct (reconnectSetupInProgress (supervisor s)); [exact H|].
  cbv zeta. cbn [fst]. destruct (truthy_str name); quiet_auto.
Qed.
#[local] Hint Resolve ensureReconnectSetup_call_quiet : quiet.

Lemma setup_resume_quiet rid now i a s0 s :
  quietFor rid s0 s -> quietFor rid s0 (setup_resume now i a s).
Proof.
  intros H. unfold setup_resume.
  destruct (nth_error (setupTasks (supervisor s)) i) as [q|] eqn:Hnth; [|exact H].
  destruct q, a; try exact H; cbv zeta;
    try (pose proof (startCameraStreaming_call_quiet rid now s0 s H) as Hc;
         destruct (startCameraStreaming_call now s) as [s1 fetching];
         cbn [fst] in Hc);
    quiet_auto.
Qed.
#[local] Hint Resolve setup_resume_quiet : quiet.

Lemma onReconnected_quiet rid name s0 s :
  quietFor rid s0 s -> quietFor rid s0 (onReconnected name s).
Proof. intros H. unfold onReconnected. destruct (negb _); quiet_auto. Qed.
#[local] Hint Resolve onReconnected_quiet : quiet.

Lemma markUnreachable_quiet rid now s0 s :
  quietFor rid s0 s -> quietFor rid s0 (markUnreachable now s).
Proof. intros H. unfold markUnreachable. quiet_auto. Qed.
#[local] Hint Resolve markUnreachable_quiet : quiet.

Lemma reconnectOnData_quiet rid d s0 s :
  quietFor rid s0 s -> quietFor rid s0 (reconnectOnData d s).
Proof. intros H. unfold reconnectOnData. destruct (negb _); quiet_auto. Qed.
#[local] Hint Resolve reconnectOnData_quiet : quiet.

Lemma applyAttributes_quiet rid d s0 s :
  quietFor rid s0 s -> quietFor rid s0 (applyAttributes d s).
Proof. intros H. unfold applyAttributes. destruct (Attributes d); quiet_auto. Qed.
#[local] Hint Resolve applyAttributes_quiet : quiet.

Lemma applyStatus_quiet rid d s0 s :
  quietFor rid s0 s -> quietFor rid s0 (applyStatus d s).
Proof.
  intros H. unfold applyStatus. destruct (Status d); [|exact H].
  destruct (negb _); quiet_auto.
Qed.
#[local] Hint Resolve applyStatus_quiet : quiet.

Lemma applyTelemetry_quiet rid d s0 s :
  quietFor rid s0 s -> quietFor rid s0 (applyTelemetry d s).
Proof.
  intros H. unfold applyTelemetry, applyTemperatures, applyPrintInfo.
  destruct (Status d) as [st|]; [|exact H].
  destruct (PrintInfo st); quiet_auto.
Qed.
#[local] Hint Resolve applyTelemetry_quiet : quiet.

Lemma updatePrinterStatus_quiet rid now data s0 s :
  quietFor rid s0 s -> quietFor rid s0 (updatePrinterStatus now data s).
Proof.
  intros H. unfold updatePrinterStatus. destruct data as [d|]; [|quiet_auto].
  destruct (isFirstUpdate _); quiet_auto.
Qed.
#[local] Hint Resolve updatePrinterStatus_quiet : quiet.

Lemma ensureReconnectSetup_await_quiet rid env now name s0 s :
  quietFor rid s0 s -> quietFor rid s0 (ensureReconnectSetup_await env now name s).
Proof.
  intros H. unfold ensureReconnectSetup_await.
  pose proof (ensureReconnectSetup_call_quiet rid name s0 s H) as Hc.
  destruct (ensureReconnectSetup_call name s) as [s1 started]. cbn [fst] in Hc.
  destruct started; cbv zeta; quiet_auto.
Qed.
#[local] Hint Resolve ensureReconnectSetup_await_quiet : quiet.

Lemma connectToPrinter_quiet rid env now ip name s0 s :
  quietFor rid s0 s -> quietFor rid s0 (fst (connectToPrinter env now ip name s)).
Proof.
  intros H. unfold connectToPrinter.
  destruct (constructor_throws env); [exact H|]. cbv zeta.
  destruct (connect_rejects env); cbn [fst]; quiet_auto.
Qed.
#[local] Hint Resolve connectToPrinter_quiet : quiet.

Lemma autoConnect_discover_quiet rid env now s0 s :
  quietFor rid s0 s -> quietFor rid s0 (fst (autoConnect_discover env now s)).
Proof.
  intros H. unfold autoConnect_discover, scheduleAutoConnect. cbv zeta.
  destruct (_ || _); [|exact H].
  destruct (discover_result env); [|cbn [fst]; quiet_auto].
  destruct (Nat.eqb (List.length (filter _ _)) 0); cbn [fst]; quiet_auto.
Qed.

Lemma autoConnect_quiet rid env now s0 s :
  quietFor rid s0 s -> quietFor rid s0 (autoConnect env now s).
Proof.
  intros H. unfold autoConnect.
  pose proof (autoConnect_discover_quiet rid env now s0 s H) as Hd.
  destruct (autoConnect_discover env now s) as [s1 attempt]. cbn [fst] in Hd.
  destruct (negb attempt); [exact Hd|]. cbv zeta.
  destruct (nth_error _ _) as [printer|]; [|unfold scheduleAutoConnect; quiet_auto].
  match goal with
  | |- context [connectToPrinter ?e ?n ?ip ?nm s1] =>
      pose proof (connectToPrinter_quiet rid e n ip nm s0 s1 Hd) as Hc;
      destruct (connectToPrinter e n ip nm s1) as [s2 [thrown|]]
  end; cbn [fst] in Hc.
  - unfold scheduleAutoConnect. split_tests; quiet_auto.
  - pose proof (startCameraStreaming_call_quiet rid now s0 s2 Hc) as Hs.
    destruct (startCameraStreaming_call now s2) as [s3 fetching]. cbn [fst] in Hs.
    destruct fetching; quiet_auto.
Qed.
#[local] Hint Resolve autoConnect_quiet : quiet.

Lemma fireTimer_quiet rid env now h s0 s :
  quietFor rid s0 s -> quietFor rid s0 (fireTimer env now h s).
Proof.
  intros H. unfold fireTimer, dropTimer, deferredBroadcast, sendAll.
  destruct (findTimer h s) as [t|]; [|exact H]. cbv zeta.
  destruct (action t); split_tests; quiet_auto.
Qed.
#[local] Hint Resolve fireTimer_quiet : quiet.

Lemma wsConnection_quiet rid now id stats s0 s :
  quietFor rid s0 s -> quietFor rid s0 (wsConnection now id stats s).
Proof.
  intros H. unfold wsConnection, buildStatusPayload. cbv zeta.
  destruct (existsb _ _); quiet_auto.
Qed.
#[local] Hint Resolve wsConnection_quiet : quiet.

Lemma wsCleanup_quiet rid now id stats s0 s :
  quietFor rid s0 s -> quietFor rid s0 (wsCleanup now id stats s).
Proof. intros H. unfold wsCleanup. cbv zeta. quiet_auto. Qed.
#[local] Hint Resolve wsCleanup_quiet : quiet.

Lemma api_connect_quiet rid env now ip s0 s :
  quietFor rid s0 s -> quietFor rid s0 (api_connect env now ip s).
Proof.
  intros H. unfold api_connect.
  pose proof (connectToPrinter_quiet rid env now ip None s0 s H) as Hc.
  destruct (connectToPrinter env now ip None s) as [s1 [thrown|]]; cbn [fst] in Hc;
    quiet_auto.
Qed.
#[local] Hint Resolve api_connect_quiet : quiet.

Lemma step_quiet rid (e : event) (s : Server) :
  notAttach rid e -> quietFor rid s (step e s).
Proof.
  intros Hne. unfold step. destruct (exited (runtime s)); [apply quiet_refl|].
  destruct e; cbn [dispatchEvent];
    try (apply api_camera_quiet; [|apply quiet_refl];
         intros ->; now apply (Hne now statsAfter));
    unfold socketState, api_status, buildStatusPayload, connect_call,
      connect_resolved, connect_rejected, responseBroken;
    cbv zeta; cbn [fst]; quiet_auto.
Qed.

Lemma run_quiet rid (es : list event) (s : Server) :
  Forall (notAttach rid) es -> quietFor rid s (run es s).
Proof.
  revert s. induction es as [|e es IH]; intros s H; [apply quiet_refl|].
  inversion H as [|e' es' He Hes]; subst.
  unfold run in *. simpl. eapply quiet_trans; [apply step_quiet; exact He|].
  apply IH. exact Hes.
Qed.

(** X24.  No frame is written to a camera response that is not
    subscribed: from a state in which the response is not in
    [cameraSubscribers] (before its request, after its [close] or [error], or
    after a write to it threw), through any run of the event loop without a
    new request for it, the response stays unsubscribed and the frames
    written to it stay as they were. *)
Theorem X24_no_frame_for_a_closed_response :
  forall (rid : nat) (es : list event) (s : Server),
    detached rid s ->
    Forall (notAttach rid) es ->
    detached rid (run es s)
    /\ framesWrittenTo rid (cameraWrites (runtime (run es s)))
       = framesWrittenTo rid (cameraWrites (runtime s)).
Proof. intros rid es s Hd Hes. exact (run_quiet rid es s Hes Hd). Qed.

Lemma X24_witness :
  framesWrittenTo 4
    (cameraWrites (runtime
       (run [ EvCameraAttach 30 5 (userStats (initialServer None)); EvApiStatus ]
            closedResponse)))
  = [oneFrame].
Proof.
  assert (Hd : detached 4 closedResponse) by (vm_compute; intros H; exact H).
  assert (Hes : Forall (notAttach 4)
                  [ EvCameraAttach 30 5 (userStats (initialServer None)); EvApiStatus ])
    by (repeat constructor; intros now st; discriminate).
  rewrite (proj2 (X24_no_frame_for_a_closed_response 4 _ closedResponse Hd Hes)).
  reflexivity.
Defined.

(** ** The read loop and the cuts between chunks *)

Lemma skipn_app_le {A} (n : nat) (a b : list A) :
  (n <= List.length a)%nat -> skipn n (a ++ b) = skipn n a ++ b.
Proof.
  intros H. rewrite skipn_app. replace (n - List.length a)%nat with 0%nat by lia.
  reflexivity.
Qed.

Lemma firstn_app_le {A} (n : nat) (a b : list A) :
  (n <= List.length a)%nat -> firstn n (a ++ b) = firstn n a.
Proof.
  intros H. rewrite firstn_app. replace (n - List.length a)%nat with 0%nat by lia.
  cbn. apply app_nil_r.
Qed.

(** What [indexOf] finds in a buffer it finds in every extension of it. *)
Lemma indexOf_app (buf rest needle : list Byte.byte) (off i : nat) :
  (off <= List.length buf)%nat ->
  indexOf buf needle off = Some i ->
  indexOf (buf ++ rest) needle off = Some i.
Proof.
  intros Hoff. unfold indexOf. rewrite (skipn_app_le off buf rest Hoff).
  destruct (indexFrom0 needle (skipn off buf)) as [j|] eqn:E; [|discriminate].
  now rewrite (indexFrom0_app _ _ rest j E).
Qed.

Lemma indexOf_fits (buf needle : list Byte.byte) (off i : nat) :
  (off <= List.length buf)%nat ->
  indexOf buf needle off = Some i ->
  (i + List.length needle <= List.length buf)%nat.
Proof.
  intros Hoff. unfold indexOf.
  destruct (indexFrom0 needle (skipn off buf)) as [j|] eqn:E; [|discriminate].
  intros [= <-]. apply indexFrom0_fits in E. rewrite length_skipn in E. lia.
Qed.

Lemma byteAt_app (buf rest : list Byte.byte) (i : nat) (b : Byte.byte) :
  (i < List.length buf)%nat -> byteAt (buf ++ rest) i b = byteAt buf i b.
Proof. intros H. unfold byteAt. now rewrite nth_error_app1. Qed.

Lemma subarray_app (buf rest : list Byte.byte) (start stop : nat) :
  (stop <= List.length buf)%nat ->
  subarray (buf ++ rest) start stop = subarray buf start stop.
Proof.
  intros H. unfold subarray.
  destruct (Nat.le_gt_cases start (List.length buf)) as [Hs|Hs].
  - rewrite (skipn_app_le start buf rest Hs). apply firstn_app_le.
    rewrite length_skipn. lia.
  - replace (stop - start)%nat with 0%nat by lia. reflexivity.
Qed.

Lemma onFrame_withBuffer now f buf st s :
  onFrame now f (withBuffer buf st) s
  = (withBuffer buf (fst (onFrame now f st s)), snd (onFrame now f st s)).
Proof.
  unfold onFrame, withBuffer. cbn [lastFrameTime boundaryBuffer buffer].
  destruct (0 <? List.length f)%nat; [|reflexivity].
  destruct (intervalElapsed now (lastFrameTime st)); reflexivity.
Qed.

(** The clock of a later chunk is the clock of the stream, shifted. *)
Lemma scanFrames_shift (fuel : nat) (clock : nat -> Z) (n k : nat) (st : Stream)
    (s : Server) :
  scanFrames fuel (fun j => clock (n + j)%nat) k st s
  = scanFrames fuel clock (n + k) st s.
Proof.
  revert k st s. induction fuel as [|fuel IH]; intros k st s; [reflexivity|].
  cbn [scanFrames].
  destruct (indexOf (buffer st) (boundaryBuffer st) 0); [|reflexivity].
  destruct (indexOf (buffer st) CRLFCRLF _); [|reflexivity].
  destruct (indexOf (buffer st) (boundaryBuffer st) _); [|reflexivity].
  cbv zeta. destruct (onFrame _ _ st s) as [st1 s1].
  rewrite IH. destruct (0 <? _)%nat; [|reflexivity].
  now rewrite Nat.add_succ_r.
Qed.

Lemma scanFrames_buffer_length (fuel : nat) (clock : nat -> Z) (k : nat)
    (st : Stream) (s : Server) :
  (List.length (buffer (fst (scanFrames fuel clock k st s)))
   <= List.length (buffer st))%nat
  /\ boundaryBuffer (fst (scanFrames fuel clock k st s)) = boundaryBuffer st.
Proof.
  revert k st s. induction fuel as [|fuel IH]; intros k st s; [split; reflexivity|].
  cbn [scanFrames].
  destruct (indexOf (buffer st) (boundaryBuffer st) 0); [|split; reflexivity].
  destruct (indexOf (buffer st) CRLFCRLF _); [|split; reflexivity].
  destruct (indexOf (buffer st) (boundaryBuffer st) _) as [nb|]; [|split; reflexivity].
  cbv zeta.
  match goal with
  | |- context [onFrame ?t ?f st s] =>
      destruct (onFrame_buffer t f st s) as [Hb Hbd];
      destruct (onFrame t f st s) as [st1 s1]
  end.
  cbn [fst] in Hb, Hbd.
  match goal with
  | |- context [scanFrames fuel clock ?k1 ?st2 s1] =>
      destruct (IH k1 st2 s1) as [Hl Hbb]
  end.
  cbn [buffer boundaryBuffer] in Hl, Hbb. split.
  - eapply Nat.le_trans; [exact Hl|]. rewrite length_skipn, Hb. lia.
  - now rewrite Hbb.
Qed.

(** The loop on a buffer, then on what it left with more bytes appended,
    against the loop on the buffer with those bytes appended at once. *)
Lemma scanFrames_extend (fuel : nat) :
  forall (clock : nat -> Z) (k : nat) (st : Stream) (s : Server)
         (more : list Byte.byte),
    (List.length (buffer st) < fuel)%nat ->
    exists n,
      forall fuelA fuelB,
        (List.length (buffer st) + List.length more < fuelA)%nat ->
        (List.length (buffer st) + List.length more < fuelB)%nat ->
        scanFrames fuelA clock (k + n)
          (withBuffer (buffer (fst (scanFrames fuel clock k st s)) ++ more)
             (fst (scanFrames fuel clock k st s)))
          (snd (scanFrames fuel clock k st s))
        = scanFrames fuelB clock k (withBuffer (buffer st ++ more) st) s.
Proof.
  induction fuel as [|fuel IH]; intros clock k st s more Hfuel; [lia|].
  cbn [scanFrames].
  set (B := boundaryBuffer st). set (b := buffer st) in *.
  assert (Hstop : exists n, forall fuelA fuelB,
            (List.length b + List.length more < fuelA)%nat ->
            (List.length b + List.length more < fuelB)%nat ->
            scanFrames fuelA clock (k + n) (withBuffer (buffer st ++ more) st) s
            = scanFrames fuelB clock k (withBuffer (b ++ more) st) s).
  { exists 0%nat. intros fuelA fuelB HA HB. rewrite Nat.add_0_r. fold b.
    destruct (Nat.le_ge_cases fuelA fuelB) as [Hle|Hle].
    - replace fuelB with (fuelA + (fuelB - fuelA))%nat by lia.
      symmetry. apply scanFrames_fuel. cbn. rewrite length_app. lia.
    - replace fuelA with (fuelB + (fuelA - fuelB))%nat by lia.
      apply scanFrames_fuel. cbn. rewrite length_app. lia. }
  destruct (indexOf b B 0) as [bi|] eqn:Ebi; [|exact Hstop].
  destruct (indexOf b CRLFCRLF (bi + List.length B)) as [he|] eqn:Ehe; [|exact Hstop].
  destruct (indexOf b B (he + 4)) as [nb|] eqn:Enb; [|exact Hstop].
  clear Hstop. cbv zeta.
  pose proof (indexOf_fits b B 0 bi ltac:(lia) Ebi) as Fbi.
  pose proof (indexOf_fits b CRLFCRLF (bi + List.length B) he ltac:(lia) Ehe) as Fhe.
  cbn [List.length CRLFCRLF] in Fhe.
  pose proof (indexOf_fits b B (he + 4) nb ltac:(lia) Enb) as Fnb.
  pose proof (indexOf_offset b B (he + 4) nb Enb) as Onb.
  set (frameEnd := if byteAt b (nb - 2) Byte.x0d && byteAt b (nb - 1) Byte.x0a
                   then (nb - 2)%nat
                   else if byteAt b (nb - 1) Byte.x0a then (nb - 1)%nat else nb).
  set (f := subarray b (he + 4) frameEnd).
  set (k1 := if (0 <? List.length f)%nat then S k else k).
  destruct (onFrame_buffer (clock k) f st s) as [Hb1 Hbd1].
  destruct (onFrame (clock k) f st s) as [st1 s1] eqn:Eon. cbn [fst snd] in Hb1, Hbd1.
  set (st2 := {| boundaryBuffer := boundaryBuffer st1;
                 buffer := skipn nb (buffer st1);
                 lastFrameTime := lastFrameTime st1 |}).
  assert (Hlen2 : (List.length (buffer st2) < fuel)%nat).
  { cbn [buffer st2]. rewrite Hb1, length_skipn. fold b. lia. }
  destruct (IH clock k1 st2 s1 more Hlen2) as [n Hn].
  exists ((k1 - k) + n)%nat. intros fuelA fuelB HA HB.
  replace (k + (k1 - k + n))%nat with (k1 + n)%nat
    by (unfold k1; destruct (0 <? List.length f)%nat; lia).
  destruct fuelB as [|fuelB]; [lia|].
  assert (Hlen2' : (List.length (buffer st2) + List.length more < fuelB)%nat).
  { cbn [buffer st2]. rewrite Hb1, length_skipn. fold b. lia. }
  assert (HlenA : (List.length (buffer st2) + List.length more < fuelA)%nat).
  { cbn [buffer st2]. rewrite Hb1, length_skipn. fold b. lia. }
  rewrite (Hn fuelA fuelB HlenA Hlen2').
  (* the first turn of the loop on the longer buffer *)
  cbn [scanFrames]. cbn [buffer boundaryBuffer withBuffer]. fold B. fold b.
  rewrite (indexOf_app b more B 0 bi ltac:(lia) Ebi).
  rewrite (indexOf_app b more CRLFCRLF (bi + List.length B) he ltac:(lia) Ehe).
  rewrite (indexOf_app b more B (he + 4) nb ltac:(lia) Enb).
  cbv zeta.
  rewrite !(byteAt_app b more) by lia. fold frameEnd.
  assert (Hfe : (frameEnd <= List.length b)%nat).
  { unfold frameEnd. destruct (_ && _); [lia|]. destruct (byteAt _ _ _); lia. }
  rewrite (subarray_app b more (he + 4) frameEnd Hfe). fold f.
  change {| boundaryBuffer := B; buffer := b ++ more; lastFrameTime := lastFrameTime st |}
    with (withBuffer (b ++ more) st).
  rewrite onFrame_withBuffer, Eon. cbn [fst snd withBuffer buffer boundaryBuffer
    lastFrameTime]. fold k1.
  rewrite (skipn_app_le nb b more ltac:(lia)).
  unfold withBuffer, st2. cbn [buffer boundaryBuffer lastFrameTime].
  rewrite Hb1. reflexivity.
Qed.

(** X25.  The read loop does not depend on where the stream is cut into
    chunks: reading a chunk and then a second one leaves the stream state and
    the server exactly as reading the two as one chunk does, the clock
    readings taken in the same order. *)
Theorem X25_read_loop_is_insensitive_to_chunking :
  forall (clock : nat -> Z) (first second : list Byte.byte) (st : Stream)
         (s : Server),
    exists n,
      onChunk (fun j => clock (n + j)%nat) second
        (fst (onChunk clock first st s)) (snd (onChunk clock first st s))
      = onChunk clock (first ++ second) st s.
Proof.
  intros clock v1 v2 st s. unfold onChunk. cbv zeta.
  set (st0 := {| boundaryBuffer := boundaryBuffer st; buffer := buffer st ++ v1;
                 lastFrameTime := lastFrameTime st |}).
  destruct (scanFrames_extend (S (List.length (buffer st0))) clock 0 st0 s v2
              ltac:(lia)) as [n Hn].
  exists n.
  set (r := scanFrames (S (List.length (buffer st0))) clock 0 st0 s) in *.
  destruct (scanFrames_buffer_length (S (List.length (buffer st0))) clock 0 st0 s)
    as [Hlen _]. fold r in Hlen.
  rewrite scanFrames_shift, Nat.add_0_r.
  change {| boundaryBuffer := boundaryBuffer (fst r);
            buffer := buffer (fst r) ++ v2;
            lastFrameTime := lastFrameTime (fst r) |}
    with (withBuffer (buffer (fst r) ++ v2) (fst r)).
  replace {| boundaryBuffer := boundaryBuffer st;
             buffer := buffer st ++ v1 ++ v2;
             lastFrameTime := lastFrameTime st |}
    with (withBuffer (buffer st0 ++ v2) st0)
    by (unfold withBuffer, st0; cbn; now rewrite <- app_assoc).
  set (fuelB := S (List.length (buffer (withBuffer (buffer st0 ++ v2) st0)))).
  set (fuelA := S (List.length (buffer (withBuffer (buffer (fst r) ++ v2) (fst r))))).
  assert (EB : fuelB = S (List.length (buffer st0) + List.length v2))
    by (unfold fuelB, withBuffer; cbn [buffer]; now rewrite length_app).
  assert (EA : fuelA = S (List.length (buffer (fst r)) + List.length v2))
    by (unfold fuelA, withBuffer; cbn [buffer]; now rewrite length_app).
  assert (HB : (List.length (buffer st0) + List.length v2 < fuelB)%nat) by lia.
  rewrite <- (Hn fuelB fuelB HB HB). cbn [Nat.add].
  replace fuelB with (fuelA + (fuelB - fuelA))%nat by lia.
  symmetry. apply scanFrames_fuel.
  unfold withBuffer. cbn [buffer]. rewrite length_app. lia.
Qed.
